(** * HuggingFaceAPIChatGenerator: a shallow embedding and its properties

    The development follows
    [haystack/components/generators/chat/hugging_face_api.py]: the tool-call
    normalizer, the finish-reason mapper, the stream-chunk translator, the
    constructor and the [run] / [run_async] entry points with their
    streaming and non-streaming paths.

    Python objects that the code only reads are modelled by value; the
    generation parameters, which the constructor copies and mutates, live
    in an explicit store of dict and list objects.  Logging, vendor
    requests, callback invocations and clock reads are effects of a small
    state-and-exception monad. *)

From Stdlib Require Import ZArith List Bool Ascii String Lia.
From stdpp Require Import base option list gmap strings.

Set Warnings "-register-all".
Local Open Scope Z_scope.

(** ** Python values *)

(** A binary float: not-a-number, an infinity, or [(-1)^neg * m * 2^e]. *)
Inductive pyfloat :=
  | FNaN
  | FInf (neg : bool)
  | FFinite (neg : bool) (m : N) (e : Z).

(** The objects [json.loads] can build, which are also the payloads found in
    vendor records and in metadata mappings.  A dict keeps its insertion
    order. *)
Inductive value :=
  | VNone
  | VBool (b : bool)
  | VInt (n : Z)
  | VFloat (f : pyfloat)
  | VStr (s : string)
  | VList (xs : list value)
  | VDict (kvs : list (string * value)).

(** Python truthiness, as used by [if arguments:]. *)
Definition truthy (v : value) : bool :=
  match v with
  | VNone => false
  | VBool b => b
  | VInt n => negb (n =? 0)
  | VFloat (FFinite _ m _) => negb (m =? 0)%N
  | VFloat _ => true
  | VStr s => negb (String.eqb s "")
  | VList xs => match xs with [] => false | _ => true end
  | VDict kvs => match kvs with [] => false | _ => true end
  end.

(** [isinstance(v, dict)] and [isinstance(v, str)]. *)
Definition is_dict (v : value) : bool :=
  match v with VDict _ => true | _ => false end.


(** A non-empty mapping: what a [ToolCall] is meant to carry. *)
Definition nonempty_mapping (v : value) : Prop :=
  ∃ kvs, v = VDict kvs ∧ kvs ≠ [].

(** ** The store of mutable objects

    Generation parameters are dicts whose entries are scalars or references
    to further dict and list objects. *)
Definition loc := positive.

Inductive pyval :=
  | PNone
  | PBool (b : bool)
  | PInt (n : Z)
  | PFloat (f : pyfloat)
  | PStr (s : string)
  | PRef (l : loc).

Inductive pyobj :=
  | ODict (d : gmap string pyval)
  | OList (xs : list pyval).

(** ** Exceptions *)

Inductive config_error :=
  | UnknownApiType (s : string)
  | MissingModel
  | MissingUrl
  | InvalidUrl (url : string)
  | ToolsAndStreaming
  | DuplicateToolNames
  | CallbackMode.

(** [Propagated] is an exception of a collaborator outside this file,
    which the component passes on as it is. *)
Inductive exn :=
  | ValueError (e : config_error)
  | TypeError (msg : string)
  | AttributeError (msg : string)
  | Propagated (msg : string).

(** What [json.loads] does with a string: it returns the decoded object,
    raises [json.JSONDecodeError], or raises another exception, as it does
    with [ValueError] on an integer literal longer than the interpreter's
    digit limit and with [RecursionError] on deep nesting. *)
Module Json.
Inductive result :=
  | Decoded (v : value)
  | JSONDecodeError
  | Raises (e : exn).
End Json.

(** ** Vendor records (huggingface_hub) *)

Module Fn.
Record t := { name : string; arguments : value }.
End Fn.

(** [ChatCompletionOutputToolCall] *)
Module HFToolCall.
Record t := { id : string; function : Fn.t }.
End HFToolCall.

Module Usage.
Record t := { prompt_tokens : Z; completion_tokens : Z }.
End Usage.

(** [ChatCompletionStreamOutputDelta]: [tool_calls] is only tested against
    [None], so its elements are kept as raw values. *)
Module Delta.
Record t := {
  content : option string;
  tool_calls : option (list value);
  tool_call_id : option string
}.
End Delta.

(** [ChatCompletionStreamOutputChoice] *)
Module StreamChoice.
Record t := { delta : Delta.t; finish_reason : option string }.
End StreamChoice.

(** [ChatCompletionStreamOutput] *)
Module StreamOutput.
Record t := {
  choices : list StreamChoice.t;
  model : string;
  usage : option Usage.t
}.
End StreamOutput.

Module OutMessage.
Record t := {
  content : option string;
  tool_calls : option (list HFToolCall.t)
}.
End OutMessage.

(** [ChatCompletionOutputComplete] *)
Module OutChoice.
Record t := { message : OutMessage.t; finish_reason : string; index : Z }.
End OutChoice.

(** [ChatCompletionOutput] *)
Module ChatOutput.
Record t := { choices : option (list OutChoice.t); usage : option Usage.t }.
End ChatOutput.

(** ** Haystack records *)

(** The literal type [FinishReason] of [haystack.dataclasses.streaming_chunk]. *)
Module FinishReason.
Inductive t :=
  | stop
  | length
  | tool_calls
  | content_filter
  | tool_call_results.
End FinishReason.

Module ToolCall.
Record t := { tool_name : string; arguments : value; id : option string }.
End ToolCall.

Module ComponentInfo.
Record t := { type : string; name : option string }.
End ComponentInfo.

(** Modelled from the spec: the [StreamingChunk] dataclass is declared
    outside this file.  It has a content fragment, a metadata mapping, an
    optional index, a start flag and an optional finish reason; a field
    that a constructor call leaves out is absent, or false for the flag.
    The translator never sets [tool_calls] or [tool_call_result], so they
    are left out. *)
Module StreamingChunk.
Record t := {
  content : string;
  meta : gmap string value;
  component_info : option ComponentInfo.t;
  index : option Z;
  start : bool;
  finish_reason : option FinishReason.t
}.
End StreamingChunk.

Module ChatRole.
Inductive t := system | user | assistant | tool.
End ChatRole.

Module ChatMessage.
Record t := {
  role : ChatRole.t;
  text : option string;
  tool_calls : list ToolCall.t;
  meta : gmap string value
}.

Definition from_assistant (text : option string) (tool_calls : list ToolCall.t)
    (meta : gmap string value) : t :=
  {| role := ChatRole.assistant; text := text; tool_calls := tool_calls; meta := meta |}.
End ChatMessage.

Module Tool.
Record t := { name : string; description : string; parameters : value }.
End Tool.

(** [tools] is a plain list of tools or a [Toolset]; both iterate over their
    tools and are truthy when they hold at least one. *)
Inductive tools_arg :=
  | ToolList (ts : list Tool.t)
  | Toolset (ts : list Tool.t).

(** [ChatCompletionInputTool], with its function definition inlined. *)
Module HFTool.
Record t := { name : string; description : string; parameters : value }.
End HFTool.

(** ** Effects *)

(** [logger.warning(template, **fields)]: the log keeps the template and
    the fields it was called with. *)
Module Warning.
Record t := { template : string; fields : list (string * value) }.
End Warning.

(** [InferenceClient] / [AsyncInferenceClient] as constructed by [__init__]:
    the target, the token and the further keyword arguments the client was
    built from. *)
Module Client.
Record t := {
  model : string;
  token : option string;
  params : gmap string string
}.
End Client.

(** The arguments with which a vendor client's [chat_completion] is entered:
    the point where the request goes out. *)
Module Request.
Record t := {
  async : bool;
  client : Client.t;
  messages : list (gmap string value);
  stream : bool;
  include_usage : bool;
  tools : option (list HFTool.t);
  kwargs : gmap string pyval
}.
End Request.

(** What a call leaves behind, in the order it happened. *)
Inductive event :=
  | EvWarning (w : Warning.t)
  | EvRequest (r : Request.t)
  | EvCallback (cb : string) (c : StreamingChunk.t).

Module State.
Record t := {
  heap : gmap loc pyobj;
  trace : list event;
  ticks : nat
}.
End State.

(** A computation either raises or returns, and in both cases leaves a
    state: effects performed before an exception are kept. *)
Definition M (A : Type) : Type := State.t → (exn + A) * State.t.

Definition ret {A} (a : A) : M A := λ st, (inr a, st).

Definition raise {A} (e : exn) : M A := λ st, (inl e, st).

Definition bind {A B} (m : M A) (k : A → M B) : M B :=
  λ st, match m st with
        | (inl e, st') => (inl e, st')
        | (inr a, st') => k a st'
        end.

Notation "'let*' x ':=' m 'in' k" := (bind m (λ x, k))
  (at level 10, x pattern, m at level 100, k at level 200, only parsing).
Notation "m ';;' k" := (bind m (λ _, k))
  (at level 100, k at level 200, right associativity, only parsing).

(** Lift a pure fallible step. *)
Definition lift {A} (r : exn + A) : M A :=
  match r with inl e => raise e | inr a => ret a end.

Definition emit (ev : event) : M unit :=
  λ st, (inr tt, {| State.heap := State.heap st;
                    State.trace := State.trace st ++ [ev];
                    State.ticks := State.ticks st |}).

(** A [for] loop threading an accumulator. *)
Fixpoint for_each {A B} (body : B → A → M B) (acc : B) (xs : list A) : M B :=
  match xs with
  | [] => ret acc
  | x :: xs' => let* acc' := body acc x in for_each body acc' xs'
  end.

(** A list comprehension whose element expression may raise. *)
Fixpoint comprehension {A B} (f : A → exn + B) (xs : list A) : M (list B) :=
  match xs with
  | [] => ret []
  | x :: xs' =>
      let* y := lift (f x) in
      let* ys := comprehension f xs' in
      ret (y :: ys)
  end.

(** The requests and the callback arguments found in a trace, in order. *)
Definition requests_of (tr : list event) : list Request.t :=
  omap (λ ev, match ev with EvRequest r => Some r | _ => None end) tr.

Definition callbacks_of (tr : list event) : list StreamingChunk.t :=
  omap (λ ev, match ev with EvCallback _ c => Some c | _ => None end) tr.

(** [datetime.now().isoformat()]: the [n]-th read of the clock. *)
Definition now (isoformat_now : nat → string) : M string :=
  λ st, (inr (isoformat_now (State.ticks st)),
         {| State.heap := State.heap st;
            State.trace := State.trace st;
            State.ticks := S (State.ticks st) |}).

(** ** Module-level functions *)

Definition malformed_json_template : string :=
  "HuggingFace API returned a malformed JSON string for tool call arguments. This tool call will be skipped. Tool call ID: {_id}, Tool name: {_name}, Arguments: {_arguments}".

Definition unexpected_type_template : string :=
  "HuggingFace API returned tool call arguments of type {_type}. Valid types are dict and str. This tool call will be skipped. Tool call ID: {_id}, Tool name: {_name}, Arguments: {_arguments}".

Definition tool_call_warning (template : string) (hfapi_tc : HFToolCall.t) : Warning.t :=
  {| Warning.template := template;
     Warning.fields :=
       [("_id", VStr (HFToolCall.id hfapi_tc));
        ("_name", VStr (Fn.name (HFToolCall.function hfapi_tc)));
        ("_arguments", Fn.arguments (HFToolCall.function hfapi_tc))] |}.

Section Normalizer.
Variable json_loads : string → Json.result.

(** The [arguments] variable of one loop iteration, after the type
    dispatch on [hf_arguments]. *)
Definition parse_arguments (hfapi_tc : HFToolCall.t) : M (option value) :=
  let hf_arguments := Fn.arguments (HFToolCall.function hfapi_tc) in
  match hf_arguments with
  | VDict _ => ret (Some hf_arguments)
  | VStr s =>
      (* only [json.JSONDecodeError] is caught *)
      match json_loads s with
      | Json.Decoded v => ret (Some v)
      | Json.JSONDecodeError =>
          emit (EvWarning (tool_call_warning malformed_json_template hfapi_tc));;
          ret None
      | Json.Raises e => raise e
      end
  | _ =>
      emit (EvWarning (tool_call_warning unexpected_type_template hfapi_tc));;
      ret None
  end.

(** One iteration of the loop; [if arguments:] is false on [None] and on
    a falsy parsed value. *)
Definition convert_body (tool_calls : list ToolCall.t) (hfapi_tc : HFToolCall.t)
    : M (list ToolCall.t) :=
  let* arguments := parse_arguments hfapi_tc in
  match arguments with
  | Some v =>
      if truthy v then
        ret (tool_calls ++
             [{| ToolCall.tool_name := Fn.name (HFToolCall.function hfapi_tc);
                 ToolCall.arguments := v;
                 ToolCall.id := Some (HFToolCall.id hfapi_tc) |}])
      else ret tool_calls
  | None => ret tool_calls
  end.

Definition _convert_hfapi_tool_calls (hfapi_tool_calls : option (list HFToolCall.t))
    : M (list ToolCall.t) :=
  match hfapi_tool_calls with
  | None | Some [] => ret []
  | Some tcs => for_each convert_body [] tcs
  end.
End Normalizer.

Definition _convert_tools_to_hfapi_tools (tools : option (list Tool.t))
    : option (list HFTool.t) :=
  match tools with
  | None | Some [] => None
  | Some ts =>
      Some (map (λ tool, {| HFTool.name := Tool.name tool;
                            HFTool.description := Tool.description tool;
                            HFTool.parameters := Tool.parameters tool |}) ts)
  end.

(** The [mapping] dict of [_map_hf_finish_reason_to_haystack]. *)
Definition finish_reason_mapping : gmap string FinishReason.t :=
  <["stop_sequence" := FinishReason.stop]>
    (<["eos_token" := FinishReason.stop]>
       (<["length" := FinishReason.length]> ∅)).

Definition has_tool_calls (d : Delta.t) : bool :=
  match Delta.tool_calls d, Delta.tool_call_id d with
  | None, None => false
  | _, _ => true
  end.

Definition _map_hf_finish_reason_to_haystack (choice : StreamChoice.t)
    : option FinishReason.t :=
  match StreamChoice.finish_reason choice with
  | None => None
  | Some reason =>
      if has_tool_calls (StreamChoice.delta choice) then Some FinishReason.tool_calls
      else Some (default FinishReason.stop (finish_reason_mapping !! reason))
  end.

(** The [usage] dict built from a vendor usage object. *)
Definition usage_dict (prompt completion : Z) : value :=
  VDict [("prompt_tokens", VInt prompt); ("completion_tokens", VInt completion)].

Definition opt_str (o : option string) : value :=
  match o with Some s => VStr s | None => VNone end.

(** Truthiness of an [Optional[str]]. *)
Definition str_truthy (o : option string) : bool :=
  match o with
  | Some s => negb (String.eqb s "")
  | None => false
  end.

Section Translator.
Variable isoformat_now : nat → string.

Definition _convert_chat_completion_stream_output_to_streaming_chunk
    (chunk : StreamOutput.t) (previous_chunks : list StreamingChunk.t)
    (component_info : option ComponentInfo.t) : M StreamingChunk.t :=
  match StreamOutput.choices chunk with
  | [] =>
      let usage :=
        match StreamOutput.usage chunk with
        | Some u => usage_dict (Usage.prompt_tokens u) (Usage.completion_tokens u)
        | None => VNone
        end in
      let* received_at := now isoformat_now in
      ret {| StreamingChunk.content := "";
             StreamingChunk.meta :=
               <["usage" := usage]>
                 (<["received_at" := VStr received_at]>
                    (<["model" := VStr (StreamOutput.model chunk)]> ∅));
             StreamingChunk.component_info := component_info;
             StreamingChunk.index := None;
             StreamingChunk.start := false;
             StreamingChunk.finish_reason := None |}
  | choice :: _ =>
      let mapped_finish_reason :=
        if str_truthy (StreamChoice.finish_reason choice)
        then _map_hf_finish_reason_to_haystack choice
        else None in
      let* received_at := now isoformat_now in
      ret {| StreamingChunk.content :=
               match Delta.content (StreamChoice.delta choice) with
               | Some s => s
               | None => ""
               end;
             StreamingChunk.meta :=
               <["finish_reason" := opt_str (StreamChoice.finish_reason choice)]>
                 (<["received_at" := VStr received_at]>
                    (<["model" := VStr (StreamOutput.model chunk)]> ∅));
             StreamingChunk.component_info := component_info;
             StreamingChunk.index :=
               match StreamChoice.finish_reason choice with
               | None => Some 0
               | Some _ => None
               end;
             StreamingChunk.start := (List.length previous_chunks =? 0)%nat;
             StreamingChunk.finish_reason := mapped_finish_reason |}
  end.
End Translator.

(** ** Store operations *)

Definition set_heap (h : gmap loc pyobj) (st : State.t) : State.t :=
  {| State.heap := h; State.trace := State.trace st; State.ticks := State.ticks st |}.

(** A new object at an address the store does not use yet. *)
Definition alloc (o : pyobj) : M loc :=
  λ st, let l := fresh (dom (State.heap st)) in
        (inr l, set_heap (<[l := o]> (State.heap st)) st).

Definition write (l : loc) (o : pyobj) : M unit :=
  λ st, (inr tt, set_heap (<[l := o]> (State.heap st)) st).

(** Use an object as a dict; anything else has none of the dict methods. *)
Definition read_dict (l : loc) : M (gmap string pyval) :=
  λ st, match State.heap st !! l with
        | Some (ODict d) => (inr d, st)
        | _ => (inl (AttributeError "dict"), st)
        end.

(** [v.extend(xs)]: only a list object has the method. *)
Definition list_extend (v : pyval) (xs : list pyval) : M unit :=
  match v with
  | PRef l =>
      λ st, match State.heap st !! l with
            | Some (OList ys) => write l (OList (ys ++ xs)) st
            | _ => (inl (AttributeError "extend"), st)
            end
  | _ => raise (AttributeError "extend")
  end.

(** [{**a, **b}]: the entries of [b] win. *)
Definition dict_merge (a b : gmap string pyval) : gmap string pyval := b ∪ a.

(** A call that passes [**kwargs] next to arguments named [given] raises
    [TypeError] when [kwargs] repeats one of them. *)
Definition kwargs_clash {V} (given : list string) (kwargs : gmap string V) : bool :=
  existsb (λ k, bool_decide (is_Some (kwargs !! k))) given.

(** ** Framework helpers used by the component *)

Module Callback.
(** A streaming callback: whether it is a coroutine function, and what
    calling it on a chunk does ([Some e]: it raises [e]). *)
Record t := {
  name : string;
  is_async : bool;
  call : StreamingChunk.t → option exn
}.
End Callback.

Module Secret.
Record t := { resolve_value : exn + option string }.
End Secret.

(** Modelled from the spec: [HFGenerationAPIType] of [haystack.utils.hf],
    the API variant selector (hosted-inference, dedicated-endpoint,
    self-hosted-server); an unknown variant string is a configuration
    error.  The strings are those of the constructor's docstring. *)
Module HFGenerationAPIType.
Inductive t :=
  | TEXT_GENERATION_INFERENCE
  | INFERENCE_ENDPOINTS
  | SERVERLESS_INFERENCE_API.

Definition from_str (s : string) : exn + t :=
  if String.eqb s "text_generation_inference" then inr TEXT_GENERATION_INFERENCE
  else if String.eqb s "inference_endpoints" then inr INFERENCE_ENDPOINTS
  else if String.eqb s "serverless_inference_api" then inr SERVERLESS_INFERENCE_API
  else inl (ValueError (UnknownApiType s)).
End HFGenerationAPIType.

(** Truthiness of [tools]: [None] and an empty collection are falsy. *)
Definition tools_list (ts : tools_arg) : list Tool.t :=
  match ts with ToolList l | Toolset l => l end.

Definition tools_truthy (tools : option tools_arg) : bool :=
  match tools with
  | Some ts => match tools_list ts with [] => false | _ => true end
  | None => false
  end.

(** [tools or other] *)
Definition tools_or (tools other : option tools_arg) : option tools_arg :=
  if tools_truthy tools then tools else other.

(** [list(tools or [])] *)
Definition tools_or_empty (tools : option tools_arg) : list Tool.t :=
  if tools_truthy tools then from_option tools_list [] tools else [].

(** Modelled from the spec: [_check_duplicate_tool_names] of
    [haystack.tools]; duplicate tool names are rejected with a
    configuration error. *)
Definition _check_duplicate_tool_names (tools : list Tool.t) : exn + unit :=
  if bool_decide (NoDup (map Tool.name tools)) then inr tt
  else inl (ValueError DuplicateToolNames).

(** Modelled from the spec: [select_streaming_callback] of
    [haystack.dataclasses]; the effective callback is resolved by override
    precedence, call-time argument over instance default, and must match
    the call's sync/async mode. *)
Definition select_streaming_callback (init_callback runtime_callback : option Callback.t)
    (requires_async : bool) : exn + option Callback.t :=
  let effective :=
    match runtime_callback with
    | Some cb => Some cb
    | None => init_callback
    end in
  match effective with
  | Some cb =>
      if Bool.eqb (Callback.is_async cb) requires_async then inr effective
      else inl (ValueError CallbackMode)
  | None => inr None
  end.

(** [meta.get("usage") is None]: the key is missing or bound to [None]. *)
Definition usage_is_none (meta : gmap string value) : bool :=
  match meta !! "usage" with
  | None | Some VNone => true
  | Some _ => false
  end.

Definition carries_usage (c : StreamingChunk.t) : bool :=
  negb (usage_is_none (StreamingChunk.meta c)).

(** The last chunk whose metadata carries a usage object, if any. *)
Definition last_with_usage (chunks : list StreamingChunk.t) : option StreamingChunk.t :=
  last (filter (λ c, carries_usage c = true) chunks).

(** Modelled from the spec: [_convert_streaming_chunks_to_chat_message] of
    [haystack.components.generators.utils], the fold of the Stream
    Accumulator: the text is the concatenation of all chunk contents in
    order, the metadata is seeded from the metadata of the last chunk that
    carries a usage object, and tool calls are always empty on this
    path. *)
Definition _convert_streaming_chunks_to_chat_message (chunks : list StreamingChunk.t)
    : ChatMessage.t :=
  ChatMessage.from_assistant
    (Some (String.concat "" (map StreamingChunk.content chunks)))
    []
    (from_option StreamingChunk.meta ∅ (last_with_usage chunks)).

(** Modelled from the spec: [ComponentInfo.from_component], the optional
    component identity metadata for trace attribution. *)
Definition from_component (component_name : option string) : ComponentInfo.t :=
  {| ComponentInfo.type :=
       "haystack.components.generators.chat.hugging_face_api.HuggingFaceAPIChatGenerator";
     ComponentInfo.name := component_name |}.

(** ** The component *)

Inductive api_type_arg :=
  | ApiEnum (t : HFGenerationAPIType.t)
  | ApiStr (s : string).

(** The attributes [__init__] sets on [self]; [generation_kwargs] is the
    address of the stored dict. *)
Module Self.
Record t := {
  api_type : HFGenerationAPIType.t;
  api_params : gmap string string;
  token : option Secret.t;
  generation_kwargs : loc;
  streaming_callback : option Callback.t;
  _client : Client.t;
  _async_client : Client.t;
  tools : option tools_arg;
  component_name : option string
}.
End Self.

(** The mapping returned by [run]: key [replies]. *)
Module Result.
Record t := { replies : list ChatMessage.t }.
End Result.

(** A streamed vendor response: the events the iterator yields and, if the
    transport fails after them, the exception it raises. *)
Definition stream : Type := list StreamOutput.t * option exn.

Definition zero_usage : value := usage_dict 0 0.

(** [token.resolve_value() if token else None] *)
Definition resolve_token (token : option Secret.t) : exn + option string :=
  match token with
  | Some s => Secret.resolve_value s
  | None => inr None
  end.

(** A call [cls(model_or_url, token=..., **kwargs)] of a vendor client
    class.  Python raises [TypeError] when [kwargs] repeats the keyword
    [token]; otherwise the constructor of the class runs, and [init_error]
    says what it raises on these arguments, if anything: [TypeError] on a
    keyword it does not take. *)
Definition new_client (init_error : Client.t → option exn)
    (model_or_url : string) (token : option string) (kwargs : gmap string string)
    : exn + Client.t :=
  if kwargs_clash ["token"] kwargs
  then inl (TypeError "got multiple values for keyword argument 'token'")
  else
    let client :=
      {| Client.model := model_or_url; Client.token := token;
         Client.params := kwargs |} in
    match init_error client with
    | Some e => inl e
    | None => inr client
    end.

Section Component.
(** The collaborators outside the repository: the JSON decoder, the wall
    clock, the message formatter, the model check against the hub, the
    URL validator, the constructors of the two vendor clients and the two
    vendor endpoints. *)
Variable json_loads : string → Json.result.
Variable isoformat_now : nat → string.
Variable convert_message_to_hf_format : ChatMessage.t → exn + gmap string value.
Variable check_valid_model : string → option Secret.t → option exn.
Variable is_valid_http_url : string → bool.
Variable InferenceClient_error : Client.t → option exn.
Variable AsyncInferenceClient_error : Client.t → option exn.
Variable chat_completion : Request.t → exn + ChatOutput.t.
Variable chat_completion_stream : Request.t → exn + stream.

(** The [if] / [elif] / [else] of [__init__] that checks [api_params] for
    the API type and picks [model_or_url].  The three API types are all
    there are, so the final [else] is never taken. *)
Definition resolve_model_or_url (api_type : HFGenerationAPIType.t)
    (api_params : gmap string string) (token : option Secret.t) : exn + string :=
  match api_type with
  | HFGenerationAPIType.SERVERLESS_INFERENCE_API =>
      match api_params !! "model" with
      | None => inl (ValueError MissingModel)
      | Some model =>
          match check_valid_model model token with
          | Some e => inl e
          | None => inr model
          end
      end
  | HFGenerationAPIType.INFERENCE_ENDPOINTS
  | HFGenerationAPIType.TEXT_GENERATION_INFERENCE =>
      match api_params !! "url" with
      | None => inl (ValueError MissingUrl)
      | Some url =>
          if is_valid_http_url url then inr url
          else inl (ValueError (InvalidUrl url))
      end
  end.

(** [isinstance(api_type, str)]: a string is looked up in the enum. *)
Definition resolve_api_type (api_type : api_type_arg) : exn + HFGenerationAPIType.t :=
  match api_type with
  | ApiStr s => HFGenerationAPIType.from_str s
  | ApiEnum t => inr t
  end.

Definition __init__
    (api_type : api_type_arg)
    (api_params : gmap string string)
    (token : option Secret.t)
    (generation_kwargs : option loc)
    (stop_words : option (list string))
    (streaming_callback : option Callback.t)
    (tools : option tools_arg)
    (component_name : option string) : M Self.t :=
  let* api_type := lift (resolve_api_type api_type) in
  let* model_or_url := lift (resolve_model_or_url api_type api_params token) in
  (if tools_truthy tools && bool_decide (is_Some streaming_callback)
   then raise (ValueError ToolsAndStreaming) else ret tt);;
  lift (_check_duplicate_tool_names (tools_or_empty tools));;
  (* handle generation kwargs setup *)
  let* generation_kwargs :=
    match generation_kwargs with
    | Some l =>
        let* d := read_dict l in
        if bool_decide (d = ∅) then alloc (ODict ∅) else alloc (ODict d)
    | None => alloc (ODict ∅)
    end in
  let* d := read_dict generation_kwargs in
  let* empty_list := alloc (OList []) in
  write generation_kwargs
    (ODict (<["stop" := default (PRef empty_list) (d !! "stop")]> d));;
  let* d := read_dict generation_kwargs in
  list_extend (default PNone (d !! "stop")) (map PStr (default [] stop_words));;
  let* d := read_dict generation_kwargs in
  write generation_kwargs
    (ODict (match d !! "max_tokens" with
            | Some _ => d
            | None => <["max_tokens" := PInt 512]> d
            end));;
  let resolved_api_params :=
    filter (λ kv, kv.1 ≠ "model" ∧ kv.1 ≠ "url") api_params in
  let* client_token := lift (resolve_token token) in
  let* _client :=
    lift (new_client InferenceClient_error model_or_url client_token
            resolved_api_params) in
  let* async_token := lift (resolve_token token) in
  let* _async_client :=
    lift (new_client AsyncInferenceClient_error model_or_url async_token
            resolved_api_params) in
  ret {| Self.api_type := api_type;
         Self.api_params := api_params;
         Self.token := token;
         Self.generation_kwargs := generation_kwargs;
         Self.streaming_callback := streaming_callback;
         Self._client := _client;
         Self._async_client := _async_client;
         Self.tools := tools;
         Self.component_name := component_name |}.

(** Entering a vendor endpoint. *)
Definition call_chat_completion (r : Request.t) : M ChatOutput.t :=
  emit (EvRequest r);; lift (chat_completion r).

Definition call_chat_completion_stream (r : Request.t) : M stream :=
  emit (EvRequest r);; lift (chat_completion_stream r).

(** [streaming_callback(chunk)], called or awaited. *)
Definition invoke (cb : Callback.t) (c : StreamingChunk.t) : M unit :=
  emit (EvCallback (Callback.name cb) c);;
  match Callback.call cb c with
  | Some e => raise e
  | None => ret tt
  end.

(** Iterating a streamed response with a loop body. *)
Definition iterate {B} (api_output : stream) (body : B → StreamOutput.t → M B)
    (acc : B) : M B :=
  let* acc := for_each body acc api_output.1 in
  match api_output.2 with
  | Some e => raise e
  | None => ret acc
  end.

(** The body of the [for chunk in api_output] loop, the same in the
    synchronous and the asynchronous path. *)
Definition stream_body (streaming_callback : Callback.t)
    (component_info : ComponentInfo.t)
    (streaming_chunks : list StreamingChunk.t) (chunk : StreamOutput.t)
    : M (list StreamingChunk.t) :=
  let* streaming_chunk :=
    _convert_chat_completion_stream_output_to_streaming_chunk isoformat_now
      chunk streaming_chunks (Some component_info) in
  let streaming_chunks := streaming_chunks ++ [streaming_chunk] in
  invoke streaming_callback streaming_chunk;;
  ret streaming_chunks.

(** [message.meta["usage"] = {...}] when [message.meta.get("usage") is None]. *)
Definition default_usage (message : ChatMessage.t) : ChatMessage.t :=
  if usage_is_none (ChatMessage.meta message) then
    {| ChatMessage.role := ChatMessage.role message;
       ChatMessage.text := ChatMessage.text message;
       ChatMessage.tool_calls := ChatMessage.tool_calls message;
       ChatMessage.meta := <["usage" := zero_usage]> (ChatMessage.meta message) |}
  else message.

Definition _run_streaming (self : Self.t) (messages : list (gmap string value))
    (generation_kwargs : gmap string pyval) (streaming_callback : Callback.t)
    : M Result.t :=
  (if kwargs_clash ["messages"; "stream"; "stream_options"] generation_kwargs
   then raise (TypeError "chat_completion() got multiple values for an argument")
   else ret tt);;
  let* api_output :=
    call_chat_completion_stream
      {| Request.async := false;
         Request.client := Self._client self;
         Request.messages := messages;
         Request.stream := true;
         Request.include_usage := true;
         Request.tools := None;
         Request.kwargs := generation_kwargs |} in
  let component_info := from_component (Self.component_name self) in
  let* streaming_chunks :=
    iterate api_output (stream_body streaming_callback component_info) [] in
  let message := _convert_streaming_chunks_to_chat_message streaming_chunks in
  ret {| Result.replies := [default_usage message] |}.

Definition _run_non_streaming (self : Self.t) (messages : list (gmap string value))
    (generation_kwargs : gmap string pyval) (tools : option (list HFTool.t))
    : M Result.t :=
  (if kwargs_clash ["messages"; "tools"] generation_kwargs
   then raise (TypeError "chat_completion() got multiple values for an argument")
   else ret tt);;
  let* api_chat_output :=
    call_chat_completion
      {| Request.async := false;
         Request.client := Self._client self;
         Request.messages := messages;
         Request.stream := false;
         Request.include_usage := false;
         Request.tools := tools;
         Request.kwargs := generation_kwargs |} in
  match ChatOutput.choices api_chat_output with
  | None | Some [] => ret {| Result.replies := [] |}
  | Some (choice :: _) =>
      let text := OutMessage.content (OutChoice.message choice) in
      let* tool_calls :=
        _convert_hfapi_tool_calls json_loads
          (OutMessage.tool_calls (OutChoice.message choice)) in
      let meta : gmap string value :=
        <["index" := VInt (OutChoice.index choice)]>
          (<["finish_reason" := VStr (OutChoice.finish_reason choice)]>
             (<["model" := VStr (Client.model (Self._client self))]> ∅)) in
      let usage :=
        match ChatOutput.usage api_chat_output with
        | Some u => usage_dict (Usage.prompt_tokens u) (Usage.completion_tokens u)
        | None => zero_usage
        end in
      let meta := <["usage" := usage]> meta in
      ret {| Result.replies := [ChatMessage.from_assistant text tool_calls meta] |}
  end.

Definition _run_streaming_async (self : Self.t) (messages : list (gmap string value))
    (generation_kwargs : gmap string pyval) (streaming_callback : Callback.t)
    : M Result.t :=
  (if kwargs_clash ["messages"; "stream"; "stream_options"] generation_kwargs
   then raise (TypeError "chat_completion() got multiple values for an argument")
   else ret tt);;
  let* api_output :=
    call_chat_completion_stream
      {| Request.async := true;
         Request.client := Self._async_client self;
         Request.messages := messages;
         Request.stream := true;
         Request.include_usage := true;
         Request.tools := None;
         Request.kwargs := generation_kwargs |} in
  let component_info := from_component (Self.component_name self) in
  let* streaming_chunks :=
    iterate api_output (stream_body streaming_callback component_info) [] in
  let message := _convert_streaming_chunks_to_chat_message streaming_chunks in
  ret {| Result.replies := [default_usage message] |}.

Definition _run_non_streaming_async (self : Self.t)
    (messages : list (gmap string value))
    (generation_kwargs : gmap string pyval) (tools : option (list HFTool.t))
    : M Result.t :=
  (if kwargs_clash ["messages"; "tools"] generation_kwargs
   then raise (TypeError "chat_completion() got multiple values for an argument")
   else ret tt);;
  let* api_chat_output :=
    call_chat_completion
      {| Request.async := true;
         Request.client := Self._async_client self;
         Request.messages := messages;
         Request.stream := false;
         Request.include_usage := false;
         Request.tools := tools;
         Request.kwargs := generation_kwargs |} in
  match ChatOutput.choices api_chat_output with
  | None | Some [] => ret {| Result.replies := [] |}
  | Some (choice :: _) =>
      let text := OutMessage.content (OutChoice.message choice) in
      let* tool_calls :=
        _convert_hfapi_tool_calls json_loads
          (OutMessage.tool_calls (OutChoice.message choice)) in
      let meta : gmap string value :=
        <["index" := VInt (OutChoice.index choice)]>
          (<["finish_reason" := VStr (OutChoice.finish_reason choice)]>
             (<["model" := VStr (Client.model (Self._async_client self))]> ∅)) in
      let usage :=
        match ChatOutput.usage api_chat_output with
        | Some u => usage_dict (Usage.prompt_tokens u) (Usage.completion_tokens u)
        | None => zero_usage
        end in
      let meta := <["usage" := usage]> meta in
      ret {| Result.replies := [ChatMessage.from_assistant text tool_calls meta] |}
  end.

(** [list(tools)] for a non-empty [Toolset]; a list stays as it is. *)
Definition toolset_to_list (tools : option tools_arg) : option (list Tool.t) :=
  tools_list <$> tools.

Definition run (self : Self.t) (messages : list ChatMessage.t)
    (generation_kwargs : option (gmap string pyval))
    (tools : option tools_arg)
    (streaming_callback : option Callback.t) : M Result.t :=
  (* update generation kwargs by merging with the default ones *)
  let* defaults := read_dict (Self.generation_kwargs self) in
  let generation_kwargs := dict_merge defaults (default ∅ generation_kwargs) in
  let* formatted_messages := comprehension convert_message_to_hf_format messages in
  let tools := tools_or tools (Self.tools self) in
  (if tools_truthy tools && bool_decide (is_Some (Self.streaming_callback self))
   then raise (ValueError ToolsAndStreaming) else ret tt);;
  lift (_check_duplicate_tool_names (tools_or_empty tools));;
  (* validate and select the streaming callback *)
  let* streaming_callback :=
    lift (select_streaming_callback (Self.streaming_callback self)
            streaming_callback false) in
  match streaming_callback with
  | Some cb => _run_streaming self formatted_messages generation_kwargs cb
  | None =>
      let hf_tools := _convert_tools_to_hfapi_tools (toolset_to_list tools) in
      _run_non_streaming self formatted_messages generation_kwargs hf_tools
  end.

Definition run_async (self : Self.t) (messages : list ChatMessage.t)
    (generation_kwargs : option (gmap string pyval))
    (tools : option tools_arg)
    (streaming_callback : option Callback.t) : M Result.t :=
  (* update generation kwargs by merging with the default ones *)
  let* defaults := read_dict (Self.generation_kwargs self) in
  let generation_kwargs := dict_merge defaults (default ∅ generation_kwargs) in
  let* formatted_messages := comprehension convert_message_to_hf_format messages in
  let tools := tools_or tools (Self.tools self) in
  (if tools_truthy tools && bool_decide (is_Some (Self.streaming_callback self))
   then raise (ValueError ToolsAndStreaming) else ret tt);;
  lift (_check_duplicate_tool_names (tools_or_empty tools));;
  (* validate and select the streaming callback *)
  let* streaming_callback :=
    lift (select_streaming_callback (Self.streaming_callback self)
            streaming_callback true) in
  match streaming_callback with
  | Some cb => _run_streaming_async self formatted_messages generation_kwargs cb
  | None =>
      let hf_tools := _convert_tools_to_hfapi_tools (toolset_to_list tools) in
      _run_non_streaming_async self formatted_messages generation_kwargs hf_tools
  end.
End Component.

(** ** A JSON decoder for closed examples

    [json_decode] reads the fragment of JSON without string escapes,
    fractions, exponents and non-finite numbers, nested no deeper than the
    interpreter's recursion limit allows, and rejects every other text.  On
    the texts it accepts it builds the object [json.loads] builds, a text
    that is not JSON at all is rejected by both, and like the interpreter
    with its default settings it raises [ValueError] at an integer literal
    of more than 4300 digits.  The theorems below hold for every decoder;
    this one runs the model on concrete payloads. *)
Module JsonDecode.
Import Ascii.

(** The outcome of reading a prefix of a text: the object read and the rest
    of the text, a syntax error, or an exception raised on the way. *)
Inductive parsed (A : Type) :=
  | Ok (a : A) (rest : string)
  | Invalid
  | Failed (e : exn).
Arguments Ok {A} a rest.
Arguments Invalid {A}.
Arguments Failed {A} e.

(** [sys.int_info.default_max_str_digits] *)
Definition max_str_digits : nat := 4300.

Definition digit_limit_error : exn :=
  Propagated "ValueError: Exceeds the limit (4300 digits) for integer string conversion".

Definition is_ws (c : ascii) : bool :=
  match c with
  | " "%char | "009"%char | "010"%char | "013"%char => true
  | _ => false
  end.

Fixpoint skip_ws (s : string) : string :=
  match s with
  | String c rest => if is_ws c then skip_ws rest else s
  | EmptyString => s
  end.

Definition digit_of (c : ascii) : option Z :=
  let n := Z.of_nat (nat_of_ascii c) in
  if (48 <=? n) && (n <=? 57) then Some (n - 48) else None.

(** The digits at the head of [s], most significant first. *)
Fixpoint take_digits (s : string) : list Z * string :=
  match s with
  | String c rest =>
      match digit_of c with
      | Some d => let '(ds, r) := take_digits rest in (d :: ds, r)
      | None => ([], s)
      end
  | EmptyString => ([], s)
  end.

Definition number_end (s : string) : bool :=
  match s with
  | String "."%char _ | String "e"%char _ | String "E"%char _ => false
  | _ => true
  end.

(** An integer literal: no leading zero, no fraction, no exponent; the
    conversion of its digits to [int] raises beyond the digit limit. *)
Definition parse_nat (s : string) : parsed Z :=
  match take_digits s with
  | ([], _) => Invalid
  | (0 :: _ :: _, _) => Invalid
  | (ds, r) =>
      if number_end r then
        if (max_str_digits <? List.length ds)%nat then Failed digit_limit_error
        else Ok (fold_left (λ acc d, 10 * acc + d) ds 0) r
      else Invalid
  end.

(** The characters up to the closing quote; escapes, control characters
    and bytes outside ASCII are not in the fragment. *)
Fixpoint parse_chars (s : string) : option (string * string) :=
  match s with
  | String c rest =>
      if Ascii.eqb c "034"%char then Some (EmptyString, rest)
      else if Ascii.eqb c "\"%char then None
      else if (nat_of_ascii c <? 32)%nat || (127 <? nat_of_ascii c)%nat then None
      else match parse_chars rest with
           | Some (body, r) => Some (String c body, r)
           | None => None
           end
  | EmptyString => None
  end.

Fixpoint strip_prefix (p s : string) : option string :=
  match p, s with
  | EmptyString, _ => Some s
  | String a p', String b s' => if Ascii.eqb a b then strip_prefix p' s' else None
  | String _ _, EmptyString => None
  end.

(** Binding a key of a dict under construction: a repeated key keeps its
    place and takes the later value. *)
Fixpoint dict_set (kvs : list (string * value)) (k : string) (v : value)
    : list (string * value) :=
  match kvs with
  | [] => [(k, v)]
  | (k', v') :: rest =>
      if String.eqb k' k then (k', v) :: rest else (k', v') :: dict_set rest k v
  end.

Fixpoint parse_value (fuel : nat) (s : string) : parsed value :=
  match fuel with
  | O => Invalid
  | S fuel =>
      match skip_ws s with
      | String "["%char rest =>
          match skip_ws rest with
          | String "]"%char r => Ok (VList []) r
          | _ => parse_elements fuel rest []
          end
      | String "{"%char rest =>
          match skip_ws rest with
          | String "}"%char r => Ok (VDict []) r
          | _ => parse_members fuel rest []
          end
      | String "034"%char rest =>
          match parse_chars rest with
          | Some (body, r) => Ok (VStr body) r
          | None => Invalid
          end
      | String "-"%char rest =>
          match parse_nat rest with
          | Ok n r => Ok (VInt (- n)) r
          | Invalid => Invalid
          | Failed e => Failed e
          end
      | String _ _ as s' =>
          match strip_prefix "true" s', strip_prefix "false" s', strip_prefix "null" s' with
          | Some r, _, _ => Ok (VBool true) r
          | _, Some r, _ => Ok (VBool false) r
          | _, _, Some r => Ok VNone r
          | _, _, _ =>
              match parse_nat s' with
              | Ok n r => Ok (VInt n) r
              | Invalid => Invalid
              | Failed e => Failed e
              end
          end
      | EmptyString => Invalid
      end
  end
with parse_elements (fuel : nat) (s : string) (acc : list value) : parsed value :=
  match fuel with
  | O => Invalid
  | S fuel =>
      match parse_value fuel s with
      | Ok v r =>
          match skip_ws r with
          | String ","%char r' => parse_elements fuel r' (acc ++ [v])
          | String "]"%char r' => Ok (VList (acc ++ [v])) r'
          | _ => Invalid
          end
      | Invalid => Invalid
      | Failed e => Failed e
      end
  end
with parse_members (fuel : nat) (s : string) (acc : list (string * value))
    : parsed value :=
  match fuel with
  | O => Invalid
  | S fuel =>
      match skip_ws s with
      | String "034"%char rest =>
          match parse_chars rest with
          | Some (k, r) =>
              match skip_ws r with
              | String ":"%char r' =>
                  match parse_value fuel r' with
                  | Ok v r'' =>
                      match skip_ws r'' with
                      | String ","%char r3 => parse_members fuel r3 (dict_set acc k v)
                      | String "}"%char r3 => Ok (VDict (dict_set acc k v)) r3
                      | _ => Invalid
                      end
                  | Invalid => Invalid
                  | Failed e => Failed e
                  end
              | _ => Invalid
              end
          | None => Invalid
          end
      | _ => Invalid
      end
  end.

Definition json_decode (s : string) : Json.result :=
  match parse_value (2 * String.length s + 2) s with
  | Ok v r =>
      match skip_ws r with
      | EmptyString => Json.Decoded v
      | _ => Json.JSONDecodeError
      end
  | Invalid => Json.JSONDecodeError
  | Failed e => Json.Raises e
  end.
End JsonDecode.

(** ['] stands for the double quote in the JSON texts of the examples. *)
Fixpoint json_text (s : string) : string :=
  match s with
  | String c rest =>
      String (if Ascii.eqb c "'"%char then "034"%char else c) (json_text rest)
  | EmptyString => EmptyString
  end.

(** * Vocabulary of the statements

    Pure readings of the effectful code, in which the theorems state what a
    call returns and what state it leaves, followed by the concrete inputs
    of the closed examples. *)

(** ** States *)

(** The state after logging further events. *)
Definition log_events (tr : list event) (st : State.t) : State.t :=
  {| State.heap := State.heap st;
     State.trace := State.trace st ++ tr;
     State.ticks := State.ticks st |}.

(** The state after one read of the clock. *)
Definition tick (st : State.t) : State.t :=
  {| State.heap := State.heap st;
     State.trace := State.trace st;
     State.ticks := S (State.ticks st) |}.

(** The state a turn leaves: the callback has seen the new chunks in order
    and the clock has been read once per event. *)
Definition after_turn (cb : Callback.t) (chunks : list StreamingChunk.t)
    (st : State.t) : State.t :=
  {| State.heap := State.heap st;
     State.trace := State.trace st ++ (EvCallback (Callback.name cb) <$> chunks);
     State.ticks := State.ticks st + List.length chunks |}.

(** Going from [st] to [st'] the call entered the vendor endpoints with
    the requests [rs], in this order. *)
Definition issues (st st' : State.t) (rs : list Request.t) : Prop :=
  ∃ tr, State.trace st' = State.trace st ++ tr ∧ requests_of tr = rs.

(** ** The normalizer, record by record *)

(** The record-by-record reading of the normalizer: the arguments a record
    parses to, the [ToolCall] it contributes and the warning it is skipped
    with. *)
Definition parsed_arguments (json_loads : string → Json.result)
    (tc : HFToolCall.t) : option value :=
  match Fn.arguments (HFToolCall.function tc) with
  | VDict kvs => Some (VDict kvs)
  | VStr s =>
      match json_loads s with
      | Json.Decoded v => Some v
      | _ => None
      end
  | _ => None
  end.

Definition normalized (json_loads : string → Json.result)
    (tc : HFToolCall.t) : option ToolCall.t :=
  match parsed_arguments json_loads tc with
  | Some v =>
      if truthy v then
        Some {| ToolCall.tool_name := Fn.name (HFToolCall.function tc);
                ToolCall.arguments := v;
                ToolCall.id := Some (HFToolCall.id tc) |}
      else None
  | None => None
  end.

Definition skipped_with (json_loads : string → Json.result)
    (tc : HFToolCall.t) : option Warning.t :=
  match Fn.arguments (HFToolCall.function tc) with
  | VDict _ => None
  | VStr s =>
      match json_loads s with
      | Json.JSONDecodeError => Some (tool_call_warning malformed_json_template tc)
      | _ => None
      end
  | _ => Some (tool_call_warning unexpected_type_template tc)
  end.

(** On the string arguments of these records [json.loads] returns or
    raises [JSONDecodeError]: it raises nothing else. *)
Definition decoder_contained (json_loads : string → Json.result)
    (tcs : list HFToolCall.t) : Prop :=
  ∀ tc s e,
    tc ∈ tcs →
    Fn.arguments (HFToolCall.function tc) = VStr s →
    json_loads s ≠ Json.Raises e.

(** The exception that escapes the normalizer at a record: whatever
    [json.loads] raises on its string arguments other than
    [JSONDecodeError]. *)
Definition escaping (json_loads : string → Json.result)
    (tc : HFToolCall.t) : option exn :=
  match Fn.arguments (HFToolCall.function tc) with
  | VStr s =>
      match json_loads s with
      | Json.Raises e => Some e
      | _ => None
      end
  | _ => None
  end.

(** The loop of the normalizer as a pure function of the accumulator and
    the records: what it returns or raises, and the warnings it logs on the
    way.  It stops at the first record at which an exception escapes. *)
Fixpoint normalizer_outcome (json_loads : string → Json.result)
    (acc : list ToolCall.t) (tcs : list HFToolCall.t)
    : (exn + list ToolCall.t) * list Warning.t :=
  match tcs with
  | [] => (inr acc, [])
  | tc :: rest =>
      match escaping json_loads tc with
      | Some e => (inl e, [])
      | None =>
          let outcome :=
            normalizer_outcome json_loads
              (acc ++ option_list (normalized json_loads tc)) rest in
          (outcome.1, option_list (skipped_with json_loads tc) ++ outcome.2)
      end
  end.

(** ** The translator and the chunks of a turn *)

(** The chunk the translator builds when the clock reads [received_at]. *)
Definition translated (received_at : string) (chunk : StreamOutput.t)
    (previous_chunks : list StreamingChunk.t)
    (component_info : option ComponentInfo.t) : StreamingChunk.t :=
  match StreamOutput.choices chunk with
  | [] =>
      {| StreamingChunk.content := "";
         StreamingChunk.meta :=
           <["usage" :=
               match StreamOutput.usage chunk with
               | Some u => usage_dict (Usage.prompt_tokens u) (Usage.completion_tokens u)
               | None => VNone
               end]>
             (<["received_at" := VStr received_at]>
                (<["model" := VStr (StreamOutput.model chunk)]> ∅));
         StreamingChunk.component_info := component_info;
         StreamingChunk.index := None;
         StreamingChunk.start := false;
         StreamingChunk.finish_reason := None |}
  | choice :: _ =>
      {| StreamingChunk.content := default "" (Delta.content (StreamChoice.delta choice));
         StreamingChunk.meta :=
           <["finish_reason" := opt_str (StreamChoice.finish_reason choice)]>
             (<["received_at" := VStr received_at]>
                (<["model" := VStr (StreamOutput.model chunk)]> ∅));
         StreamingChunk.component_info := component_info;
         StreamingChunk.index :=
           match StreamChoice.finish_reason choice with
           | Some _ => None
           | None => Some 0
           end;
         StreamingChunk.start := bool_decide (previous_chunks = []);
         StreamingChunk.finish_reason :=
           if str_truthy (StreamChoice.finish_reason choice)
           then _map_hf_finish_reason_to_haystack choice
           else None |}
  end.

(** The chunks a turn adds to [previous_chunks] when the clock has been
    read [n] times before its first event. *)
Fixpoint new_chunks (isoformat_now : nat → string) (n : nat)
    (component_info : option ComponentInfo.t)
    (previous_chunks : list StreamingChunk.t) (events : list StreamOutput.t)
    : list StreamingChunk.t :=
  match events with
  | [] => []
  | ev :: evs =>
      let c := translated (isoformat_now n) ev previous_chunks component_info in
      c :: new_chunks isoformat_now (S n) component_info (previous_chunks ++ [c]) evs
  end.

(** The content the translator gives the chunk of an event. *)
Definition event_content (ev : StreamOutput.t) : string :=
  match StreamOutput.choices ev with
  | [] => ""
  | choice :: _ => default "" (Delta.content (StreamChoice.delta choice))
  end.

(** An event whose chunk carries a usage object: no choices, and usage. *)
Definition event_has_usage (ev : StreamOutput.t) : bool :=
  match StreamOutput.choices ev, StreamOutput.usage ev with
  | [], Some _ => true
  | _, _ => false
  end.

(** The chunks of a turn started in state [st]. *)
Definition turn_chunks (isoformat_now : nat → string) (self : Self.t)
    (st : State.t) (events : list StreamOutput.t) : list StreamingChunk.t :=
  new_chunks isoformat_now (State.ticks st)
    (Some (from_component (Self.component_name self))) [] events.

(** ** Requests and replies *)

(** The request of the streaming path. *)
Definition stream_request (async : bool) (self : Self.t)
    (messages : list (gmap string value)) (kwargs : gmap string pyval) : Request.t :=
  {| Request.async := async;
     Request.client := if async then Self._async_client self else Self._client self;
     Request.messages := messages;
     Request.stream := true;
     Request.include_usage := true;
     Request.tools := None;
     Request.kwargs := kwargs |}.

(** The request of the non-streaming path. *)
Definition completion_request (async : bool) (self : Self.t)
    (messages : list (gmap string value)) (kwargs : gmap string pyval)
    (tools : option (list HFTool.t)) : Request.t :=
  {| Request.async := async;
     Request.client := if async then Self._async_client self else Self._client self;
     Request.messages := messages;
     Request.stream := false;
     Request.include_usage := false;
     Request.tools := tools;
     Request.kwargs := kwargs |}.

(** The message built from the first choice of a vendor response and its
    normalized tool calls. *)
Definition reply_with (client : Client.t) (out : ChatOutput.t)
    (choice : OutChoice.t) (tool_calls : list ToolCall.t) : ChatMessage.t :=
  ChatMessage.from_assistant
    (OutMessage.content (OutChoice.message choice))
    tool_calls
    (<["usage" :=
         match ChatOutput.usage out with
         | Some u => usage_dict (Usage.prompt_tokens u) (Usage.completion_tokens u)
         | None => zero_usage
         end]>
       (<["index" := VInt (OutChoice.index choice)]>
          (<["finish_reason" := VStr (OutChoice.finish_reason choice)]>
             (<["model" := VStr (Client.model client)]> ∅)))).

(** ** The entry points *)

(** A list comprehension is the pure traversal, in any state. *)
Fixpoint format_all {A B} (f : A → exn + B) (xs : list A) : exn + list B :=
  match xs with
  | [] => inr []
  | x :: xs' =>
      match f x with
      | inl e => inl e
      | inr y =>
          match format_all f xs' with
          | inl e => inl e
          | inr ys => inr (y :: ys)
          end
      end
  end.

(** The checks [run] makes between formatting the messages and choosing a
    path: the result is the selected callback. *)
Definition validated (requires_async : bool) (self : Self.t)
    (tools : option tools_arg) (streaming_callback : option Callback.t)
    : exn + option Callback.t :=
  let tools := tools_or tools (Self.tools self) in
  if tools_truthy tools && bool_decide (is_Some (Self.streaming_callback self))
  then inl (ValueError ToolsAndStreaming)
  else
    match _check_duplicate_tool_names (tools_or_empty tools) with
    | inl e => inl e
    | inr _ =>
        select_streaming_callback (Self.streaming_callback self) streaming_callback
          requires_async
    end.

(** [run] or [run_async], by the flag. *)
Definition entry
    (json_loads : string → Json.result)
    (isoformat_now : nat → string)
    (convert_message_to_hf_format : ChatMessage.t → exn + gmap string value)
    (chat_completion : Request.t → exn + ChatOutput.t)
    (chat_completion_stream : Request.t → exn + stream)
    (async : bool) : Self.t → list ChatMessage.t →
    option (gmap string pyval) → option tools_arg → option Callback.t → M Result.t :=
  if async
  then run_async json_loads isoformat_now convert_message_to_hf_format
         chat_completion chat_completion_stream
  else run json_loads isoformat_now convert_message_to_hf_format
         chat_completion chat_completion_stream.

(** ** The constructor *)

(** The dict the caller passes as [generation_kwargs], read from the store;
    no argument counts as the empty dict. *)
Definition caller_kwargs (st : State.t) (generation_kwargs : option loc)
    : option (gmap string pyval) :=
  match generation_kwargs with
  | None => Some ∅
  | Some l =>
      match State.heap st !! l with
      | Some (ODict d) => Some d
      | _ => None
      end
  end.

(** The [stop] entry of the caller's dict can be extended: it is missing
    or it is a list object. *)
Definition stop_is_list (st : State.t) (d : gmap string pyval) : Prop :=
  match d !! "stop" with
  | None => True
  | Some (PRef sl) => ∃ ys, State.heap st !! sl = Some (OList ys)
  | Some _ => False
  end.

(** [d.setdefault("max_tokens", 512)] *)
Definition with_max_tokens (d : gmap string pyval) : gmap string pyval :=
  match d !! "max_tokens" with
  | Some _ => d
  | None => <["max_tokens" := PInt 512]> d
  end.

(** The store the constructor leaves when it is given the dict [d] in the
    store [h]: the copy at a fresh address, a fresh empty list, the stop
    list extended in place, and [max_tokens] defaulted in the copy. *)
Definition init_heap (h : gmap loc pyobj) (d : gmap string pyval)
    (words : list pyval) : gmap loc pyobj :=
  let l0 := fresh (dom h) in
  let h1 := <[l0 := ODict d]> h in
  let l1 := fresh (dom h1) in
  let d1 := <["stop" := default (PRef l1) (d !! "stop")]> d in
  let h3 := <[l0 := ODict d1]> (<[l1 := OList []]> h1) in
  let h4 :=
    match d !! "stop" with
    | Some (PRef sl) =>
        match h !! sl with
        | Some (OList ys) => <[sl := OList (ys ++ words)]> h3
        | _ => h3
        end
    | _ => <[l1 := OList ([] ++ words)]> h3
    end in
  <[l0 := ODict (with_max_tokens d1)]> h4.

(** ** Concrete inputs *)

Definition empty_state : State.t :=
  {| State.heap := ∅; State.trace := []; State.ticks := 0 |}.

Definition bad_json_call : HFToolCall.t :=
  {| HFToolCall.id := "call_0";
     HFToolCall.function :=
       {| Fn.name := "weather"; Fn.arguments := VStr "{bad json" |} |}.

Definition list_arguments_call : HFToolCall.t :=
  {| HFToolCall.id := "call_0";
     HFToolCall.function :=
       {| Fn.name := "weather"; Fn.arguments := VStr "[1, 2]" |} |}.

Definition number_arguments_call : HFToolCall.t :=
  {| HFToolCall.id := "call_1";
     HFToolCall.function :=
       {| Fn.name := "weather"; Fn.arguments := VInt 7 |} |}.

Definition city_call : HFToolCall.t :=
  {| HFToolCall.id := "call_2";
     HFToolCall.function :=
       {| Fn.name := "weather";
          Fn.arguments := VStr (json_text "{'city': 'Paris'}") |} |}.

Definition plain_delta : Delta.t :=
  {| Delta.content := Some "Paris"; Delta.tool_calls := None; Delta.tool_call_id := None |}.

Definition tool_delta : Delta.t :=
  {| Delta.content := None; Delta.tool_calls := Some []; Delta.tool_call_id := None |}.

Definition content_event (text : string) : StreamOutput.t :=
  {| StreamOutput.choices :=
       [{| StreamChoice.delta :=
             {| Delta.content := Some text; Delta.tool_calls := None;
                Delta.tool_call_id := None |};
           StreamChoice.finish_reason := None |}];
     StreamOutput.model := "Qwen/Qwen2.5-7B-Instruct";
     StreamOutput.usage := None |}.

Definition final_event (text reason : string) : StreamOutput.t :=
  {| StreamOutput.choices :=
       [{| StreamChoice.delta :=
             {| Delta.content := Some text; Delta.tool_calls := None;
                Delta.tool_call_id := None |};
           StreamChoice.finish_reason := Some reason |}];
     StreamOutput.model := "Qwen/Qwen2.5-7B-Instruct";
     StreamOutput.usage := None |}.

Definition usage_event (prompt completion : Z) : StreamOutput.t :=
  {| StreamOutput.choices := [];
     StreamOutput.model := "Qwen/Qwen2.5-7B-Instruct";
     StreamOutput.usage :=
       Some {| Usage.prompt_tokens := prompt; Usage.completion_tokens := completion |} |}.

Definition sample_clock (n : nat) : string :=
  match n with
  | O => "2025-01-01T00:00:00"
  | S O => "2025-01-01T00:00:01"
  | _ => "2025-01-01T00:00:02"
  end.

Definition role_name (r : ChatRole.t) : string :=
  match r with
  | ChatRole.system => "system"
  | ChatRole.user => "user"
  | ChatRole.assistant => "assistant"
  | ChatRole.tool => "tool"
  end.

Definition sample_format (m : ChatMessage.t) : exn + gmap string value :=
  inr (<["content" := opt_str (ChatMessage.text m)]>
         (<["role" := VStr (role_name (ChatMessage.role m))]> ∅)).

Definition sample_check_model (model : string) (token : option Secret.t) : option exn :=
  None.

Definition sample_valid_url (url : string) : bool :=
  match JsonDecode.strip_prefix "http://" url, JsonDecode.strip_prefix "https://" url with
  | None, None => false
  | _, _ => true
  end.

(** A vendor that streams two content events and no usage event. *)
Definition sample_stream (r : Request.t) : exn + stream :=
  inr ([content_event "Par"; final_event "is" "eos_token"], None).

(** A vendor that answers with no completion choice. *)
Definition sample_completion (r : Request.t) : exn + ChatOutput.t :=
  inr {| ChatOutput.choices := Some []; ChatOutput.usage := None |}.

Definition print_streaming_chunk : Callback.t :=
  {| Callback.name := "print_streaming_chunk";
     Callback.is_async := false;
     Callback.call := λ _, None |}.

Definition async_print_streaming_chunk : Callback.t :=
  {| Callback.name := "async_print_streaming_chunk";
     Callback.is_async := true;
     Callback.call := λ _, None |}.

Definition sample_client : Client.t :=
  {| Client.model := "Qwen/Qwen2.5-7B-Instruct"; Client.token := None; Client.params := ∅ |}.

(** A component with no default callback and no default tools, whose
    stored generation parameters sit at address 1. *)
Definition sample_self : Self.t :=
  {| Self.api_type := HFGenerationAPIType.SERVERLESS_INFERENCE_API;
     Self.api_params := <["model" := "Qwen/Qwen2.5-7B-Instruct"]> ∅;
     Self.token := None;
     Self.generation_kwargs := 1%positive;
     Self.streaming_callback := None;
     Self._client := sample_client;
     Self._async_client := sample_client;
     Self.tools := None;
     Self.component_name := None |}.

Definition sample_kwargs : gmap string pyval :=
  <["max_tokens" := PInt 512]> (<["stop" := PRef 2%positive]> ∅).

Definition sample_state : State.t :=
  {| State.heap := <[2%positive := OList []]> (<[1%positive := ODict sample_kwargs]> ∅);
     State.trace := [];
     State.ticks := 0 |}.

Definition user_message (text : string) : ChatMessage.t :=
  {| ChatMessage.role := ChatRole.user; ChatMessage.text := Some text;
     ChatMessage.tool_calls := []; ChatMessage.meta := ∅ |}.

Definition weather_tool : Tool.t :=
  {| Tool.name := "weather";
     Tool.description := "Weather of a city";
     Tool.parameters := VDict [("type", VStr "object")] |}.

(** A component whose default callback is set. *)
Definition callback_self (cb : Callback.t) : Self.t :=
  {| Self.api_type := Self.api_type sample_self;
     Self.api_params := Self.api_params sample_self;
     Self.token := None;
     Self.generation_kwargs := Self.generation_kwargs sample_self;
     Self.streaming_callback := Some cb;
     Self._client := sample_client;
     Self._async_client := sample_client;
     Self.tools := None;
     Self.component_name := None |}.

Definition caller_dict : gmap string pyval :=
  <["stop" := PRef 2%positive]> (<["temperature" := PInt 1]> ∅).

(** The caller's store: the [generation_kwargs] dict at address 1, its stop
    list at address 2. *)
Definition caller_state : State.t :=
  {| State.heap := <[2%positive := OList [PStr "END"]]> (<[1%positive := ODict caller_dict]> ∅);
     State.trace := [];
     State.ticks := 0 |}.

(** ** Further vocabulary and inputs *)

(** The [ToolCall] built from a record and its parsed arguments. *)
Definition as_tool_call (tc : HFToolCall.t) (arguments : value) : ToolCall.t :=
  {| ToolCall.tool_name := Fn.name (HFToolCall.function tc);
     ToolCall.arguments := arguments;
     ToolCall.id := Some (HFToolCall.id tc) |}.

Definition raw_arguments (tc : HFToolCall.t) : value :=
  Fn.arguments (HFToolCall.function tc).

Definition dict_call (id : string) (kvs : list (string * value)) : HFToolCall.t :=
  {| HFToolCall.id := id;
     HFToolCall.function := {| Fn.name := "weather"; Fn.arguments := VDict kvs |} |}.

Definition string_call (id text : string) : HFToolCall.t :=
  {| HFToolCall.id := id;
     HFToolCall.function := {| Fn.name := "weather"; Fn.arguments := VStr text |} |}.

(** The event reduced to its first choice, without usage. *)
Definition first_choice_only (chunk : StreamOutput.t) (choice : StreamChoice.t)
    : StreamOutput.t :=
  {| StreamOutput.choices := [choice];
     StreamOutput.model := StreamOutput.model chunk;
     StreamOutput.usage := None |}.

(** An event with two choices and a usage summary. *)
Definition crowded_event : StreamOutput.t :=
  {| StreamOutput.choices :=
       [{| StreamChoice.delta := plain_delta; StreamChoice.finish_reason := Some "length" |};
        {| StreamChoice.delta := tool_delta; StreamChoice.finish_reason := None |}];
     StreamOutput.model := "Qwen/Qwen2.5-7B-Instruct";
     StreamOutput.usage :=
       Some {| Usage.prompt_tokens := 11; Usage.completion_tokens := 7 |} |}.

(** A callback that raises on the chunk with content [text]. *)
Definition raising_callback (text : string) : Callback.t :=
  {| Callback.name := "raising_callback";
     Callback.is_async := false;
     Callback.call := λ c,
       if String.eqb (StreamingChunk.content c) text
       then Some (Propagated "callback failed") else None |}.

(** A vendor whose stream breaks after two events. *)
Definition broken_stream (r : Request.t) : exn + stream :=
  inr ([content_event "Par"; content_event "is"], Some (Propagated "connection reset")).

(** A vendor that refuses the request. *)
Definition refusing_completion (r : Request.t) : exn + ChatOutput.t :=
  inl (Propagated "401 Unauthorized").

(** A vendor response with two choices, the first with a tool call, and no
    usage. *)
Definition two_choice_output : ChatOutput.t :=
  {| ChatOutput.choices :=
       Some [{| OutChoice.message :=
                  {| OutMessage.content := None;
                     OutMessage.tool_calls := Some [city_call] |};
                OutChoice.finish_reason := "stop";
                OutChoice.index := 0 |};
             {| OutChoice.message :=
                  {| OutMessage.content := Some "ignored";
                     OutMessage.tool_calls := None |};
                OutChoice.finish_reason := "length";
                OutChoice.index := 1 |}];
     ChatOutput.usage := None |}.

(** [ChatCompletionInputTool] for a tool. *)
Definition hf_tool_of (tool : Tool.t) : HFTool.t :=
  {| HFTool.name := Tool.name tool;
     HFTool.description := Tool.description tool;
     HFTool.parameters := Tool.parameters tool |}.

(** The effective tools of a call, as a list: the call's when it has any,
    else the component's. *)
Definition effective_tools (self : Self.t) (tools : option tools_arg) : list Tool.t :=
  tools_or_empty (tools_or tools (Self.tools self)).

(** The generation parameters of a call: the stored ones, overridden key by
    key. *)
Definition merged_kwargs (d : gmap string pyval) (kw : option (gmap string pyval))
    : gmap string pyval :=
  dict_merge d (default ∅ kw).

Definition time_tool : Tool.t :=
  {| Tool.name := "time";
     Tool.description := "Time in a city";
     Tool.parameters := VDict [("type", VStr "object")] |}.

(** A component whose default tools are a toolset with one tool. *)
Definition toolset_self : Self.t :=
  {| Self.api_type := Self.api_type sample_self;
     Self.api_params := Self.api_params sample_self;
     Self.token := None;
     Self.generation_kwargs := Self.generation_kwargs sample_self;
     Self.streaming_callback := None;
     Self._client := sample_client;
     Self._async_client := sample_client;
     Self.tools := Some (Toolset [time_tool]);
     Self.component_name := None |}.

(** A formatter that rejects messages without text. *)
Definition strict_format (m : ChatMessage.t) : exn + gmap string value :=
  match ChatMessage.text m with
  | Some _ => sample_format m
  | None => inl (Propagated "message without content")
  end.

(** The elements of the caller's stop list, none when there is no list. *)
Definition caller_stop (st : State.t) (d : gmap string pyval) : list pyval :=
  match d !! "stop" with
  | Some (PRef sl) =>
      match State.heap st !! sl with
      | Some (OList ys) => ys
      | _ => []
      end
  | _ => []
  end.

(** The client the constructor asks both vendor classes for: the target,
    the resolved token and the API parameters other than [model] and
    [url]. *)
Definition requested_client (model_or_url : string) (tok : option string)
    (api_params : gmap string string) : Client.t :=
  {| Client.model := model_or_url; Client.token := tok;
     Client.params := filter (λ kv, kv.1 ≠ "model" ∧ kv.1 ≠ "url") api_params |}.

(** The component the constructor builds. *)
Definition built_self (t : HFGenerationAPIType.t) (api_params : gmap string string)
    (token : option Secret.t) (stored : loc) (cb : option Callback.t)
    (model_or_url : string) (tok : option string) (tools : option tools_arg)
    (name : option string) : Self.t :=
  let client := requested_client model_or_url tok api_params in
  {| Self.api_type := t;
     Self.api_params := api_params;
     Self.token := token;
     Self.generation_kwargs := stored;
     Self.streaming_callback := cb;
     Self._client := client;
     Self._async_client := client;
     Self.tools := tools;
     Self.component_name := name |}.

Definition endpoint_params : gmap string string :=
  <["timeout" := "30"]> (<["url" := "http://localhost:8080"]> ∅).

(** A token that cannot be resolved. *)
Definition unresolved_token : Secret.t :=
  {| Secret.resolve_value := inl (Propagated "token not set") |}.

(** A vendor constructor that takes, besides the target and the token, the
    keywords [timeout], [headers], [cookies], [proxies] and [provider], and
    raises [TypeError] on any other. *)
Definition sample_client_error (c : Client.t) : option exn :=
  if forallb
       (λ kv, bool_decide
                (kv.1 ∈ ["timeout"; "headers"; "cookies"; "proxies"; "provider"]))
       (map_to_list (Client.params c))
  then None
  else Some (TypeError "__init__() got an unexpected keyword argument").

(** API parameters that repeat the [token] keyword. *)
Definition token_params : gmap string string :=
  <["token" := "hf_secret"]> endpoint_params.

(** API parameters with a keyword the vendor clients do not take. *)
Definition unknown_params : gmap string string :=
  <["retries" := "3"]> endpoint_params.



(** An asynchronous callback that raises on the chunk with content [text]. *)
Definition async_raising_callback (text : string) : Callback.t :=
  {| Callback.name := "async_raising_callback";
     Callback.is_async := true;
     Callback.call := Callback.call (raising_callback text) |}.

(** A caller whose [stop] entry is a string. *)
Definition scalar_stop_state : State.t :=
  {| State.heap := <[1%positive := ODict (<["stop" := PStr "END"]> ∅)]> ∅;
     State.trace := [];
     State.ticks := 0 |}.

(** * Properties *)

(** ** The monad *)

Lemma log_events_nil st : log_events [] st = st.
Proof. destruct st; unfold log_events; simpl. by rewrite app_nil_r. Qed.

Lemma log_events_app tr1 tr2 st :
  log_events tr2 (log_events tr1 st) = log_events (tr1 ++ tr2) st.
Proof. unfold log_events; simpl. by rewrite app_assoc. Qed.

Lemma emit_log ev st : emit ev st = (inr tt, log_events [ev] st).
Proof. reflexivity. Qed.

Lemma bind_ret_l {A B} (a : A) (k : A → M B) st : bind (ret a) k st = k a st.
Proof. reflexivity. Qed.

Lemma bind_inr {A B} (m : M A) (k : A → M B) st a st' :
  m st = (inr a, st') → bind m k st = k a st'.
Proof. unfold bind. by intros ->. Qed.

(** ** The tool-call normalizer *)

Section NormalizerProperties.
Variable json_loads : string → Json.result.

Lemma parse_arguments_spec tc st :
  escaping json_loads tc = None →
  parse_arguments json_loads tc st =
    (inr (parsed_arguments json_loads tc),
     log_events (EvWarning <$> option_list (skipped_with json_loads tc)) st).
Proof.
  unfold escaping, parse_arguments, parsed_arguments, skipped_with.
  destruct (Fn.arguments (HFToolCall.function tc)) as [| | | |s| |];
    try (by unfold ret; rewrite log_events_nil);
    try reflexivity.
  destruct (json_loads s); [by unfold ret; rewrite log_events_nil | reflexivity | done].
Qed.

Lemma parse_arguments_raises tc st e :
  escaping json_loads tc = Some e →
  parse_arguments json_loads tc st = (inl e, st).
Proof.
  unfold escaping, parse_arguments.
  destruct (Fn.arguments (HFToolCall.function tc)) as [| | | |s| |]; try done.
  destruct (json_loads s); try done. by intros [= ->].
Qed.

Lemma convert_body_spec acc tc st :
  escaping json_loads tc = None →
  convert_body json_loads acc tc st =
    (inr (acc ++ option_list (normalized json_loads tc)),
     log_events (EvWarning <$> option_list (skipped_with json_loads tc)) st).
Proof.
  intros Hnone. unfold convert_body, normalized.
  erewrite bind_inr by (by apply parse_arguments_spec).
  destruct (parsed_arguments json_loads tc) as [v|]; [destruct (truthy v)|];
    unfold ret; simpl; by rewrite ?app_nil_r.
Qed.

(** An exception of the decoder other than [JSONDecodeError] leaves the
    loop body at once, with nothing logged. *)
Lemma convert_body_raises acc tc st e :
  escaping json_loads tc = Some e →
  convert_body json_loads acc tc st = (inl e, st).
Proof.
  intros Hesc. unfold convert_body, bind. by rewrite (parse_arguments_raises _ _ e).
Qed.

(** The loop is its pure reading: it only adds warnings to the log. *)
Lemma convert_loop tcs : ∀ acc st,
  for_each (convert_body json_loads) acc tcs st =
    ((normalizer_outcome json_loads acc tcs).1,
     log_events (EvWarning <$> (normalizer_outcome json_loads acc tcs).2) st).
Proof.
  induction tcs as [|tc tcs IH]; intros acc st; simpl.
  - unfold ret. by rewrite log_events_nil.
  - destruct (escaping json_loads tc) as [e|] eqn:Hesc.
    + unfold bind. rewrite (convert_body_raises _ _ _ e Hesc). simpl.
      by rewrite log_events_nil.
    + erewrite bind_inr by (by apply convert_body_spec).
      rewrite IH. simpl. by rewrite log_events_app, fmap_app.
Qed.

Lemma convert_outcome tcs st :
  _convert_hfapi_tool_calls json_loads tcs st =
    ((normalizer_outcome json_loads [] (default [] tcs)).1,
     log_events (EvWarning <$> (normalizer_outcome json_loads [] (default [] tcs)).2) st).
Proof.
  unfold _convert_hfapi_tool_calls.
  destruct tcs as [[|tc tcs]|]; try (by unfold ret; simpl; rewrite log_events_nil).
  apply convert_loop.
Qed.

Lemma normalizer_outcome_returns tcs : ∀ acc,
  Forall (λ tc, escaping json_loads tc = None) tcs →
  normalizer_outcome json_loads acc tcs =
    (inr (acc ++ omap (normalized json_loads) tcs), omap (skipped_with json_loads) tcs).
Proof.
  induction tcs as [|tc tcs IH]; intros acc Hall; simpl.
  - by rewrite app_nil_r.
  - inversion Hall as [|? ? Htc Htcs]; subst. rewrite Htc, (IH _ Htcs). simpl.
    rewrite <- app_assoc. f_equal; [f_equal|].
    + by destruct (normalized json_loads tc).
    + by destruct (skipped_with json_loads tc).
Qed.

(** The loop stops at the first record at which an exception escapes:
    the warnings of the records before it are in the log. *)
Lemma normalizer_outcome_raises before tc after e : ∀ acc,
  Forall (λ tc, escaping json_loads tc = None) before →
  escaping json_loads tc = Some e →
  normalizer_outcome json_loads acc (before ++ tc :: after) =
    (inl e, omap (skipped_with json_loads) before).
Proof.
  induction before as [|x before IH]; intros acc Hall Hesc; simpl.
  - by rewrite Hesc.
  - inversion Hall as [|? ? Hx Hbefore]; subst. rewrite Hx, (IH _ Hbefore Hesc). simpl.
    by destruct (skipped_with json_loads x).
Qed.

(** The accumulator is only ever extended. *)
Lemma normalizer_outcome_acc tcs : ∀ acc,
  normalizer_outcome json_loads acc tcs =
    (match (normalizer_outcome json_loads [] tcs).1 with
     | inl e => inl e
     | inr out => inr (acc ++ out)
     end, (normalizer_outcome json_loads [] tcs).2).
Proof.
  induction tcs as [|tc tcs IH]; intros acc; simpl.
  - by rewrite app_nil_r.
  - destruct (escaping json_loads tc); [done|].
    rewrite (IH (acc ++ _)), (IH (option_list _)). simpl.
    destruct (normalizer_outcome json_loads [] tcs).1 as [e|out]; [done|].
    by rewrite <- app_assoc.
Qed.

Lemma normalizer_outcome_app l1 l2 : ∀ acc,
  normalizer_outcome json_loads acc (l1 ++ l2) =
    match (normalizer_outcome json_loads acc l1).1 with
    | inl e => (inl e, (normalizer_outcome json_loads acc l1).2)
    | inr acc' =>
        ((normalizer_outcome json_loads acc' l2).1,
         (normalizer_outcome json_loads acc l1).2 ++
         (normalizer_outcome json_loads acc' l2).2)
    end.
Proof.
  induction l1 as [|tc l1 IH]; intros acc; simpl.
  - by destruct (normalizer_outcome json_loads acc l2).
  - destruct (escaping json_loads tc); [done|].
    rewrite IH.
    destruct (normalizer_outcome json_loads _ l1).1 as [e|acc']; [done|].
    cbn [fst snd]. by rewrite app_assoc.
Qed.

(** When no exception escapes, the normalizer returns the contributions of
    its records in order and logs their warnings in order; it changes
    nothing else. *)
Lemma convert_spec tcs st :
  Forall (λ tc, escaping json_loads tc = None) (default [] tcs) →
  _convert_hfapi_tool_calls json_loads tcs st =
    (inr (omap (normalized json_loads) (default [] tcs)),
     log_events (EvWarning <$> omap (skipped_with json_loads) (default [] tcs)) st).
Proof.
  intros Hall. by rewrite convert_outcome, (normalizer_outcome_returns _ _ Hall).
Qed.

Lemma decoder_contained_escaping tcs :
  decoder_contained json_loads tcs ↔
  Forall (λ tc, escaping json_loads tc = None) tcs.
Proof.
  rewrite Forall_forall. unfold decoder_contained, escaping. split.
  - intros Hc tc Hin.
    destruct (Fn.arguments (HFToolCall.function tc)) as [| | | |s| |] eqn:Hargs; try done.
    destruct (json_loads s) as [v| |e] eqn:Hs; try done.
    by destruct (Hc tc s e Hin Hargs).
  - intros Hall tc s e Hin Hargs Hs. specialize (Hall tc Hin).
    by rewrite Hargs, Hs in Hall.
Qed.




(** Every emitted [ToolCall] carries truthy arguments; a record whose
    arguments are falsy after parsing is not emitted. *)
Lemma normalized_truthy tc o :
  normalized json_loads tc = Some o → truthy (ToolCall.arguments o) = true.
Proof.
  unfold normalized. destruct (parsed_arguments json_loads tc) as [v|]; [|done].
  destruct (truthy v) eqn:Hv; [|done]. by intros [= <-].
Qed.

End NormalizerProperties.




(** C2: on a record whose string arguments decode to a JSON array the
    normalizer emits a [ToolCall] whose arguments are that list, which is
    not a mapping: the truthiness test lets every non-empty or non-zero
    decoded value through. *)
Theorem normalizer_emits_non_mapping :
  _convert_hfapi_tool_calls JsonDecode.json_decode (Some [list_arguments_call]) empty_state =
    (inr [{| ToolCall.tool_name := "weather";
             ToolCall.arguments := VList [VInt 1; VInt 2];
             ToolCall.id := Some "call_0" |}],
     empty_state)
  ∧ ¬ nonempty_mapping (VList [VInt 1; VInt 2]).
Proof.
  split; [vm_compute; reflexivity|].
  intros (kvs & Heq & _). discriminate Heq.
Qed.

(** ** The finish-reason mapper *)

Lemma has_tool_calls_evidence d :
  has_tool_calls d = true ↔ Delta.tool_calls d ≠ None ∨ Delta.tool_call_id d ≠ None.
Proof.
  unfold has_tool_calls.
  destruct (Delta.tool_calls d), (Delta.tool_call_id d); split; intros Hev;
    try done; try (by left); try (by right).
  by destruct Hev.
Qed.

Lemma finish_reason_mapping_lookup reason :
  default FinishReason.stop (finish_reason_mapping !! reason) =
    if String.eqb reason "length" then FinishReason.length else FinishReason.stop.
Proof.
  unfold finish_reason_mapping.
  destruct (String.eqb_spec reason "length") as [->|Hlen]; [reflexivity|].
  destruct (decide (reason = "stop_sequence")) as [->|Hss]; [reflexivity|].
  destruct (decide (reason = "eos_token")) as [->|Heos]; [reflexivity|].
  by rewrite !lookup_insert_ne, lookup_empty by done.
Qed.

(** C3: the finish-reason mapper is total and follows the policy: no
    vendor finish reason gives none; with tool-call evidence in the delta
    (tool-call fragments or a tool-call id that is not [None]) it gives
    [tool_calls] whatever the vendor said; without evidence [length] gives
    [length], [eos_token] and [stop_sequence] give [stop], and every other
    string gives [stop]. *)
Theorem finish_reason_mapper_policy (d : Delta.t) (reason : string) :
  let choice r := {| StreamChoice.delta := d; StreamChoice.finish_reason := r |} in
  _map_hf_finish_reason_to_haystack (choice None) = None
  ∧ (has_tool_calls d = true ↔
       Delta.tool_calls d ≠ None ∨ Delta.tool_call_id d ≠ None)
  ∧ (has_tool_calls d = true →
       _map_hf_finish_reason_to_haystack (choice (Some reason)) =
         Some FinishReason.tool_calls)
  ∧ (has_tool_calls d = false →
       _map_hf_finish_reason_to_haystack (choice (Some "length")) =
         Some FinishReason.length
       ∧ _map_hf_finish_reason_to_haystack (choice (Some "eos_token")) =
           Some FinishReason.stop
       ∧ _map_hf_finish_reason_to_haystack (choice (Some "stop_sequence")) =
           Some FinishReason.stop
       ∧ (reason ≠ "length" →
            _map_hf_finish_reason_to_haystack (choice (Some reason)) =
              Some FinishReason.stop)).
Proof.
  intros choice. unfold _map_hf_finish_reason_to_haystack; simpl.
  split; [done|]. split; [apply has_tool_calls_evidence|].
  split; [by intros ->|]. intros ->.
  split; [reflexivity|]. split; [reflexivity|]. split; [reflexivity|].
  intros Hne. rewrite finish_reason_mapping_lookup.
  by destruct (String.eqb_spec reason "length").
Qed.

(** The policy at an event without and an event with tool-call evidence. *)
Lemma finish_reason_mapper_policy_witness :
  _map_hf_finish_reason_to_haystack
    {| StreamChoice.delta := plain_delta; StreamChoice.finish_reason := Some "eos_token" |} =
    Some FinishReason.stop
  ∧ _map_hf_finish_reason_to_haystack
      {| StreamChoice.delta := plain_delta;
         StreamChoice.finish_reason := Some "content_filter" |} =
      Some FinishReason.stop
  ∧ _map_hf_finish_reason_to_haystack
      {| StreamChoice.delta := tool_delta; StreamChoice.finish_reason := Some "eos_token" |} =
      Some FinishReason.tool_calls.
Proof.
  destruct (finish_reason_mapper_policy plain_delta "content_filter")
    as (_ & _ & _ & Hplain).
  destruct (Hplain eq_refl) as (_ & Heos & _ & Hother).
  destruct (finish_reason_mapper_policy tool_delta "eos_token")
    as (_ & _ & Htool & _).
  split; [exact Heos|]. split; [by apply Hother|]. by apply Htool.
Defined.

(** ** The chunk translator *)

(** The translator always returns: it reads the clock once and builds
    [translated]. *)
Lemma translator_returns isoformat_now chunk previous_chunks component_info st :
  _convert_chat_completion_stream_output_to_streaming_chunk isoformat_now
    chunk previous_chunks component_info st =
    (inr (translated (isoformat_now (State.ticks st)) chunk previous_chunks component_info),
     tick st).
Proof.
  unfold _convert_chat_completion_stream_output_to_streaming_chunk, translated.
  destruct (StreamOutput.choices chunk) as [|choice rest]; [reflexivity|].
  unfold bind, now, ret, tick; simpl. do 2 f_equal.
  destruct previous_chunks; simpl; f_equal;
    by destruct (Delta.content (StreamChoice.delta choice)),
                (StreamChoice.finish_reason choice).
Qed.



(** C8: for an event with zero choices the translator returns, without
    raising, a chunk with empty content whose metadata holds the model id,
    the receipt timestamp and a usage entry: the vendor's prompt and
    completion token counts when the event carries usage, [None] when it
    does not. *)
Theorem translator_usage_only_event
    (isoformat_now : nat → string) (chunk : StreamOutput.t)
    (previous_chunks : list StreamingChunk.t)
    (component_info : option ComponentInfo.t) (st : State.t) :
  StreamOutput.choices chunk = [] →
  ∃ c st',
    _convert_chat_completion_stream_output_to_streaming_chunk isoformat_now
      chunk previous_chunks component_info st = (inr c, st')
    ∧ StreamingChunk.content c = ""
    ∧ StreamingChunk.meta c !! "model" = Some (VStr (StreamOutput.model chunk))
    ∧ StreamingChunk.meta c !! "received_at" =
        Some (VStr (isoformat_now (State.ticks st)))
    ∧ StreamingChunk.meta c !! "usage" =
        Some (match StreamOutput.usage chunk with
              | Some u =>
                  VDict [("prompt_tokens", VInt (Usage.prompt_tokens u));
                         ("completion_tokens", VInt (Usage.completion_tokens u))]
              | None => VNone
              end).
Proof.
  intros Hchoices. eexists _, _. split; [apply translator_returns|].
  unfold translated. rewrite Hchoices. simpl.
  split; [done|].
  split; [by rewrite !lookup_insert_ne, lookup_insert_eq by done|].
  split; [by rewrite lookup_insert_ne, lookup_insert_eq by done|].
  by rewrite lookup_insert_eq.
Qed.

(** A usage-only terminal event. *)
Lemma translator_usage_only_event_witness :
  ∃ c st',
    _convert_chat_completion_stream_output_to_streaming_chunk sample_clock
      (usage_event 11 7) [] None empty_state = (inr c, st')
    ∧ StreamingChunk.content c = ""
    ∧ StreamingChunk.meta c !! "usage" =
        Some (VDict [("prompt_tokens", VInt 11); ("completion_tokens", VInt 7)]).
Proof.
  destruct (translator_usage_only_event sample_clock (usage_event 11 7)
              [] None empty_state eq_refl)
    as (c & st' & Hrun & Hcontent & _ & _ & Husage).
  exists c, st'. split; [exact Hrun|]. split; [exact Hcontent | exact Husage].
Defined.

(** ** The stream accumulator *)

Lemma translated_content t ev prev ci :
  StreamingChunk.content (translated t ev prev ci) = event_content ev.
Proof.
  unfold translated, event_content. by destruct (StreamOutput.choices ev).
Qed.

Lemma translated_carries_usage t ev prev ci :
  carries_usage (translated t ev prev ci) = event_has_usage ev.
Proof.
  unfold carries_usage, usage_is_none, translated, event_has_usage.
  destruct (StreamOutput.choices ev) as [|choice rest]; simpl.
  - rewrite lookup_insert_eq. by destruct (StreamOutput.usage ev).
  - by rewrite !lookup_insert_ne, lookup_empty by done.
Qed.

Lemma new_chunks_length now n ci prev events :
  List.length (new_chunks now n ci prev events) = List.length events.
Proof.
  revert n prev. induction events as [|ev evs IH]; intros n prev; simpl; [done|].
  by rewrite IH.
Qed.

Lemma new_chunks_content now n ci prev events :
  map StreamingChunk.content (new_chunks now n ci prev events) =
    map event_content events.
Proof.
  revert n prev. induction events as [|ev evs IH]; intros n prev; simpl; [done|].
  by rewrite IH, translated_content.
Qed.

Lemma new_chunks_carries_usage now n ci prev events :
  map carries_usage (new_chunks now n ci prev events) = map event_has_usage events.
Proof.
  revert n prev. induction events as [|ev evs IH]; intros n prev; simpl; [done|].
  by rewrite IH, translated_carries_usage.
Qed.

(** Within a turn, the chunk of an event with at least one choice has
    [start] set exactly at the first position. *)
Lemma new_chunks_start now n ci events k ev c :
  events !! k = Some ev →
  new_chunks now n ci [] events !! k = Some c →
  StreamOutput.choices ev ≠ [] →
  StreamingChunk.start c = bool_decide (k = 0%nat).
Proof.
  assert (Hgen : ∀ events prev n k ev c,
    events !! k = Some ev →
    new_chunks now n ci prev events !! k = Some c →
    StreamOutput.choices ev ≠ [] →
    StreamingChunk.start c = bool_decide (prev = [] ∧ k = 0%nat)).
  { clear. induction events as [|ev0 evs IH]; intros prev n k ev c Hev Hc Hne; [done|].
    destruct k as [|k]; simpl in *.
    - injection Hev as ->. injection Hc as <-. unfold translated.
      destruct (StreamOutput.choices ev); [done|]. simpl.
      apply bool_decide_ext. intuition.
    - rewrite (IH _ _ _ _ _ Hev Hc Hne).
      rewrite !bool_decide_eq_false_2; try done;
        intros [Hnil Hk]; try done; by destruct prev. }
  intros Hev Hc Hne. rewrite (Hgen _ _ _ _ _ _ Hev Hc Hne).
  apply bool_decide_ext. intuition.
Qed.

Section Accumulator.
Variable isoformat_now : nat → string.

Lemma stream_body_returns cb ci prev ev st :
  let c := translated (isoformat_now (State.ticks st)) ev prev (Some ci) in
  Callback.call cb c = None →
  stream_body isoformat_now cb ci prev ev st =
    (inr (prev ++ [c]), after_turn cb [c] st).
Proof.
  intros c Hcall. unfold stream_body.
  erewrite bind_inr by apply translator_returns.
  unfold invoke, bind, emit; simpl. fold c. rewrite Hcall.
  unfold ret, after_turn, tick; simpl. do 2 f_equal. lia.
Qed.

Lemma stream_loop_returns cb ci events : ∀ prev st,
  Forall (λ c, Callback.call cb c = None)
    (new_chunks isoformat_now (State.ticks st) (Some ci) prev events) →
  for_each (stream_body isoformat_now cb ci) prev events st =
    (inr (prev ++ new_chunks isoformat_now (State.ticks st) (Some ci) prev events),
     after_turn cb (new_chunks isoformat_now (State.ticks st) (Some ci) prev events) st).
Proof.
  induction events as [|ev evs IH]; intros prev st Hok; simpl.
  - unfold ret, after_turn; simpl. rewrite app_nil_r.
    destruct st; simpl. do 2 f_equal; [by rewrite app_nil_r | lia].
  - inversion Hok as [|c cs Hc Hcs]; subst.
    erewrite bind_inr by (by apply stream_body_returns).
    rewrite IH; simpl; rewrite ?Nat.add_1_r; [|done].
    rewrite <- app_assoc. simpl. f_equal.
    unfold after_turn; simpl. f_equal; [by rewrite <- app_assoc | lia].
Qed.
End Accumulator.

Lemma callbacks_of_app tr1 tr2 :
  callbacks_of (tr1 ++ tr2) = callbacks_of tr1 ++ callbacks_of tr2.
Proof. apply omap_app. Qed.

Lemma callbacks_of_callbacks name chunks :
  callbacks_of (EvCallback name <$> chunks) = chunks.
Proof. induction chunks as [|c cs IH]; [done|]. unfold callbacks_of in *. csimpl. by rewrite IH. Qed.

Lemma requests_of_app tr1 tr2 :
  requests_of (tr1 ++ tr2) = requests_of tr1 ++ requests_of tr2.
Proof. apply omap_app. Qed.

Lemma requests_of_callbacks name chunks :
  requests_of (EvCallback name <$> chunks) = [].
Proof. induction chunks as [|c cs IH]; [done|]. unfold requests_of in *. csimpl. by rewrite IH. Qed.

Lemma requests_of_warnings ws : requests_of (EvWarning <$> ws) = [].
Proof. induction ws as [|w ws IH]; [done|]. unfold requests_of in *. csimpl. by rewrite IH. Qed.

(** The message of a turn none of whose chunks carries usage has zero
    usage after the default is applied. *)
Lemma default_usage_zero chunks :
  Forall (λ c, carries_usage c = false) chunks →
  ChatMessage.meta (default_usage (_convert_streaming_chunks_to_chat_message chunks))
    !! "usage" = Some zero_usage.
Proof.
  intros Hnone.
  assert (Hlast : last_with_usage chunks = None).
  { unfold last_with_usage.
    replace (filter (λ c, carries_usage c = true) chunks) with (@nil StreamingChunk.t); [done|].
    symmetry. induction Hnone as [|c cs Hc _ IH]; [done|].
    rewrite filter_cons_False by (by rewrite Hc). exact IH. }
  unfold default_usage, _convert_streaming_chunks_to_chat_message. rewrite Hlast. simpl.
  unfold usage_is_none. rewrite lookup_empty. simpl. by rewrite lookup_insert_eq.
Qed.

Lemma default_usage_text m : ChatMessage.text (default_usage m) = ChatMessage.text m.
Proof. unfold default_usage. by destruct (usage_is_none _). Qed.

Lemma default_usage_tool_calls m :
  ChatMessage.tool_calls (default_usage m) = ChatMessage.tool_calls m.
Proof. unfold default_usage. by destruct (usage_is_none _). Qed.

Section StreamingProperties.
Variable isoformat_now : nat → string.
Variable chat_completion_stream : Request.t → exn + stream.

Lemma run_streaming_returns (async : bool) self messages kwargs cb events st :
  kwargs_clash ["messages"; "stream"; "stream_options"] kwargs = false →
  chat_completion_stream (stream_request async self messages kwargs) = inr (events, None) →
  Forall (λ c, Callback.call cb c = None) (turn_chunks isoformat_now self st events) →
  (if async
   then _run_streaming_async isoformat_now chat_completion_stream self messages kwargs cb
   else _run_streaming isoformat_now chat_completion_stream self messages kwargs cb) st =
    (inr {| Result.replies :=
              [default_usage
                 (_convert_streaming_chunks_to_chat_message (turn_chunks isoformat_now self st events))] |},
     after_turn cb (turn_chunks isoformat_now self st events)
       (log_events [EvRequest (stream_request async self messages kwargs)] st)).
Proof.
  intros Hclash Hvendor Hcb.
  destruct async; unfold _run_streaming_async, _run_streaming; rewrite Hclash;
    rewrite bind_ret_l;
    unfold call_chat_completion_stream;
    (erewrite bind_inr;
     [|erewrite bind_inr by apply emit_log;
       unfold stream_request in Hvendor; simpl in Hvendor; rewrite Hvendor; reflexivity]);
    unfold iterate; simpl;
    (erewrite bind_inr; [|erewrite bind_inr by (by apply stream_loop_returns); reflexivity]);
    reflexivity.
Qed.
End StreamingProperties.

(** C6: a finished streaming turn, synchronous or asynchronous, returns
    exactly one message.  When the keyword arguments do not clash, the
    vendor streams [events] to the end and the callback returns on every
    chunk, the callback has received one chunk per event in order, the
    text of the message is the concatenation of the contents of these
    chunks in order, and if none of them carries a usage object the usage
    of the message is zero prompt and zero completion tokens. *)
Theorem streaming_turn_folds
    (isoformat_now : nat → string)
    (chat_completion_stream : Request.t → exn + stream)
    (async : bool) (self : Self.t) (messages : list (gmap string value))
    (kwargs : gmap string pyval) (cb : Callback.t)
    (events : list StreamOutput.t) (st : State.t) :
  kwargs_clash ["messages"; "stream"; "stream_options"] kwargs = false →
  chat_completion_stream (stream_request async self messages kwargs) = inr (events, None) →
  Forall (λ c, Callback.call cb c = None) (turn_chunks isoformat_now self st events) →
  ∃ chunks m st',
    (if async
     then _run_streaming_async isoformat_now chat_completion_stream self messages kwargs cb
     else _run_streaming isoformat_now chat_completion_stream self messages kwargs cb) st =
      (inr {| Result.replies := [m] |}, st')
    ∧ callbacks_of (State.trace st') = callbacks_of (State.trace st) ++ chunks
    ∧ List.length chunks = List.length events
    ∧ map StreamingChunk.content chunks = map event_content events
    ∧ ChatMessage.text m = Some (String.concat "" (map StreamingChunk.content chunks))
    ∧ ChatMessage.tool_calls m = []
    ∧ (Forall (λ c, carries_usage c = false) chunks →
         ChatMessage.meta m !! "usage" =
           Some (VDict [("prompt_tokens", VInt 0); ("completion_tokens", VInt 0)])).
Proof.
  intros Hclash Hvendor Hcb.
  exists (turn_chunks isoformat_now self st events). eexists _, _.
  split; [by apply run_streaming_returns|].
  split.
  { unfold after_turn, log_events. cbn [State.trace].
    rewrite !callbacks_of_app, callbacks_of_callbacks.
    unfold callbacks_of at 2. cbn. by rewrite app_nil_r. }
  split; [apply new_chunks_length|].
  split; [apply new_chunks_content|].
  split; [by rewrite default_usage_text|].
  split; [by rewrite default_usage_tool_calls|].
  apply default_usage_zero.
Qed.

(** A synchronous turn of two chunks, none with usage. *)
Lemma streaming_turn_folds_witness :
  ∃ chunks m st',
    _run_streaming sample_clock sample_stream sample_self [] sample_kwargs
      print_streaming_chunk sample_state = (inr {| Result.replies := [m] |}, st')
    ∧ callbacks_of (State.trace st') = chunks
    ∧ List.length chunks = 2%nat
    ∧ ChatMessage.text m = Some "Paris"
    ∧ ChatMessage.meta m !! "usage" =
        Some (VDict [("prompt_tokens", VInt 0); ("completion_tokens", VInt 0)]).
Proof.
  destruct (streaming_turn_folds sample_clock sample_stream false sample_self []
              sample_kwargs print_streaming_chunk
              [content_event "Par"; final_event "is" "eos_token"] sample_state)
    as (chunks & m & st' & Hrun & Hcbs & Hlen & Hcontent & Htext & _ & Husage).
  - reflexivity.
  - reflexivity.
  - repeat constructor.
  - exists chunks, m, st'. split; [exact Hrun|]. split; [exact Hcbs|].
    split; [exact Hlen|]. split; [by rewrite Htext, Hcontent|].
    apply Husage.
    apply Forall_fmap with (f := carries_usage) (P := λ b, b = false).
    assert (Hmap : carries_usage <$> chunks = [false; false]).
    { injection Hrun as _ Hst. subst st'. simpl in Hcbs.
      unfold callbacks_of in Hcbs. simpl in Hcbs. subst chunks. vm_compute. reflexivity. }
    rewrite Hmap. by repeat constructor.
Defined.

(** ** The non-streaming path *)

Section NonStreamingProperties.
Variable json_loads : string → Json.result.
Variable chat_completion : Request.t → exn + ChatOutput.t.

(** What the non-streaming path does, case by case. *)
Lemma run_non_streaming_cases (async : bool) self messages kwargs tools st :
  let request := completion_request async self messages kwargs tools in
  (if async
   then _run_non_streaming_async json_loads chat_completion self messages kwargs tools
   else _run_non_streaming json_loads chat_completion self messages kwargs tools) st =
    if kwargs_clash ["messages"; "tools"] kwargs then
      (inl (TypeError "chat_completion() got multiple values for an argument"), st)
    else
      match chat_completion request with
      | inl e => (inl e, log_events [EvRequest request] st)
      | inr out =>
          match ChatOutput.choices out with
          | None | Some [] =>
              (inr {| Result.replies := [] |}, log_events [EvRequest request] st)
          | Some (choice :: _) =>
              let outcome :=
                normalizer_outcome json_loads []
                  (default [] (OutMessage.tool_calls (OutChoice.message choice))) in
              (match outcome.1 with
               | inl e => inl e
               | inr tool_calls =>
                   inr {| Result.replies :=
                            [reply_with (Request.client request) out choice tool_calls] |}
               end,
               log_events (EvRequest request :: (EvWarning <$> outcome.2)) st)
          end
      end.
Proof.
  intros request.
  destruct async; unfold _run_non_streaming_async, _run_non_streaming;
    (destruct (kwargs_clash _ kwargs); [reflexivity|]);
    rewrite bind_ret_l; unfold call_chat_completion;
    fold (completion_request true self messages kwargs tools);
    fold (completion_request false self messages kwargs tools); fold request;
    unfold bind at 1; unfold bind at 1; rewrite emit_log;
    (destruct (chat_completion request) as [e|out]; [reflexivity|]); simpl;
    (destruct (ChatOutput.choices out) as [[|choice rest]|]; try reflexivity);
    unfold bind at 1; rewrite convert_outcome, log_events_app;
    (destruct (normalizer_outcome json_loads [] _).1 as [e|tool_calls]; reflexivity).
Qed.

End NonStreamingProperties.

(** C9: a non-streaming call, synchronous or asynchronous, whose vendor
    response has an empty or an absent list of choices returns the mapping
    with an empty [replies] list; no error is raised and nothing but the
    request is left in the trace. *)
Theorem empty_choices_empty_replies
    (json_loads : string → Json.result)
    (chat_completion : Request.t → exn + ChatOutput.t)
    (async : bool) (self : Self.t) (messages : list (gmap string value))
    (kwargs : gmap string pyval) (tools : option (list HFTool.t))
    (out : ChatOutput.t) (st : State.t) :
  kwargs_clash ["messages"; "tools"] kwargs = false →
  chat_completion (completion_request async self messages kwargs tools) = inr out →
  ChatOutput.choices out = None ∨ ChatOutput.choices out = Some [] →
  (if async
   then _run_non_streaming_async json_loads chat_completion self messages kwargs tools
   else _run_non_streaming json_loads chat_completion self messages kwargs tools) st =
    (inr {| Result.replies := [] |},
     log_events [EvRequest (completion_request async self messages kwargs tools)] st).
Proof.
  intros Hclash Hvendor Hchoices.
  rewrite run_non_streaming_cases, Hclash, Hvendor.
  by destruct Hchoices as [-> | ->].
Qed.

(** The synchronous and the asynchronous call against a vendor that
    answers with no choice. *)
Lemma empty_choices_empty_replies_witness :
  _run_non_streaming JsonDecode.json_decode sample_completion sample_self []
    sample_kwargs None sample_state =
    (inr {| Result.replies := [] |},
     log_events [EvRequest (completion_request false sample_self [] sample_kwargs None)]
       sample_state)
  ∧ _run_non_streaming_async JsonDecode.json_decode
      (λ _, inr {| ChatOutput.choices := None; ChatOutput.usage := None |})
      sample_self [] sample_kwargs None sample_state =
      (inr {| Result.replies := [] |},
       log_events [EvRequest (completion_request true sample_self [] sample_kwargs None)]
         sample_state).
Proof.
  split.
  - apply (empty_choices_empty_replies JsonDecode.json_decode sample_completion false
             sample_self [] sample_kwargs None
             {| ChatOutput.choices := Some []; ChatOutput.usage := None |} sample_state);
      [reflexivity | reflexivity | by right].
  - apply (empty_choices_empty_replies JsonDecode.json_decode
             (λ _, inr {| ChatOutput.choices := None; ChatOutput.usage := None |}) true
             sample_self [] sample_kwargs None
             {| ChatOutput.choices := None; ChatOutput.usage := None |} sample_state);
      [reflexivity | reflexivity | by left].
Defined.

(** ** Requests issued by a call *)

Lemma issues_refl st : issues st st [].
Proof. exists []. by rewrite app_nil_r. Qed.

Lemma issues_request r st : issues st (log_events [EvRequest r] st) [r].
Proof. by exists [EvRequest r]. Qed.

Lemma issues_request_warnings r ws st :
  issues st (log_events (EvRequest r :: (EvWarning <$> ws)) st) [r].
Proof.
  exists (EvRequest r :: (EvWarning <$> ws)). split; [done|].
  change (EvRequest r :: ?l) with ([EvRequest r] ++ l).
  by rewrite requests_of_app, requests_of_warnings.
Qed.

Section StreamingTrace.
Variable isoformat_now : nat → string.
Variable chat_completion_stream : Request.t → exn + stream.

Lemma stream_body_state cb ci prev ev st :
  ∃ res, stream_body isoformat_now cb ci prev ev st =
           (res, after_turn cb
                   [translated (isoformat_now (State.ticks st)) ev prev (Some ci)] st).
Proof.
  unfold stream_body.
  erewrite bind_inr by apply translator_returns.
  unfold invoke, bind, emit; simpl.
  destruct (Callback.call cb _); eexists; unfold raise, ret, after_turn, tick; simpl;
    do 2 f_equal; lia.
Qed.

Lemma after_turn_app cb cs1 cs2 st :
  after_turn cb cs2 (after_turn cb cs1 st) = after_turn cb (cs1 ++ cs2) st.
Proof.
  unfold after_turn; simpl. rewrite fmap_app, app_assoc, length_app. f_equal. lia.
Qed.

Lemma after_turn_nil cb st : after_turn cb [] st = st.
Proof.
  destruct st; unfold after_turn; simpl. rewrite app_nil_r. f_equal. lia.
Qed.

(** Whatever the callback does, the loop only reads the clock and calls
    the callback. *)
Lemma stream_loop_state cb ci events : ∀ prev st,
  ∃ res chunks,
    for_each (stream_body isoformat_now cb ci) prev events st =
      (res, after_turn cb chunks st).
Proof.
  induction events as [|ev evs IH]; intros prev st; simpl.
  - exists (inr prev), []. unfold ret. by rewrite after_turn_nil.
  - destruct (stream_body_state cb ci prev ev st) as [res Hbody].
    unfold bind at 1. rewrite Hbody. destruct res as [e|acc].
    + by eexists _, _.
    + destruct (IH acc (after_turn cb
                  [translated (isoformat_now (State.ticks st)) ev prev (Some ci)] st))
        as (res & chunks & Hloop).
      rewrite Hloop, after_turn_app. by eexists _, _.
Qed.

Lemma issues_after_turn r cb chunks st :
  issues st (after_turn cb chunks (log_events [EvRequest r] st)) [r].
Proof.
  exists (EvRequest r :: (EvCallback (Callback.name cb) <$> chunks)).
  split; [by unfold after_turn, log_events; simpl; rewrite <- app_assoc|].
  change (EvRequest r :: ?l) with ([EvRequest r] ++ l).
  by rewrite requests_of_app, requests_of_callbacks.
Qed.

(** The streaming path, case by case. *)
Lemma run_streaming_cases (async : bool) self messages kwargs cb st :
  let request := stream_request async self messages kwargs in
  (if async
   then _run_streaming_async isoformat_now chat_completion_stream self messages kwargs cb
   else _run_streaming isoformat_now chat_completion_stream self messages kwargs cb) st =
    if kwargs_clash ["messages"; "stream"; "stream_options"] kwargs then
      (inl (TypeError "chat_completion() got multiple values for an argument"), st)
    else
      match chat_completion_stream request with
      | inl e => (inl e, log_events [EvRequest request] st)
      | inr (events, failure) =>
          match for_each
                  (stream_body isoformat_now cb (from_component (Self.component_name self)))
                  [] events (log_events [EvRequest request] st) with
          | (inl e, st') => (inl e, st')
          | (inr streaming_chunks, st') =>
              match failure with
              | Some e => (inl e, st')
              | None =>
                  (inr {| Result.replies :=
                            [default_usage
                               (_convert_streaming_chunks_to_chat_message
                                  streaming_chunks)] |}, st')
              end
          end
      end.
Proof.
  intros request.
  destruct async; unfold _run_streaming_async, _run_streaming;
    (destruct (kwargs_clash _ kwargs); [reflexivity|]);
    rewrite bind_ret_l; unfold call_chat_completion_stream;
    fold (stream_request true self messages kwargs);
    fold (stream_request false self messages kwargs); fold request;
    unfold bind at 1; unfold bind at 1; rewrite emit_log;
    (destruct (chat_completion_stream request) as [e|[events failure]]; [reflexivity|]);
    simpl; unfold iterate, bind; simpl;
    (destruct (for_each _ [] events _) as [[e|cs] st']; [reflexivity|]);
    destruct failure; reflexivity.
Qed.
(** Without a clash of keyword arguments the streaming path issues the
    streaming request, whatever happens afterwards. *)
Lemma run_streaming_sends (async : bool) self messages kwargs cb st :
  kwargs_clash ["messages"; "stream"; "stream_options"] kwargs = false →
  ∃ res st',
    (if async
     then _run_streaming_async isoformat_now chat_completion_stream self messages kwargs cb
     else _run_streaming isoformat_now chat_completion_stream self messages kwargs cb) st =
      (res, st')
    ∧ issues st st' [stream_request async self messages kwargs].
Proof.
  intros Hclash. rewrite run_streaming_cases. cbv zeta. rewrite Hclash.
  destruct (chat_completion_stream _) as [e|[events failure]].
  { eexists _, _. split; [reflexivity|]. apply issues_request. }
  destruct (stream_loop_state cb (from_component (Self.component_name self)) events []
              (log_events [EvRequest (stream_request async self messages kwargs)] st))
    as (r & chunks & ->).
  destruct r as [e|cs]; [|destruct failure];
    eexists _, _; (split; [reflexivity|]); apply issues_after_turn.
Qed.

(** The streaming path raises before the request or issues exactly the
    streaming request. *)
Lemma run_streaming_issues (async : bool) self messages kwargs cb st res st' :
  (if async
   then _run_streaming_async isoformat_now chat_completion_stream self messages kwargs cb
   else _run_streaming isoformat_now chat_completion_stream self messages kwargs cb) st =
    (res, st') →
  (issues st st' [] ∧ ∃ e, res = inl e)
  ∨ issues st st' [stream_request async self messages kwargs].
Proof.
  assert (Hgen :
    (bind (if kwargs_clash ["messages"; "stream"; "stream_options"] kwargs
           then raise (TypeError "chat_completion() got multiple values for an argument")
           else ret tt)
       (λ _, bind (call_chat_completion_stream chat_completion_stream
                     (stream_request async self messages kwargs))
          (λ api_output,
             bind (iterate api_output
                     (stream_body isoformat_now cb
                        (from_component (Self.component_name self))) [])
               (λ streaming_chunks,
                  ret {| Result.replies :=
                           [default_usage
                              (_convert_streaming_chunks_to_chat_message
                                 streaming_chunks)] |})))) st = (res, st') →
    (issues st st' [] ∧ ∃ e, res = inl e)
    ∨ issues st st' [stream_request async self messages kwargs]).
  { destruct (kwargs_clash _ kwargs).
    { intros [= <- <-]. left. split; [apply issues_refl | by eexists]. }
    rewrite bind_ret_l. unfold call_chat_completion_stream.
    unfold bind at 1. unfold bind at 1. rewrite emit_log.
    destruct (chat_completion_stream _) as [e|[events failure]]; simpl.
    { intros [= <- <-]. right. apply issues_request. }
    unfold iterate, bind; simpl.
    destruct (stream_loop_state cb (from_component (Self.component_name self)) events []
                (log_events [EvRequest (stream_request async self messages kwargs)] st))
      as (r & chunks & ->).
    destruct r as [e|acc]; [|destruct failure]; intros [= <- <-]; right;
      apply issues_after_turn. }
  destruct async; exact Hgen.
Qed.
End StreamingTrace.

Section NonStreamingTrace.
Variable json_loads : string → Json.result.
Variable chat_completion : Request.t → exn + ChatOutput.t.

(** The non-streaming path raises before the request or issues exactly
    the completion request. *)
Lemma run_non_streaming_issues (async : bool) self messages kwargs tools st res st' :
  (if async
   then _run_non_streaming_async json_loads chat_completion self messages kwargs tools
   else _run_non_streaming json_loads chat_completion self messages kwargs tools) st =
    (res, st') →
  (issues st st' [] ∧ ∃ e, res = inl e)
  ∨ issues st st' [completion_request async self messages kwargs tools].
Proof.
  rewrite run_non_streaming_cases.
  destruct (kwargs_clash _ kwargs).
  { intros [= <- <-]. left. split; [apply issues_refl | by eexists]. }
  destruct (chat_completion _) as [e|out].
  { intros [= <- <-]. right. apply issues_request. }
  destruct (ChatOutput.choices out) as [[|choice rest]|]; intros [= <- <-]; right;
    first [apply issues_request | apply issues_request_warnings].
Qed.
(** Without a clash of keyword arguments the non-streaming path issues the
    completion request, whatever happens afterwards. *)
Lemma run_non_streaming_sends (async : bool) self messages kwargs tools st :
  kwargs_clash ["messages"; "tools"] kwargs = false →
  ∃ res st',
    (if async
     then _run_non_streaming_async json_loads chat_completion self messages kwargs tools
     else _run_non_streaming json_loads chat_completion self messages kwargs tools) st =
      (res, st')
    ∧ issues st st' [completion_request async self messages kwargs tools].
Proof.
  intros Hclash. rewrite run_non_streaming_cases. cbv zeta. rewrite Hclash.
  destruct (chat_completion _) as [e|out].
  { eexists _, _. split; [reflexivity|]. apply issues_request. }
  destruct (ChatOutput.choices out) as [[|choice rest]|];
    eexists _, _; (split; [reflexivity|]);
    first [apply issues_request | apply issues_request_warnings].
Qed.
End NonStreamingTrace.

(** ** The entry points *)

Lemma comprehension_pure {A B} (f : A → exn + B) xs st :
  comprehension f xs st = (format_all f xs, st).
Proof.
  induction xs as [|x xs IH]; [done|]. simpl. unfold bind at 1.
  destruct (f x) as [e|y]; [done|]. simpl. unfold bind at 1. rewrite IH.
  by destruct (format_all f xs).
Qed.

Lemma read_dict_lookup l d st :
  State.heap st !! l = Some (ODict d) → read_dict l st = (inr d, st).
Proof. unfold read_dict. by intros ->. Qed.

Lemma kwargs_clash_paths {V} (kwargs : gmap string V) :
  kwargs_clash ["messages"; "tools"; "stream"; "stream_options"] kwargs = false →
  kwargs_clash ["messages"; "tools"] kwargs = false
  ∧ kwargs_clash ["messages"; "stream"; "stream_options"] kwargs = false.
Proof.
  unfold kwargs_clash. cbn [existsb].
  destruct (bool_decide (is_Some (kwargs !! "messages"))); [done|].
  destruct (bool_decide (is_Some (kwargs !! "tools"))); [done|].
  destruct (bool_decide (is_Some (kwargs !! "stream"))); [done|].
  by destruct (bool_decide (is_Some (kwargs !! "stream_options"))).
Qed.

Section RunProperties.
Variable json_loads : string → Json.result.
Variable isoformat_now : nat → string.
Variable convert_message_to_hf_format : ChatMessage.t → exn + gmap string value.
Variable chat_completion : Request.t → exn + ChatOutput.t.
Variable chat_completion_stream : Request.t → exn + stream.

(** An entry point reads the stored parameters, formats the messages,
    validates, and only then takes one of the two paths. *)
Lemma entry_cases (async : bool) self messages kw tools cb st d :
  State.heap st !! Self.generation_kwargs self = Some (ODict d) →
  entry json_loads isoformat_now convert_message_to_hf_format chat_completion
    chat_completion_stream async self messages kw tools cb st =
    match format_all convert_message_to_hf_format messages with
    | inl e => (inl e, st)
    | inr formatted =>
        match validated async self tools cb with
        | inl e => (inl e, st)
        | inr (Some c) =>
            (if async
             then _run_streaming_async isoformat_now chat_completion_stream self
                    formatted (dict_merge d (default ∅ kw)) c
             else _run_streaming isoformat_now chat_completion_stream self
                    formatted (dict_merge d (default ∅ kw)) c) st
        | inr None =>
            (if async
             then _run_non_streaming_async json_loads chat_completion self formatted
                    (dict_merge d (default ∅ kw))
                    (_convert_tools_to_hfapi_tools
                       (toolset_to_list (tools_or tools (Self.tools self))))
             else _run_non_streaming json_loads chat_completion self formatted
                    (dict_merge d (default ∅ kw))
                    (_convert_tools_to_hfapi_tools
                       (toolset_to_list (tools_or tools (Self.tools self))))) st
        end
    end.
Proof.
  intros Hheap. unfold entry, validated.
  destruct async; unfold run_async, run;
    (erewrite bind_inr by (by apply read_dict_lookup));
    unfold bind at 1; rewrite comprehension_pure;
    (destruct (format_all _ messages) as [e|formatted]; [reflexivity|]);
    (destruct (tools_truthy _ && _); [reflexivity|]);
    rewrite bind_ret_l; unfold bind at 1; unfold lift at 1;
    (destruct (_check_duplicate_tool_names _) as [e|[]]; [reflexivity|]);
    unfold ret at 1; unfold bind at 1; unfold lift at 1;
    (destruct (select_streaming_callback _ _ _) as [e|[c|]]; reflexivity).
Qed.

(** An entry point raises before any request or issues exactly one, whose
    generation parameters are the stored ones overridden key by key. *)
Lemma entry_issues (async : bool) self messages kw tools cb st d res st' :
  State.heap st !! Self.generation_kwargs self = Some (ODict d) →
  entry json_loads isoformat_now convert_message_to_hf_format chat_completion
    chat_completion_stream async self messages kw tools cb st = (res, st') →
  (issues st st' [] ∧ ∃ e, res = inl e)
  ∨ ∃ r, issues st st' [r] ∧ Request.kwargs r = dict_merge d (default ∅ kw).
Proof.
  intros Hheap. rewrite (entry_cases _ _ _ _ _ _ _ _ Hheap).
  destruct (format_all _ messages) as [e|formatted].
  { intros [= <- <-]. left. split; [apply issues_refl | by eexists]. }
  destruct (validated async self tools cb) as [e|[c|]].
  { intros [= <- <-]. left. split; [apply issues_refl | by eexists]. }
  - intros Hrun. apply run_streaming_issues in Hrun as [Hnone|Hone]; [by left|].
    right. by eexists.
  - intros Hrun. apply run_non_streaming_issues in Hrun as [Hnone|Hone]; [by left|].
    right. by eexists.
Qed.
(** A call whose messages format and that passes validation issues exactly
    one request, with the formatted messages and the merged parameters. *)
Lemma entry_sends (async : bool) self messages kw tools cb st d formatted selected :
  State.heap st !! Self.generation_kwargs self = Some (ODict d) →
  format_all convert_message_to_hf_format messages = inr formatted →
  validated async self tools cb = inr selected →
  kwargs_clash ["messages"; "tools"; "stream"; "stream_options"]
    (dict_merge d (default ∅ kw)) = false →
  ∃ res st' r,
    entry json_loads isoformat_now convert_message_to_hf_format chat_completion
      chat_completion_stream async self messages kw tools cb st = (res, st')
    ∧ issues st st' [r]
    ∧ Request.async r = async
    ∧ Request.messages r = formatted
    ∧ Request.kwargs r = dict_merge d (default ∅ kw).
Proof.
  intros Hheap Hformat Hvalid Hclash.
  apply kwargs_clash_paths in Hclash as [Hnon Hstream].
  rewrite (entry_cases _ _ _ _ _ _ _ _ Hheap), Hformat, Hvalid.
  destruct selected as [c|].
  - destruct (run_streaming_sends isoformat_now chat_completion_stream async self
                formatted (dict_merge d (default ∅ kw)) c st Hstream)
      as (res & st' & Hrun & Hissues).
    exists res, st', (stream_request async self formatted (dict_merge d (default ∅ kw))).
    by rewrite Hrun.
  - destruct (run_non_streaming_sends json_loads chat_completion async self formatted
                (dict_merge d (default ∅ kw))
                (_convert_tools_to_hfapi_tools
                   (toolset_to_list (tools_or tools (Self.tools self)))) st Hnon)
      as (res & st' & Hrun & Hissues).
    eexists res, st', _. rewrite Hrun. split; [reflexivity|]. split; [exact Hissues|].
    split; [|split]; reflexivity.
Qed.
End RunProperties.

Lemma duplicates_truthy (tools : option tools_arg) :
  ¬ NoDup (map Tool.name (tools_or_empty tools)) → tools_truthy tools = true.
Proof.
  unfold tools_or_empty. destruct (tools_truthy tools); [done|].
  intros Hdup. destruct Hdup. constructor.
Qed.

Lemma duplicates_rejected (tools : list Tool.t) :
  ¬ NoDup (map Tool.name tools) →
  _check_duplicate_tool_names tools = inl (ValueError DuplicateToolNames).
Proof.
  intros Hdup. unfold _check_duplicate_tool_names. by rewrite bool_decide_eq_false_2.
Qed.

(** Counterexample to C4 as stated: with a default callback on the
    component and two tools of the same name passed to the call, [run] and
    [run_async] raise the tools-and-streaming error, not the duplicate-name
    error; so does the constructor when given both. *)
Lemma duplicates_and_callback_raise_conflict :
  ¬ NoDup (map Tool.name [weather_tool; weather_tool])
  ∧ run JsonDecode.json_decode sample_clock sample_format sample_completion sample_stream
      (callback_self print_streaming_chunk) [user_message "Weather in Paris?"] None
      (Some (ToolList [weather_tool; weather_tool])) None sample_state =
      (inl (ValueError ToolsAndStreaming), sample_state)
  ∧ run_async JsonDecode.json_decode sample_clock sample_format sample_completion
      sample_stream (callback_self async_print_streaming_chunk)
      [user_message "Weather in Paris?"] None
      (Some (ToolList [weather_tool; weather_tool])) None sample_state =
      (inl (ValueError ToolsAndStreaming), sample_state)
  ∧ __init__ sample_check_model sample_valid_url sample_client_error
      sample_client_error (ApiStr "serverless_inference_api")
      (<["model" := "Qwen/Qwen2.5-7B-Instruct"]> ∅) None None None
      (Some print_streaming_chunk) (Some (ToolList [weather_tool; weather_tool])) None
      empty_state =
      (inl (ValueError ToolsAndStreaming), empty_state)
  ∧ ValueError ToolsAndStreaming ≠ ValueError DuplicateToolNames.
Proof.
  split.
  { intros Hnodup. apply NoDup_cons in Hnodup as [Hnotin _]. apply Hnotin. by left. }
  split; [vm_compute; reflexivity|].
  split; [vm_compute; reflexivity|].
  split; [vm_compute; reflexivity|].
  discriminate.
Qed.

(** C4, amended: the entry points first reject non-empty effective tools
    together with a default callback of the component, and then reject
    duplicate tool names.  When the stored parameters can be read and the
    messages format, a call with duplicate names among its effective tools
    raises the tools-and-streaming error if the component has a default
    callback, and the duplicate-name error if there is no callback at
    all; in both cases nothing has been logged or sent. *)
Theorem conflict_checked_before_duplicates
    (json_loads : string → Json.result)
    (isoformat_now : nat → string)
    (convert_message_to_hf_format : ChatMessage.t → exn + gmap string value)
    (chat_completion : Request.t → exn + ChatOutput.t)
    (chat_completion_stream : Request.t → exn + stream)
    (async : bool) (self : Self.t) (messages : list ChatMessage.t)
    (kw : option (gmap string pyval)) (tools : option tools_arg)
    (cb : option Callback.t) (st : State.t)
    (d : gmap string pyval) (formatted : list (gmap string value)) :
  State.heap st !! Self.generation_kwargs self = Some (ODict d) →
  format_all convert_message_to_hf_format messages = inr formatted →
  ¬ NoDup (map Tool.name (tools_or_empty (tools_or tools (Self.tools self)))) →
  (is_Some (Self.streaming_callback self) →
     (if async
      then run_async json_loads isoformat_now convert_message_to_hf_format
             chat_completion chat_completion_stream self messages kw tools cb
      else run json_loads isoformat_now convert_message_to_hf_format
             chat_completion chat_completion_stream self messages kw tools cb) st =
       (inl (ValueError ToolsAndStreaming), st))
  ∧ (Self.streaming_callback self = None → cb = None →
       (if async
        then run_async json_loads isoformat_now convert_message_to_hf_format
               chat_completion chat_completion_stream self messages kw tools cb
        else run json_loads isoformat_now convert_message_to_hf_format
               chat_completion chat_completion_stream self messages kw tools cb) st =
         (inl (ValueError DuplicateToolNames), st)).
Proof.
  intros Hheap Hformat Hdup.
  pose proof (entry_cases json_loads isoformat_now convert_message_to_hf_format
                chat_completion chat_completion_stream async self messages kw tools cb
                st d Hheap) as Hcases.
  unfold entry in Hcases. rewrite Hformat in Hcases.
  split.
  - intros Hcb. destruct async; rewrite Hcases; unfold validated;
      rewrite (duplicates_truthy _ Hdup), (bool_decide_eq_true_2 _ Hcb); reflexivity.
  - intros Hnone ->. destruct async; rewrite Hcases; unfold validated;
      rewrite (duplicates_truthy _ Hdup), Hnone, (duplicates_rejected _ Hdup);
      reflexivity.
Qed.

(** The amended order at a call with two tools of the same name. *)
Lemma conflict_checked_before_duplicates_witness :
  run JsonDecode.json_decode sample_clock sample_format sample_completion sample_stream
    (callback_self print_streaming_chunk) [user_message "Weather in Paris?"] None
    (Some (ToolList [weather_tool; weather_tool])) None sample_state =
    (inl (ValueError ToolsAndStreaming), sample_state)
  ∧ run_async JsonDecode.json_decode sample_clock sample_format sample_completion
      sample_stream sample_self [user_message "Weather in Paris?"] None
      (Some (ToolList [weather_tool; weather_tool])) None sample_state =
      (inl (ValueError DuplicateToolNames), sample_state).
Proof.
  assert (Hdup : ¬ NoDup (map Tool.name [weather_tool; weather_tool])).
  { intros Hnodup. apply NoDup_cons in Hnodup as [Hnotin _]. apply Hnotin. by left. }
  split.
  - refine (proj1 (conflict_checked_before_duplicates JsonDecode.json_decode sample_clock
             sample_format sample_completion sample_stream false
             (callback_self print_streaming_chunk) [user_message "Weather in Paris?"] None
             (Some (ToolList [weather_tool; weather_tool])) None sample_state
             sample_kwargs _ eq_refl eq_refl Hdup) _).
    by eexists.
  - exact (proj2 (conflict_checked_before_duplicates JsonDecode.json_decode sample_clock
             sample_format sample_completion sample_stream true
             sample_self [user_message "Weather in Paris?"] None
             (Some (ToolList [weather_tool; weather_tool])) None sample_state
             sample_kwargs _ eq_refl eq_refl Hdup) eq_refl eq_refl).
Defined.

(** With a default callback on the component, non-empty effective tools
    are rejected before anything is sent. *)
Lemma default_callback_with_tools_rejected
    (json_loads : string → Json.result)
    (isoformat_now : nat → string)
    (convert_message_to_hf_format : ChatMessage.t → exn + gmap string value)
    (chat_completion : Request.t → exn + ChatOutput.t)
    (chat_completion_stream : Request.t → exn + stream)
    (async : bool) self messages kw tools cb st d formatted :
  State.heap st !! Self.generation_kwargs self = Some (ODict d) →
  format_all convert_message_to_hf_format messages = inr formatted →
  tools_truthy (tools_or tools (Self.tools self)) = true →
  is_Some (Self.streaming_callback self) →
  entry json_loads isoformat_now convert_message_to_hf_format chat_completion
    chat_completion_stream async self messages kw tools cb st =
    (inl (ValueError ToolsAndStreaming), st).
Proof.
  intros Hheap Hformat Htools Hcb.
  rewrite (entry_cases _ _ _ _ _ _ _ _ _ _ _ _ _ Hheap), Hformat.
  unfold validated. by rewrite Htools, (bool_decide_eq_true_2 _ Hcb).
Qed.

(** C1: a call that passes a non-empty tool list and a callback to a
    component without a default callback is not rejected: [run] and
    [run_async] go down the streaming path, issue the streaming request
    without the tools, and return a reply. *)
Theorem call_time_callback_with_tools_streams :
  (∃ m st',
     run JsonDecode.json_decode sample_clock sample_format sample_completion sample_stream
       sample_self [user_message "Weather in Paris?"] None
       (Some (ToolList [weather_tool])) (Some print_streaming_chunk) sample_state =
       (inr {| Result.replies := [m] |}, st')
     ∧ ∃ r, requests_of (State.trace st') = [r]
            ∧ Request.stream r = true ∧ Request.tools r = None)
  ∧ (∃ m st',
       run_async JsonDecode.json_decode sample_clock sample_format sample_completion
         sample_stream sample_self [user_message "Weather in Paris?"] None
         (Some (ToolList [weather_tool])) (Some async_print_streaming_chunk) sample_state =
         (inr {| Result.replies := [m] |}, st')
       ∧ ∃ r, requests_of (State.trace st') = [r]
              ∧ Request.stream r = true ∧ Request.tools r = None)
  ∧ tools_truthy (tools_or (Some (ToolList [weather_tool])) (Self.tools sample_self)) = true
  ∧ select_streaming_callback (Self.streaming_callback sample_self)
      (Some print_streaming_chunk) false = inr (Some print_streaming_chunk).
Proof.
  split; [|split; [|split; reflexivity]].
  - eexists _, _. split; [vm_compute; reflexivity|].
    eexists. split; [vm_compute; reflexivity|]. split; reflexivity.
  - eexists _, _. split; [vm_compute; reflexivity|].
    eexists. split; [vm_compute; reflexivity|]. split; reflexivity.
Qed.

(** ** The constructor and the generation parameters *)

Lemma fresh_lookup (h : gmap loc pyobj) : h !! fresh (dom h) = None.
Proof. apply not_elem_of_dom, is_fresh. Qed.

Lemma fresh_ne (h : gmap loc pyobj) l : is_Some (h !! l) → l ≠ fresh (dom h).
Proof. intros [o Hl] ->. by rewrite fresh_lookup in Hl. Qed.

(** A vendor client is built when the API parameters do not repeat the
    [token] keyword and the constructor of the class accepts them; with a
    [token] among them the call raises [TypeError]. *)
Lemma new_client_accepts init_error model_or_url tok (api_params : gmap string string) :
  api_params !! "token" = None →
  init_error (requested_client model_or_url tok api_params) = None →
  new_client init_error model_or_url tok
    (filter (λ kv, kv.1 ≠ "model" ∧ kv.1 ≠ "url") api_params) =
    inr (requested_client model_or_url tok api_params).
Proof.
  intros Htoken Hok. unfold new_client, kwargs_clash. cbn [existsb].
  rewrite bool_decide_eq_false_2.
  - cbn [orb]. fold (requested_client model_or_url tok api_params). by rewrite Hok.
  - intros [v Hv]. apply map_lookup_filter_Some in Hv as [Hv _]. by rewrite Htoken in Hv.
Qed.

Lemma new_client_repeated_token init_error model_or_url tok
    (api_params : gmap string string) v :
  api_params !! "token" = Some v →
  new_client init_error model_or_url tok
    (filter (λ kv, kv.1 ≠ "model" ∧ kv.1 ≠ "url") api_params) =
    inl (TypeError "got multiple values for keyword argument 'token'").
Proof.
  intros Htoken. unfold new_client, kwargs_clash. cbn [existsb].
  rewrite bool_decide_eq_true_2; [done|].
  exists v. by apply map_lookup_filter_Some.
Qed.

Lemma new_client_rejected init_error model_or_url tok (api_params : gmap string string) e :
  api_params !! "token" = None →
  init_error (requested_client model_or_url tok api_params) = Some e →
  new_client init_error model_or_url tok
    (filter (λ kv, kv.1 ≠ "model" ∧ kv.1 ≠ "url") api_params) = inl e.
Proof.
  intros Htoken Hbad. unfold new_client, kwargs_clash. cbn [existsb].
  rewrite bool_decide_eq_false_2.
  - cbn [orb]. fold (requested_client model_or_url tok api_params). by rewrite Hbad.
  - intros [v Hv]. apply map_lookup_filter_Some in Hv as [Hv _]. by rewrite Htoken in Hv.
Qed.

Section InitProperties.
Variable check_valid_model : string → option Secret.t → option exn.
Variable is_valid_http_url : string → bool.
Variable InferenceClient_error : Client.t → option exn.
Variable AsyncInferenceClient_error : Client.t → option exn.

(** The constructor up to the resolution of the token and the construction
    of the two clients: by then the store holds the copy and the extended
    stop list. *)
Lemma init_until_token api_type api_params token gk stop_words cb tools name st
    t model_or_url d :
  resolve_api_type api_type = inr t →
  resolve_model_or_url check_valid_model is_valid_http_url t api_params token =
    inr model_or_url →
  tools_truthy tools && bool_decide (is_Some cb) = false →
  NoDup (map Tool.name (tools_or_empty tools)) →
  caller_kwargs st gk = Some d →
  stop_is_list st d →
  __init__ check_valid_model is_valid_http_url InferenceClient_error
    AsyncInferenceClient_error api_type api_params token gk
    stop_words cb tools name st =
    (match resolve_token token with
     | inl e => inl e
     | inr tok =>
         let resolved_api_params :=
           filter (λ kv, kv.1 ≠ "model" ∧ kv.1 ≠ "url") api_params in
         match new_client InferenceClient_error model_or_url tok resolved_api_params with
         | inl e => inl e
         | inr client =>
             match new_client AsyncInferenceClient_error model_or_url tok
                     resolved_api_params with
             | inl e => inl e
             | inr async_client =>
                 inr {| Self.api_type := t;
                        Self.api_params := api_params;
                        Self.token := token;
                        Self.generation_kwargs := fresh (dom (State.heap st));
                        Self.streaming_callback := cb;
                        Self._client := client;
                        Self._async_client := async_client;
                        Self.tools := tools;
                        Self.component_name := name |}
             end
         end
     end,
     set_heap (init_heap (State.heap st) d (map PStr (default [] stop_words))) st).
Proof.
  intros Hapi Hurl Hconf Hdup Hkw Hstop.
  unfold __init__. rewrite Hapi. cbn [lift]. rewrite bind_ret_l.
  rewrite Hurl. cbn [lift]. rewrite bind_ret_l.
  rewrite Hconf, bind_ret_l.
  unfold _check_duplicate_tool_names. rewrite (bool_decide_eq_true_2 _ Hdup).
  cbn [lift]. rewrite bind_ret_l.
  set (h := State.heap st) in *.
  set (l0 := fresh (dom h)).
  assert (Hcopy : (match gk with
                   | Some l =>
                       bind (read_dict l)
                         (λ d0, if bool_decide (d0 = ∅) then alloc (ODict ∅)
                                else alloc (ODict d0))
                   | None => alloc (ODict ∅)
                   end) st = (inr l0, set_heap (<[l0 := ODict d]> h) st)).
  { unfold caller_kwargs in Hkw. destruct gk as [l|].
    - fold h in Hkw. destruct (h !! l) as [[d0|]|] eqn:Hl; try done.
      injection Hkw as ->. erewrite bind_inr by (by apply read_dict_lookup).
      destruct (bool_decide (d = ∅)) eqn:Hempty; [|reflexivity].
      apply bool_decide_eq_true in Hempty. by subst d.
    - by injection Hkw as <-. }
  erewrite bind_inr by exact Hcopy.
  set (h1 := <[l0 := ODict d]> h).
  set (l1 := fresh (dom h1)).
  assert (Hl01 : l0 ≠ l1).
  { apply fresh_ne. unfold h1. rewrite lookup_insert_eq. by eexists. }
  erewrite bind_inr by (apply read_dict_lookup; simpl; apply lookup_insert_eq).
  unfold bind at 1. unfold alloc at 1. simpl. fold h1 l1.
  unfold bind at 1. unfold write at 1. simpl.
  set (d1 := <["stop" := default (PRef l1) (d !! "stop")]> d).
  set (h3 := <[l0 := ODict d1]> (<[l1 := OList []]> h1)).
  erewrite bind_inr by (apply read_dict_lookup; simpl; apply lookup_insert_eq).
  assert (Hd1stop : d1 !! "stop" = Some (default (PRef l1) (d !! "stop")))
    by apply lookup_insert_eq.
  rewrite Hd1stop. simpl.
  set (words := map PStr (default [] stop_words)).
  assert (Hextend : ∃ h4,
    list_extend (default (PRef l1) (d !! "stop")) words (set_heap h3 st) =
      (inr tt, set_heap h4 (set_heap h3 st))
    ∧ h4 !! l0 = Some (ODict d1)
    ∧ init_heap h d words = <[l0 := ODict (with_max_tokens d1)]> h4).
  { unfold stop_is_list in Hstop. unfold init_heap. fold l0 h1 l1 d1 h3.
    destruct (d !! "stop") as [[| | | | |sl]|] eqn:Hs; try done.
    - destruct Hstop as [ys Hsl]. fold h in Hsl. rewrite Hsl.
      assert (sl ≠ l0) by (apply fresh_ne; by eexists).
      assert (sl ≠ l1).
      { apply fresh_ne. unfold h1. rewrite lookup_insert_ne by done. by eexists. }
      exists (<[sl := OList (ys ++ words)]> h3). split; [|split; [|done]].
      + simpl. unfold h3. rewrite !lookup_insert_ne by done. unfold h1.
        rewrite lookup_insert_ne by done. by rewrite Hsl.
      + rewrite lookup_insert_ne by done. apply lookup_insert_eq.
    - exists (<[l1 := OList ([] ++ words)]> h3). split; [|split; [|done]].
      + simpl. unfold h3. rewrite lookup_insert_ne by done.
        by rewrite lookup_insert_eq.
      + rewrite lookup_insert_ne by done. apply lookup_insert_eq. }
  destruct Hextend as (h4 & Hext & Hh4 & Hfinal).
  erewrite bind_inr by exact Hext.
  erewrite bind_inr by (apply read_dict_lookup; simpl; exact Hh4).
  unfold bind at 1. unfold write at 1. simpl.
  rewrite Hfinal.
  destruct (resolve_token token) as [e|tok]; [reflexivity|].
  cbn [lift]. rewrite bind_ret_l.
  destruct (new_client InferenceClient_error _ _ _) as [e|client]; [reflexivity|].
  cbn [lift]. rewrite !bind_ret_l.
  destruct (new_client AsyncInferenceClient_error _ _ _) as [e|async_client];
    reflexivity.
Qed.

(** The constructor returns when the API parameters resolve, tools and
    callback do not conflict, tool names are distinct, the caller's
    parameters are a dict whose [stop] entry can be extended, the token
    resolves, and the two vendor clients are built. *)
Lemma init_succeeds api_type api_params token gk stop_words cb tools name st
    t model_or_url d tok :
  resolve_api_type api_type = inr t →
  resolve_model_or_url check_valid_model is_valid_http_url t api_params token =
    inr model_or_url →
  tools_truthy tools && bool_decide (is_Some cb) = false →
  NoDup (map Tool.name (tools_or_empty tools)) →
  caller_kwargs st gk = Some d →
  stop_is_list st d →
  resolve_token token = inr tok →
  api_params !! "token" = None →
  InferenceClient_error (requested_client model_or_url tok api_params) = None →
  AsyncInferenceClient_error (requested_client model_or_url tok api_params) = None →
  __init__ check_valid_model is_valid_http_url InferenceClient_error
    AsyncInferenceClient_error api_type api_params token gk
    stop_words cb tools name st =
    (inr (built_self t api_params token (fresh (dom (State.heap st))) cb
            model_or_url tok tools name),
     set_heap (init_heap (State.heap st) d (map PStr (default [] stop_words))) st).
Proof.
  intros Hapi Hurl Hconf Hdup Hkw Hstop Htok Htoken Hsync Hasync.
  rewrite (init_until_token _ _ _ _ _ _ _ _ _ _ _ _ Hapi Hurl Hconf Hdup Hkw Hstop).
  rewrite Htok. cbv zeta.
  by rewrite !new_client_accepts.
Qed.
End InitProperties.

Lemma with_max_tokens_default d :
  d !! "max_tokens" = None → with_max_tokens d !! "max_tokens" = Some (PInt 512).
Proof. intros Hnone. unfold with_max_tokens. rewrite Hnone. apply lookup_insert_eq. Qed.

Lemma init_heap_stored h d words :
  init_heap h d words !! fresh (dom h) =
    Some (ODict (with_max_tokens
                   (<["stop" :=
                        default (PRef (fresh (dom (<[fresh (dom h) := ODict d]> h))))
                          (d !! "stop")]> d))).
Proof. unfold init_heap. apply lookup_insert_eq. Qed.

(** The caller's dict object is at its address as before. *)
Lemma init_heap_caller h d words l :
  h !! l = Some (ODict d) → init_heap h d words !! l = Some (ODict d).
Proof.
  intros Hl. unfold init_heap.
  set (l0 := fresh (dom h)). set (h1 := <[l0 := ODict d]> h). set (l1 := fresh (dom h1)).
  assert (l ≠ l0) by (apply fresh_ne; by eexists).
  assert (l ≠ l1).
  { apply fresh_ne. unfold h1. rewrite lookup_insert_ne by done. by eexists. }
  rewrite lookup_insert_ne by done.
  assert (Hh3 : (<[l0 := ODict (<["stop" := default (PRef l1) (d !! "stop")]> d)]>
                   (<[l1 := OList []]> h1)) !! l = Some (ODict d)).
  { rewrite !lookup_insert_ne by done. unfold h1. by rewrite lookup_insert_ne. }
  destruct (d !! "stop") as [[| | | | |sl]|]; try (by rewrite lookup_insert_ne).
  destruct (h !! sl) as [[|ys]|] eqn:Hsl; try done.
  rewrite lookup_insert_ne; [done|]. intros ->. by rewrite Hl in Hsl.
Qed.

(** The shallow copy shares the caller's stop list, which is extended in
    place. *)
Remark init_heap_extends_caller_stop h d words sl ys :
  d !! "stop" = Some (PRef sl) → h !! sl = Some (OList ys) →
  init_heap h d words !! sl = Some (OList (ys ++ words)).
Proof.
  intros Hstop Hsl. unfold init_heap. rewrite Hstop, Hsl.
  rewrite lookup_insert_ne by (apply not_eq_sym, fresh_ne; by eexists).
  apply lookup_insert_eq.
Qed.

Lemma dict_merge_lookup (d o : gmap string pyval) k :
  dict_merge d o !! k = match o !! k with Some v => Some v | None => d !! k end.
Proof.
  unfold dict_merge. destruct (o !! k) as [v|] eqn:Ho.
  - by apply lookup_union_Some_l.
  - by apply lookup_union_r.
Qed.

(** C10: a construction that succeeds and whose [generation_kwargs] have no
    [max_tokens] key stores generation parameters with [max_tokens] 512.
    The stored dict is a copy: it is a new object that holds the caller's
    entries, with the same [stop] object when the caller has one, and the
    dict the caller passed is still at its address with its own entries,
    without [max_tokens].  Every later [run] or [run_async] that finds the
    stored dict either raises before any request or issues exactly one
    request, whose [max_tokens] is the value the per-call override gives
    and 512 when the override has none; and a call whose messages format,
    that passes validation and whose parameters repeat no argument of the
    request does issue that request. *)
Theorem constructor_defaults_max_tokens
    (json_loads : string → Json.result)
    (isoformat_now : nat → string)
    (convert_message_to_hf_format : ChatMessage.t → exn + gmap string value)
    (check_valid_model : string → option Secret.t → option exn)
    (is_valid_http_url : string → bool)
    (InferenceClient_error AsyncInferenceClient_error : Client.t → option exn)
    (chat_completion : Request.t → exn + ChatOutput.t)
    (chat_completion_stream : Request.t → exn + stream)
    (api_type : api_type_arg) (api_params : gmap string string)
    (token : option Secret.t) (generation_kwargs : option loc)
    (stop_words : option (list string)) (streaming_callback : option Callback.t)
    (tools : option tools_arg) (name : option string) (st : State.t)
    (t : HFGenerationAPIType.t) (model_or_url : string)
    (d : gmap string pyval) (tok : option string) :
  resolve_api_type api_type = inr t →
  resolve_model_or_url check_valid_model is_valid_http_url t api_params token =
    inr model_or_url →
  tools_truthy tools && bool_decide (is_Some streaming_callback) = false →
  NoDup (map Tool.name (tools_or_empty tools)) →
  caller_kwargs st generation_kwargs = Some d →
  stop_is_list st d →
  resolve_token token = inr tok →
  api_params !! "token" = None →
  InferenceClient_error (requested_client model_or_url tok api_params) = None →
  AsyncInferenceClient_error (requested_client model_or_url tok api_params) = None →
  d !! "max_tokens" = None →
  ∃ self st' stored,
    __init__ check_valid_model is_valid_http_url InferenceClient_error
      AsyncInferenceClient_error api_type api_params token
      generation_kwargs stop_words streaming_callback tools name st = (inr self, st')
    ∧ State.heap st' !! Self.generation_kwargs self = Some (ODict stored)
    ∧ stored !! "max_tokens" = Some (PInt 512)
    ∧ (∀ k, k ≠ "stop" → k ≠ "max_tokens" → stored !! k = d !! k)
    ∧ (∀ v, d !! "stop" = Some v → stored !! "stop" = Some v)
    ∧ State.heap st !! Self.generation_kwargs self = None
    ∧ (∀ l, generation_kwargs = Some l →
         l ≠ Self.generation_kwargs self
         ∧ State.heap st !! l = Some (ODict d)
         ∧ State.heap st' !! l = Some (ODict d))
    ∧ (∀ (async : bool) messages kw tools' cb' st2 res st3,
         State.heap st2 !! Self.generation_kwargs self = Some (ODict stored) →
         (if async
          then run_async json_loads isoformat_now convert_message_to_hf_format
                 chat_completion chat_completion_stream self messages kw tools' cb'
          else run json_loads isoformat_now convert_message_to_hf_format
                 chat_completion chat_completion_stream self messages kw tools' cb') st2 =
           (res, st3) →
         (issues st2 st3 [] ∧ ∃ e, res = inl e)
         ∨ ∃ r, issues st2 st3 [r]
                ∧ Request.kwargs r !! "max_tokens" =
                    Some (default (PInt 512) (kw ≫= (.!! "max_tokens"))))
    ∧ (∀ (async : bool) messages kw tools' cb' st2 formatted selected,
         State.heap st2 !! Self.generation_kwargs self = Some (ODict stored) →
         format_all convert_message_to_hf_format messages = inr formatted →
         tools_truthy (tools_or tools' tools) && bool_decide (is_Some streaming_callback) =
           false →
         NoDup (map Tool.name (tools_or_empty (tools_or tools' tools))) →
         select_streaming_callback streaming_callback cb' async = inr selected →
         kwargs_clash ["messages"; "tools"; "stream"; "stream_options"]
           (merged_kwargs stored kw) = false →
         ∃ res st3 r,
           (if async
            then run_async json_loads isoformat_now convert_message_to_hf_format
                   chat_completion chat_completion_stream self messages kw tools' cb'
            else run json_loads isoformat_now convert_message_to_hf_format
                   chat_completion chat_completion_stream self messages kw tools' cb') st2 =
             (res, st3)
           ∧ issues st2 st3 [r]
           ∧ Request.async r = async
           ∧ Request.messages r = formatted
           ∧ Request.kwargs r !! "max_tokens" =
               Some (default (PInt 512) (kw ≫= (.!! "max_tokens")))).
Proof.
  intros Hapi Hurl Hconf Hdup Hkw Hstop Htok Htoken Hsync Hasync Hnone.
  pose proof (init_succeeds check_valid_model is_valid_http_url InferenceClient_error
                AsyncInferenceClient_error api_type api_params token
                generation_kwargs stop_words streaming_callback tools name st
                t model_or_url d tok Hapi Hurl Hconf Hdup Hkw Hstop Htok Htoken
                Hsync Hasync) as Hinit.
  set (self := built_self t api_params token (fresh (dom (State.heap st)))
                 streaming_callback model_or_url tok tools name) in *.
  set (stored :=
         with_max_tokens
           (<["stop" :=
                default
                  (PRef (fresh (dom (<[fresh (dom (State.heap st)) := ODict d]>
                                       (State.heap st)))))
                  (d !! "stop")]> d)).
  assert (Hmax : stored !! "max_tokens" = Some (PInt 512)).
  { apply with_max_tokens_default. by rewrite lookup_insert_ne. }
  assert (Hlater : ∀ kw : option (gmap string pyval),
    dict_merge stored (default ∅ kw) !! "max_tokens" =
      Some (default (PInt 512) (kw ≫= (.!! "max_tokens")))).
  { intros kw. rewrite dict_merge_lookup, Hmax.
    destruct kw as [o|]; simpl; [by destruct (o !! "max_tokens")|].
    by rewrite lookup_empty. }
  exists self, (set_heap (init_heap (State.heap st) d (map PStr (default [] stop_words))) st),
    stored.
  split; [exact Hinit|].
  split; [apply init_heap_stored|].
  split; [exact Hmax|].
  split.
  { intros k Hk1 Hk2. unfold stored, with_max_tokens.
    rewrite (lookup_insert_ne _ "stop" "max_tokens"), Hnone by done.
    by rewrite !lookup_insert_ne. }
  split.
  { intros v Hv. unfold stored, with_max_tokens.
    rewrite (lookup_insert_ne _ "stop" "max_tokens"), Hnone by done.
    rewrite (lookup_insert_ne _ "max_tokens" "stop") by done.
    by rewrite lookup_insert_eq, Hv. }
  split; [apply fresh_lookup|].
  split.
  { intros l ->. unfold caller_kwargs in Hkw.
    destruct (State.heap st !! l) as [[d0|]|] eqn:Hl; try done. injection Hkw as ->.
    split; [apply fresh_ne; by eexists|].
    split; [done|]. by apply init_heap_caller. }
  split.
  { intros async messages kw tools' cb' st2 res st3 Hheap Hrun.
    destruct (entry_issues json_loads isoformat_now convert_message_to_hf_format
                chat_completion chat_completion_stream async self messages kw tools' cb'
                st2 _ res st3 Hheap) as [Hquiet|(r & Hr & Hkwargs)].
    { unfold entry. by destruct async. }
    { by left. }
    right. exists r. split; [done|]. by rewrite Hkwargs. }
  intros async messages kw tools' cb' st2 formatted selected Hheap Hformat Hconf'
    Hdup' Hselect Hclash.
  assert (Hvalid : validated async self tools' cb' = inr selected).
  { unfold validated. cbn [self built_self Self.tools Self.streaming_callback].
    rewrite Hconf'. unfold _check_duplicate_tool_names.
    by rewrite (bool_decide_eq_true_2 _ Hdup'). }
  destruct (entry_sends json_loads isoformat_now convert_message_to_hf_format
              chat_completion chat_completion_stream async self messages kw tools' cb'
              st2 stored formatted selected Hheap Hformat Hvalid Hclash)
    as (res & st3 & r & Hrun & Hissues & Hasyncr & Hmsgs & Hkwargs).
  exists res, st3, r. split.
  { unfold entry in Hrun. by destruct async. }
  split; [exact Hissues|]. split; [exact Hasyncr|]. split; [exact Hmsgs|].
  by rewrite Hkwargs.
Qed.

(** A construction from the caller's dict, followed by a call without
    override: the stored parameters have [max_tokens] 512 and the caller's
    [temperature], the caller's dict is unchanged, and the call issues one
    request that carries 512. *)
Lemma constructor_defaults_max_tokens_witness :
  ∃ self st' stored,
    __init__ sample_check_model sample_valid_url sample_client_error sample_client_error
      (ApiStr "serverless_inference_api")
      (<["model" := "Qwen/Qwen2.5-7B-Instruct"]> ∅) None (Some 1%positive)
      (Some ["STOP"]) None None None caller_state = (inr self, st')
    ∧ State.heap st' !! Self.generation_kwargs self = Some (ODict stored)
    ∧ stored !! "max_tokens" = Some (PInt 512)
    ∧ stored !! "temperature" = Some (PInt 1)
    ∧ State.heap st' !! 1%positive = Some (ODict caller_dict)
    ∧ ∃ res st3 r,
        run JsonDecode.json_decode sample_clock sample_format sample_completion
          sample_stream self [user_message "Weather in Paris?"] None None None st' =
          (res, st3)
        ∧ issues st' st3 [r]
        ∧ Request.kwargs r !! "max_tokens" = Some (PInt 512).
Proof.
  destruct (constructor_defaults_max_tokens JsonDecode.json_decode sample_clock
              sample_format sample_check_model sample_valid_url sample_client_error
                  sample_client_error sample_completion
              sample_stream (ApiStr "serverless_inference_api")
              (<["model" := "Qwen/Qwen2.5-7B-Instruct"]> ∅) None (Some 1%positive)
              (Some ["STOP"]) None None None caller_state
              HFGenerationAPIType.SERVERLESS_INFERENCE_API "Qwen/Qwen2.5-7B-Instruct"
              caller_dict None)
    as (self & st' & stored & Hinit & Hstored & Hmax & Hkeys & _ & _ & Hcaller & _ & Hsends).
  - reflexivity.
  - reflexivity.
  - reflexivity.
  - constructor.
  - reflexivity.
  - exists [PStr "END"]. reflexivity.
  - reflexivity.
  - reflexivity.
  - reflexivity.
  - reflexivity.
  - reflexivity.
  - exists self, st', stored. split; [exact Hinit|]. split; [exact Hstored|].
    split; [exact Hmax|].
    split; [by rewrite Hkeys|].
    split; [by apply (Hcaller 1%positive)|].
    destruct (Hsends false [user_message "Weather in Paris?"] None None None st'
                [<["content" := VStr "Weather in Paris?"]> (<["role" := VStr "user"]> ∅)]
                None Hstored)
      as (res & st3 & r & Hrun & Hissues & _ & _ & Hkw).
    + reflexivity.
    + reflexivity.
    + constructor.
    + reflexivity.
    + unfold kwargs_clash, merged_kwargs. cbn [existsb default].
      rewrite !bool_decide_eq_false_2; [reflexivity|..];
        intros [v Hv]; rewrite dict_merge_lookup, lookup_empty, Hkeys in Hv by done;
        vm_compute in Hv; discriminate Hv.
    + exists res, st3, r. split; [exact Hrun|]. split; [exact Hissues | exact Hkw].
Defined.

(** * Further properties *)

(** ** The tool-call normalizer *)

Lemma normalized_dict json_loads tc kvs :
  raw_arguments tc = VDict kvs →
  normalized json_loads tc =
    (if truthy (VDict kvs) then Some (as_tool_call tc (VDict kvs)) else None)
  ∧ skipped_with json_loads tc = None.
Proof.
  unfold raw_arguments, normalized, parsed_arguments, skipped_with. by intros ->.
Qed.

(** X1: when every record already carries a dict, the normalizer never
    consults the decoder and logs nothing: it returns, in order, one
    [ToolCall] with the very dict for each record whose dict is not empty,
    and drops the records with an empty dict without a warning. *)
Theorem normalizer_parsed_dicts
    (json_loads : string → Json.result) (tcs : list HFToolCall.t) (st : State.t) :
  Forall (λ tc, is_dict (raw_arguments tc) = true) tcs →
  _convert_hfapi_tool_calls json_loads (Some tcs) st =
    (inr (map (λ tc, as_tool_call tc (raw_arguments tc))
            (filter (λ tc, truthy (raw_arguments tc) = true) tcs)),
     st).
Proof.
  intros Hdict. rewrite convert_spec; cycle 1.
  { simpl. eapply Forall_impl; [exact Hdict|]. intros tc Htc.
    unfold escaping, raw_arguments in *.
    by destruct (Fn.arguments (HFToolCall.function tc)). }
  simpl.
  assert (Hout : omap (normalized json_loads) tcs =
                   map (λ tc, as_tool_call tc (raw_arguments tc))
                     (filter (λ tc, truthy (raw_arguments tc) = true) tcs)
                 ∧ omap (skipped_with json_loads) tcs = []).
  { induction Hdict as [|tc tcs Htc _ [IHout IHws]]; [done|].
    destruct (raw_arguments tc) as [| | | | | |kvs] eqn:Hargs; try done.
    destruct (normalized_dict json_loads tc kvs Hargs) as [Hn Hs].
    csimpl. rewrite Hn, Hs, IHout, IHws. split; [|done].
    destruct (truthy (VDict kvs)) eqn:Ht.
    - rewrite filter_cons_True by (by rewrite Hargs). simpl. by rewrite Hargs.
    - rewrite filter_cons_False by (by rewrite Hargs, Ht). done. }
  destruct Hout as [-> ->]. by rewrite log_events_nil.
Qed.

(** Two parsed records, the second with an empty dict, against a decoder
    that would raise on every string. *)
Lemma normalizer_parsed_dicts_witness :
  _convert_hfapi_tool_calls (λ _, Json.Raises (Propagated "not consulted"))
    (Some [dict_call "call_0" [("city", VStr "Paris")]; dict_call "call_1" []])
    empty_state =
    (inr [{| ToolCall.tool_name := "weather";
             ToolCall.arguments := VDict [("city", VStr "Paris")];
             ToolCall.id := Some "call_0" |}],
     empty_state).
Proof.
  apply (normalizer_parsed_dicts (λ _, Json.Raises (Propagated "not consulted"))
           [dict_call "call_0" [("city", VStr "Paris")]; dict_call "call_1" []]
           empty_state).
  repeat constructor.
Defined.

Lemma normalized_or_skipped json_loads tc :
  normalized json_loads tc = None ∨ skipped_with json_loads tc = None.
Proof.
  unfold normalized, parsed_arguments, skipped_with.
  destruct (Fn.arguments (HFToolCall.function tc)) as [| | | |s| |];
    try (by left); try (by right).
  destruct (json_loads s); [by right | by left | by left].
Qed.

Lemma omap_disjoint_length {A B C} (f : A → option B) (g : A → option C) (l : list A) :
  (∀ x, f x = None ∨ g x = None) →
  (List.length (omap f l) + List.length (omap g l) ≤ List.length l)%nat.
Proof.
  intros Hfg. induction l as [|x l IH]; [done|]. csimpl.
  destruct (Hfg x) as [-> | ->].
  - destruct (g x); simpl; lia.
  - destruct (f x); simpl; lia.
Qed.

(** X2: a record yields a [ToolCall] or a warning or nothing, never both:
    when [json.loads] raises nothing but [JSONDecodeError] on the string
    arguments of the input, the normalizer returns, and the number of
    emitted tool calls plus the number of logged warnings is at most the
    number of input records. *)
Theorem normalizer_one_outcome_per_record
    (json_loads : string → Json.result)
    (tcs : option (list HFToolCall.t)) (st : State.t) :
  decoder_contained json_loads (default [] tcs) →
  ∃ out ws,
    _convert_hfapi_tool_calls json_loads tcs st =
      (inr out, log_events (EvWarning <$> ws) st)
    ∧ (List.length out + List.length ws ≤ List.length (default [] tcs))%nat.
Proof.
  intros Hcontained. eexists _, _.
  split; [by apply convert_spec, decoder_contained_escaping|].
  apply omap_disjoint_length, normalized_or_skipped.
Qed.

(** Four records: one decodes to a dict, one fails to decode, one has
    arguments of an unexpected type, one decodes to an empty dict. *)
Lemma normalizer_one_outcome_per_record_witness :
  decoder_contained JsonDecode.json_decode
    [city_call; bad_json_call; number_arguments_call; string_call "call_4" "{}"]
  ∧ ∃ out ws,
      _convert_hfapi_tool_calls JsonDecode.json_decode
        (Some [city_call; bad_json_call; number_arguments_call; string_call "call_4" "{}"])
        empty_state = (inr out, log_events (EvWarning <$> ws) empty_state)
      ∧ (List.length out + List.length ws ≤ 4)%nat.
Proof.
  assert (Hcontained : decoder_contained JsonDecode.json_decode
            [city_call; bad_json_call; number_arguments_call; string_call "call_4" "{}"]).
  { apply decoder_contained_escaping. repeat constructor. }
  split; [exact Hcontained|].
  exact (normalizer_one_outcome_per_record JsonDecode.json_decode
           (Some [city_call; bad_json_call; number_arguments_call;
                  string_call "call_4" "{}"]) empty_state Hcontained).
Defined.

(** X3: normalizing a concatenation is normalizing the first part and then
    the second, from the state the first leaves: outputs and warnings are
    appended in order, and an exception that escapes from either part is
    the exception of the whole, the second part being left out when the
    first raises. *)
Theorem normalizer_concatenation
    (json_loads : string → Json.result) (l1 l2 : list HFToolCall.t) (st : State.t) :
  _convert_hfapi_tool_calls json_loads (Some (l1 ++ l2)) st =
    match _convert_hfapi_tool_calls json_loads (Some l1) st with
    | (inl e, st1) => (inl e, st1)
    | (inr out1, st1) =>
        match _convert_hfapi_tool_calls json_loads (Some l2) st1 with
        | (inl e, st2) => (inl e, st2)
        | (inr out2, st2) => (inr (out1 ++ out2), st2)
        end
    end.
Proof.
  rewrite !convert_outcome. cbn [from_option id]. rewrite normalizer_outcome_app.
  destruct (normalizer_outcome json_loads [] l1).1 as [e|out1]; [reflexivity|].
  rewrite (normalizer_outcome_acc json_loads l2 out1). cbn [fst snd].
  rewrite !log_events_app, fmap_app.
  by destruct (normalizer_outcome json_loads [] l2).1.
Qed.



(** ** The finish-reason mapper and the chunk translator *)

(** X5: the mapper gives no finish reason exactly when the vendor gave
    none, and otherwise only ever [stop], [length] or [tool_calls]: it
    never produces [content_filter] or [tool_call_results]. *)
Theorem finish_reason_mapper_range (choice : StreamChoice.t) :
  (_map_hf_finish_reason_to_haystack choice = None ↔
     StreamChoice.finish_reason choice = None)
  ∧ _map_hf_finish_reason_to_haystack choice ≠ Some FinishReason.content_filter
  ∧ _map_hf_finish_reason_to_haystack choice ≠ Some FinishReason.tool_call_results.
Proof.
  unfold _map_hf_finish_reason_to_haystack.
  destruct (StreamChoice.finish_reason choice) as [reason|]; [|done].
  rewrite finish_reason_mapping_lookup.
  destruct (has_tool_calls _), (String.eqb reason "length"); done.
Qed.

(** X6: on the terminal chunk, where the first choice has a finish reason,
    [index] is absent and the metadata keeps the vendor's raw string; the
    mapped finish reason is absent when that string is empty, otherwise it
    is [tool_calls] with tool-call evidence, [length] for [length], and
    [stop] for anything else. *)
Theorem translator_terminal_chunk
    (isoformat_now : nat → string) (chunk : StreamOutput.t)
    (choice : StreamChoice.t) (rest : list StreamChoice.t) (reason : string)
    (previous_chunks : list StreamingChunk.t)
    (component_info : option ComponentInfo.t) (st : State.t) :
  StreamOutput.choices chunk = choice :: rest →
  StreamChoice.finish_reason choice = Some reason →
  ∃ c st',
    _convert_chat_completion_stream_output_to_streaming_chunk isoformat_now
      chunk previous_chunks component_info st = (inr c, st')
    ∧ StreamingChunk.index c = None
    ∧ StreamingChunk.meta c !! "finish_reason" = Some (VStr reason)
    ∧ StreamingChunk.finish_reason c =
        if String.eqb reason "" then None
        else Some (if has_tool_calls (StreamChoice.delta choice)
                   then FinishReason.tool_calls
                   else if String.eqb reason "length" then FinishReason.length
                   else FinishReason.stop).
Proof.
  intros Hchoices Hreason. eexists _, _. split; [apply translator_returns|].
  unfold translated. rewrite Hchoices. simpl. rewrite Hreason. simpl.
  split; [done|]. split; [by rewrite lookup_insert_eq|].
  destruct (String.eqb reason ""); [done|]. simpl.
  unfold _map_hf_finish_reason_to_haystack. rewrite Hreason.
  rewrite finish_reason_mapping_lookup.
  by destruct (has_tool_calls _).
Qed.

(** A terminal chunk with an empty finish reason and one with [length]. *)
Lemma translator_terminal_chunk_witness :
  (∃ c st',
     _convert_chat_completion_stream_output_to_streaming_chunk sample_clock
       (final_event "is" "") [] None empty_state = (inr c, st')
     ∧ StreamingChunk.index c = None
     ∧ StreamingChunk.finish_reason c = None)
  ∧ (∃ c st',
       _convert_chat_completion_stream_output_to_streaming_chunk sample_clock
         (final_event "is" "length") [] None empty_state = (inr c, st')
       ∧ StreamingChunk.index c = None
       ∧ StreamingChunk.finish_reason c = Some FinishReason.length).
Proof.
  split.
  - destruct (translator_terminal_chunk sample_clock (final_event "is" "") _ _ ""
                [] None empty_state eq_refl eq_refl)
      as (c & st' & Hrun & Hindex & _ & Hfinish).
    by exists c, st'.
  - destruct (translator_terminal_chunk sample_clock (final_event "is" "length") _ _
                "length" [] None empty_state eq_refl eq_refl)
      as (c & st' & Hrun & Hindex & _ & Hfinish).
    by exists c, st'.
Defined.

(** X7: when an event has at least one choice, the translator looks at the
    first choice only: the further choices and the usage summary of the
    event change nothing, and the metadata of the chunk has no usage
    entry. *)
Theorem translator_first_choice_only
    (isoformat_now : nat → string) (chunk : StreamOutput.t)
    (choice : StreamChoice.t) (rest : list StreamChoice.t)
    (previous_chunks : list StreamingChunk.t)
    (component_info : option ComponentInfo.t) (st : State.t) :
  StreamOutput.choices chunk = choice :: rest →
  ∃ c st',
    _convert_chat_completion_stream_output_to_streaming_chunk isoformat_now
      chunk previous_chunks component_info st = (inr c, st')
    ∧ _convert_chat_completion_stream_output_to_streaming_chunk isoformat_now
        (first_choice_only chunk choice) previous_chunks component_info st = (inr c, st')
    ∧ StreamingChunk.meta c !! "usage" = None.
Proof.
  intros Hchoices. eexists _, _. split; [apply translator_returns|].
  rewrite translator_returns. unfold translated, first_choice_only.
  rewrite Hchoices. simpl. split; [reflexivity|].
  by rewrite !lookup_insert_ne, lookup_empty by done.
Qed.

(** An event with two choices and usage. *)
Lemma translator_first_choice_only_witness :
  ∃ c st',
    _convert_chat_completion_stream_output_to_streaming_chunk sample_clock
      crowded_event [] None empty_state = (inr c, st')
    ∧ StreamingChunk.content c = "Paris"
    ∧ StreamingChunk.meta c !! "usage" = None.
Proof.
  destruct (translator_first_choice_only sample_clock crowded_event _ _ [] None
              empty_state eq_refl) as (c & st' & Hrun & _ & Husage).
  exists c, st'. split; [exact Hrun|]. split; [|exact Husage].
  vm_compute in Hrun. by injection Hrun as <- _.
Defined.

(** ** Failures on the streaming path *)

Lemma for_each_app {A B} (body : B → A → M B) (l1 l2 : list A) : ∀ acc st,
  for_each body acc (l1 ++ l2) st =
    bind (for_each body acc l1) (λ acc', for_each body acc' l2) st.
Proof.
  induction l1 as [|x l1 IH]; intros acc st; [reflexivity|].
  cbn [app for_each]. unfold bind at 1 2 3.
  destruct (body acc x st) as [[e|acc'] st1]; [reflexivity|].
  rewrite IH. reflexivity.
Qed.

Lemma new_chunks_app now n ci prev l1 l2 :
  new_chunks now n ci prev (l1 ++ l2) =
    new_chunks now n ci prev l1 ++
    new_chunks now (n + List.length l1) ci (prev ++ new_chunks now n ci prev l1) l2.
Proof.
  revert n prev. induction l1 as [|x l1 IH]; intros n prev; simpl.
  - by rewrite Nat.add_0_r, app_nil_r.
  - rewrite IH. rewrite <- app_assoc. simpl. do 3 f_equal. lia.
Qed.

Section StreamingFailures.
Variable isoformat_now : nat → string.
Variable chat_completion_stream : Request.t → exn + stream.

Lemma stream_body_raises cb ci prev ev st e :
  Callback.call cb (translated (isoformat_now (State.ticks st)) ev prev (Some ci)) = Some e →
  stream_body isoformat_now cb ci prev ev st =
    (inl e, after_turn cb
              [translated (isoformat_now (State.ticks st)) ev prev (Some ci)] st).
Proof.
  intros Hcall. unfold stream_body.
  erewrite bind_inr by apply translator_returns.
  unfold invoke, bind, emit; simpl. rewrite Hcall.
  unfold raise, after_turn, tick; simpl. do 2 f_equal. lia.
Qed.

(** The loop stops at the first chunk on which the callback raises. *)
Lemma stream_loop_raises cb ci evs1 ev evs2 prev st e c :
  Forall (λ c, Callback.call cb c = None)
    (new_chunks isoformat_now (State.ticks st) (Some ci) prev evs1) →
  last (new_chunks isoformat_now (State.ticks st) (Some ci) prev (evs1 ++ [ev])) = Some c →
  Callback.call cb c = Some e →
  for_each (stream_body isoformat_now cb ci) prev (evs1 ++ ev :: evs2) st =
    (inl e,
     after_turn cb
       (new_chunks isoformat_now (State.ticks st) (Some ci) prev (evs1 ++ [ev])) st).
Proof.
  intros Hok Hlast Hraise.
  rewrite new_chunks_app in Hlast |- *. simpl in Hlast |- *.
  rewrite last_snoc in Hlast. injection Hlast as <-.
  rewrite for_each_app.
  erewrite bind_inr by (by apply stream_loop_returns). simpl.
  unfold bind at 1.
  assert (Hticks :
    State.ticks (after_turn cb
                   (new_chunks isoformat_now (State.ticks st) (Some ci) prev evs1) st) =
      (State.ticks st + List.length evs1)%nat)
    by (simpl; by rewrite new_chunks_length).
  rewrite (stream_body_raises cb ci _ ev _ e); rewrite Hticks.
  - by rewrite after_turn_app.
  - exact Hraise.
Qed.

End StreamingFailures.

(** X8: when the callback raises on a chunk, the streaming path,
    synchronous or asynchronous, raises that exception and returns no
    reply.  The state it leaves is the one after the request and the chunks
    up to and including that one: the callback has received exactly these
    chunks, the clock has been read once for each of them, and the events
    after it are never translated or delivered. *)
Theorem streaming_callback_exception_propagates
    (isoformat_now : nat → string)
    (chat_completion_stream : Request.t → exn + stream)
    (async : bool) (self : Self.t) (messages : list (gmap string value))
    (kwargs : gmap string pyval) (cb : Callback.t)
    (evs1 : list StreamOutput.t) (ev : StreamOutput.t) (evs2 : list StreamOutput.t)
    (failure : option exn) (c : StreamingChunk.t) (e : exn) (st : State.t) :
  kwargs_clash ["messages"; "stream"; "stream_options"] kwargs = false →
  chat_completion_stream (stream_request async self messages kwargs) =
    inr (evs1 ++ ev :: evs2, failure) →
  Forall (λ c, Callback.call cb c = None) (turn_chunks isoformat_now self st evs1) →
  last (turn_chunks isoformat_now self st (evs1 ++ [ev])) = Some c →
  Callback.call cb c = Some e →
  let st' :=
    after_turn cb (turn_chunks isoformat_now self st (evs1 ++ [ev]))
      (log_events [EvRequest (stream_request async self messages kwargs)] st) in
  (if async
   then _run_streaming_async isoformat_now chat_completion_stream self messages kwargs cb
   else _run_streaming isoformat_now chat_completion_stream self messages kwargs cb) st =
    (inl e, st')
  ∧ State.trace st' =
      State.trace st ++
      EvRequest (stream_request async self messages kwargs) ::
      (EvCallback (Callback.name cb) <$>
         turn_chunks isoformat_now self st (evs1 ++ [ev]))
  ∧ State.ticks st' = (State.ticks st + List.length evs1 + 1)%nat
  ∧ callbacks_of (State.trace st') =
      callbacks_of (State.trace st) ++ turn_chunks isoformat_now self st (evs1 ++ [ev])
  ∧ issues st st' [stream_request async self messages kwargs].
Proof.
  intros Hclash Hvendor Hok Hlast Hraise st'.
  split.
  { rewrite run_streaming_cases, Hclash, Hvendor.
    by rewrite (stream_loop_raises isoformat_now cb _ evs1 ev evs2 [] _ e c). }
  split.
  { unfold st', after_turn, log_events. cbn [State.trace]. by rewrite <- app_assoc. }
  split.
  { unfold st', after_turn, log_events, turn_chunks. cbn [State.ticks].
    rewrite new_chunks_length, length_app. simpl. lia. }
  split; [|apply issues_after_turn].
  unfold st', after_turn, log_events. cbn [State.trace State.ticks].
  rewrite !callbacks_of_app, callbacks_of_callbacks.
  unfold callbacks_of at 2. cbn. by rewrite app_nil_r.
Qed.

(** A callback that raises on the second of three chunks: the clock has
    been read twice. *)
Lemma streaming_callback_exception_propagates_witness :
  ∃ st',
    _run_streaming sample_clock
      (λ _, inr ([content_event "Par"; content_event "is"; content_event "!"], None))
      sample_self [] sample_kwargs (raising_callback "is") sample_state =
      (inl (Propagated "callback failed"), st')
    ∧ map StreamingChunk.content (callbacks_of (State.trace st')) = ["Par"; "is"]
    ∧ State.ticks st' = 2%nat.
Proof.
  destruct (streaming_callback_exception_propagates sample_clock
              (λ _, inr ([content_event "Par"; content_event "is"; content_event "!"], None))
              false sample_self [] sample_kwargs (raising_callback "is")
              [content_event "Par"] (content_event "is") [content_event "!"] None
              (translated "2025-01-01T00:00:01" (content_event "is")
                 (turn_chunks sample_clock sample_self sample_state [content_event "Par"])
                 (Some (from_component None)))
              (Propagated "callback failed") sample_state)
    as (Hrun & _ & Hticks & Hcbs & _).
  - reflexivity.
  - reflexivity.
  - repeat constructor.
  - reflexivity.
  - reflexivity.
  - eexists. split; [exact Hrun|]. split; [|exact Hticks]. rewrite Hcbs. reflexivity.
Defined.

(** X9: a transport failure on the streaming path propagates unchanged,
    whether the request itself fails or the stream breaks after some
    events; in the second case the callback has received one chunk per
    event before the exception reaches the caller.  Exactly one request
    was issued and no reply is returned. *)
Theorem streaming_transport_failure_propagates
    (isoformat_now : nat → string)
    (chat_completion_stream : Request.t → exn + stream)
    (async : bool) (self : Self.t) (messages : list (gmap string value))
    (kwargs : gmap string pyval) (cb : Callback.t)
    (events : list StreamOutput.t) (e : exn) (st : State.t) :
  kwargs_clash ["messages"; "stream"; "stream_options"] kwargs = false →
  (chat_completion_stream (stream_request async self messages kwargs) = inl e
     ∧ events = []
   ∨ chat_completion_stream (stream_request async self messages kwargs) =
       inr (events, Some e)) →
  Forall (λ c, Callback.call cb c = None) (turn_chunks isoformat_now self st events) →
  (if async
   then _run_streaming_async isoformat_now chat_completion_stream self messages kwargs cb
   else _run_streaming isoformat_now chat_completion_stream self messages kwargs cb) st =
    (inl e,
     after_turn cb (turn_chunks isoformat_now self st events)
       (log_events [EvRequest (stream_request async self messages kwargs)] st)).
Proof.
  intros Hclash Hvendor Hok.
  rewrite run_streaming_cases, Hclash.
  destruct Hvendor as [[-> ->] | ->].
  - unfold turn_chunks. simpl. by rewrite after_turn_nil.
  - by rewrite (stream_loop_returns isoformat_now cb _ events []
                  (log_events [EvRequest (stream_request async self messages kwargs)] st)
                  Hok).
Qed.

(** A stream that breaks after two events. *)
Lemma streaming_transport_failure_propagates_witness :
  ∃ st',
    _run_streaming sample_clock broken_stream sample_self [] sample_kwargs
      print_streaming_chunk sample_state = (inl (Propagated "connection reset"), st')
    ∧ map StreamingChunk.content (callbacks_of (State.trace st')) = ["Par"; "is"].
Proof.
  eexists. split.
  - apply (streaming_transport_failure_propagates sample_clock broken_stream false
             sample_self [] sample_kwargs print_streaming_chunk
             [content_event "Par"; content_event "is"] (Propagated "connection reset")
             sample_state); [reflexivity | by right | repeat constructor].
  - reflexivity.
Defined.

(** ** The non-streaming path *)

(** X10: a transport or vendor error on the non-streaming path,
    synchronous or asynchronous, reaches the caller unchanged: exactly one
    request was made, nothing else was logged, and no reply is built. *)
Theorem non_streaming_vendor_error_propagates
    (json_loads : string → Json.result)
    (chat_completion : Request.t → exn + ChatOutput.t)
    (async : bool) (self : Self.t) (messages : list (gmap string value))
    (kwargs : gmap string pyval) (tools : option (list HFTool.t))
    (e : exn) (st : State.t) :
  kwargs_clash ["messages"; "tools"] kwargs = false →
  chat_completion (completion_request async self messages kwargs tools) = inl e →
  (if async
   then _run_non_streaming_async json_loads chat_completion self messages kwargs tools
   else _run_non_streaming json_loads chat_completion self messages kwargs tools) st =
    (inl e,
     log_events [EvRequest (completion_request async self messages kwargs tools)] st).
Proof.
  intros Hclash Hvendor. by rewrite run_non_streaming_cases, Hclash, Hvendor.
Qed.

(** A vendor that refuses the request. *)
Lemma non_streaming_vendor_error_propagates_witness :
  _run_non_streaming_async JsonDecode.json_decode refusing_completion sample_self []
    sample_kwargs None sample_state =
    (inl (Propagated "401 Unauthorized"),
     log_events [EvRequest (completion_request true sample_self [] sample_kwargs None)]
       sample_state).
Proof.
  apply (non_streaming_vendor_error_propagates JsonDecode.json_decode refusing_completion
           true sample_self [] sample_kwargs None (Propagated "401 Unauthorized")
           sample_state); reflexivity.
Defined.

(** X11: when the vendor returns at least one choice and [json.loads]
    raises nothing but [JSONDecodeError] on the string arguments of the
    first choice's tool calls, the non-streaming path returns exactly one
    assistant message built from the first choice alone: its text is that
    choice's content, its tool calls are what the normalizer makes of that
    choice's tool calls, and its metadata holds the client's model, the
    choice's finish reason and index, and the vendor's token counts, or
    zero counts when the response has no usage. *)
Theorem non_streaming_reply_from_first_choice
    (json_loads : string → Json.result)
    (chat_completion : Request.t → exn + ChatOutput.t)
    (async : bool) (self : Self.t) (messages : list (gmap string value))
    (kwargs : gmap string pyval) (tools : option (list HFTool.t))
    (out : ChatOutput.t) (choice : OutChoice.t) (rest : list OutChoice.t)
    (st : State.t) :
  let request := completion_request async self messages kwargs tools in
  kwargs_clash ["messages"; "tools"] kwargs = false →
  chat_completion request = inr out →
  ChatOutput.choices out = Some (choice :: rest) →
  decoder_contained json_loads
    (default [] (OutMessage.tool_calls (OutChoice.message choice))) →
  ∃ m st',
    (if async
     then _run_non_streaming_async json_loads chat_completion self messages kwargs tools
     else _run_non_streaming json_loads chat_completion self messages kwargs tools) st =
      (inr {| Result.replies := [m] |}, st')
    ∧ ChatMessage.role m = ChatRole.assistant
    ∧ ChatMessage.text m = OutMessage.content (OutChoice.message choice)
    ∧ _convert_hfapi_tool_calls json_loads
        (OutMessage.tool_calls (OutChoice.message choice))
        (log_events [EvRequest request] st) = (inr (ChatMessage.tool_calls m), st')
    ∧ ChatMessage.meta m !! "model" = Some (VStr (Client.model (Request.client request)))
    ∧ ChatMessage.meta m !! "finish_reason" = Some (VStr (OutChoice.finish_reason choice))
    ∧ ChatMessage.meta m !! "index" = Some (VInt (OutChoice.index choice))
    ∧ ChatMessage.meta m !! "usage" =
        Some (match ChatOutput.usage out with
              | Some u =>
                  VDict [("prompt_tokens", VInt (Usage.prompt_tokens u));
                         ("completion_tokens", VInt (Usage.completion_tokens u))]
              | None => VDict [("prompt_tokens", VInt 0); ("completion_tokens", VInt 0)]
              end).
Proof.
  intros request Hclash Hvendor Hchoices Hcontained.
  apply decoder_contained_escaping in Hcontained.
  eexists _, _. split.
  { rewrite run_non_streaming_cases, Hclash. fold request. rewrite Hvendor, Hchoices.
    cbv zeta. rewrite (normalizer_outcome_returns _ _ [] Hcontained). reflexivity. }
  unfold reply_with, ChatMessage.from_assistant. cbn [ChatMessage.role ChatMessage.text
    ChatMessage.tool_calls ChatMessage.meta fst snd].
  split; [done|]. split; [done|].
  split; [by rewrite convert_spec, log_events_app|].
  split; [by rewrite !lookup_insert_ne, lookup_insert_eq by done|].
  split; [by rewrite !lookup_insert_ne, lookup_insert_eq by done|].
  split; [by rewrite lookup_insert_ne, lookup_insert_eq by done|].
  rewrite lookup_insert_eq. by destruct (ChatOutput.usage out).
Qed.

(** A response with two choices and no usage: the reply comes from the
    first. *)
Lemma non_streaming_reply_from_first_choice_witness :
  ∃ m st',
    _run_non_streaming JsonDecode.json_decode (λ _, inr two_choice_output) sample_self []
      sample_kwargs None sample_state = (inr {| Result.replies := [m] |}, st')
    ∧ ChatMessage.text m = None
    ∧ ChatMessage.tool_calls m =
        [as_tool_call city_call (VDict [("city", VStr "Paris")])]
    ∧ ChatMessage.meta m !! "finish_reason" = Some (VStr "stop")
    ∧ ChatMessage.meta m !! "usage" =
        Some (VDict [("prompt_tokens", VInt 0); ("completion_tokens", VInt 0)]).
Proof.
  destruct (non_streaming_reply_from_first_choice JsonDecode.json_decode
              (λ _, inr two_choice_output) false sample_self [] sample_kwargs None
              two_choice_output _ _ sample_state eq_refl eq_refl eq_refl)
    as (m & st' & Hrun & _ & Htext & Hcalls & _ & Hfinish & _ & Husage).
  { apply decoder_contained_escaping. repeat constructor. }
  exists m, st'. split; [exact Hrun|]. split; [exact Htext|].
  split; [|split; [exact Hfinish | exact Husage]].
  vm_compute in Hcalls. injection Hcalls as Hc _. symmetry. exact Hc.
Defined.

(** ** The synchronous and the asynchronous path *)

Section SyncAsync.
Variable isoformat_now : nat → string.

Lemma stream_body_cases cb ci prev ev st :
  let c := translated (isoformat_now (State.ticks st)) ev prev (Some ci) in
  stream_body isoformat_now cb ci prev ev st =
    (match Callback.call cb c with
     | Some e => inl e
     | None => inr (prev ++ [c])
     end, after_turn cb [c] st).
Proof.
  intros c. destruct (Callback.call cb c) as [e|] eqn:Hcall.
  - by apply stream_body_raises.
  - by apply stream_body_returns.
Qed.

(** The loop does the same from two states whose clocks agree, with two
    callbacks that do the same on every chunk. *)
Lemma stream_loop_same_ticks cb1 cb2 ci events : ∀ prev st1 st2,
  (∀ c, Callback.call cb1 c = Callback.call cb2 c) →
  State.ticks st1 = State.ticks st2 →
  ∃ res chunks,
    for_each (stream_body isoformat_now cb1 ci) prev events st1 =
      (res, after_turn cb1 chunks st1)
    ∧ for_each (stream_body isoformat_now cb2 ci) prev events st2 =
        (res, after_turn cb2 chunks st2).
Proof.
  induction events as [|ev evs IH]; intros prev st1 st2 Hsame Hticks; simpl.
  - exists (inr prev), []. unfold ret. by rewrite !after_turn_nil.
  - unfold bind. rewrite !stream_body_cases. rewrite <- Hticks.
    set (c := translated (isoformat_now (State.ticks st1)) ev prev (Some ci)).
    rewrite <- (Hsame c).
    destruct (Callback.call cb1 c) as [e|].
    + by exists (inl e), [c].
    + destruct (IH (prev ++ [c]) (after_turn cb1 [c] st1) (after_turn cb2 [c] st2))
        as (res & chunks & H1 & H2); [done | simpl; lia|].
      exists res, ([c] ++ chunks). by rewrite H1, H2, !after_turn_app.
Qed.
End SyncAsync.

(** X12: the synchronous and the asynchronous streaming path agree.  Take
    a synchronous callback for [_run_streaming] and a coroutine callback
    for [_run_streaming_async] that do the same on every chunk: when the
    vendor streams the same to both requests, the two paths return the same
    reply or raise the same exception, and the two callbacks receive the
    same chunks in the same order. *)
Theorem streaming_sync_async_agree
    (isoformat_now : nat → string)
    (chat_completion_stream : Request.t → exn + stream)
    (self : Self.t) (messages : list (gmap string value))
    (kwargs : gmap string pyval) (cb acb : Callback.t) (st : State.t) :
  Callback.is_async cb = false →
  Callback.is_async acb = true →
  (∀ c, Callback.call acb c = Callback.call cb c) →
  chat_completion_stream (stream_request true self messages kwargs) =
    chat_completion_stream (stream_request false self messages kwargs) →
  (_run_streaming_async isoformat_now chat_completion_stream self messages kwargs acb st).1 =
    (_run_streaming isoformat_now chat_completion_stream self messages kwargs cb st).1
  ∧ callbacks_of
      (State.trace
         (_run_streaming_async isoformat_now chat_completion_stream self messages
            kwargs acb st).2) =
    callbacks_of
      (State.trace
         (_run_streaming isoformat_now chat_completion_stream self messages kwargs cb st).2).
Proof.
  intros _ _ Hcall Hsame.
  rewrite (run_streaming_cases isoformat_now chat_completion_stream true).
  rewrite (run_streaming_cases isoformat_now chat_completion_stream false).
  cbv zeta. rewrite Hsame. clear Hsame.
  destruct (kwargs_clash _ kwargs); [split; reflexivity|].
  destruct (chat_completion_stream _) as [e|[events failure]].
  { split; [reflexivity|]. cbn [snd log_events State.trace].
    rewrite !callbacks_of_app. reflexivity. }
  destruct (stream_loop_same_ticks isoformat_now acb cb
              (from_component (Self.component_name self)) events []
              (log_events [EvRequest (stream_request true self messages kwargs)] st)
              (log_events [EvRequest (stream_request false self messages kwargs)] st)
              Hcall eq_refl) as (res & chunks & -> & ->).
  assert (Hcbs : ∀ cb' r,
    callbacks_of (State.trace (after_turn cb' chunks (log_events [EvRequest r] st))) =
      callbacks_of (State.trace st) ++ chunks).
  { intros cb' r. unfold after_turn, log_events. cbn [State.trace].
    rewrite !callbacks_of_app, callbacks_of_callbacks.
    unfold callbacks_of at 2. cbn. by rewrite app_nil_r. }
  destruct res as [e|cs]; [|destruct failure]; cbn [fst snd];
    (split; [reflexivity|]); by rewrite !Hcbs.
Qed.

(** The two paths against the same stream of three events, with a
    synchronous and a coroutine callback that both raise on the second
    chunk. *)
Lemma streaming_sync_async_agree_witness :
  Callback.is_async (raising_callback "is") = false
  ∧ Callback.is_async (async_raising_callback "is") = true
  ∧ (_run_streaming_async sample_clock
       (λ _, inr ([content_event "Par"; content_event "is"; content_event "!"], None))
       sample_self [] sample_kwargs (async_raising_callback "is") sample_state).1 =
      (_run_streaming sample_clock
         (λ _, inr ([content_event "Par"; content_event "is"; content_event "!"], None))
         sample_self [] sample_kwargs (raising_callback "is") sample_state).1
  ∧ (_run_streaming_async sample_clock sample_stream sample_self [] sample_kwargs
       async_print_streaming_chunk sample_state).1 =
      (_run_streaming sample_clock sample_stream sample_self [] sample_kwargs
         print_streaming_chunk sample_state).1.
Proof.
  split; [reflexivity|]. split; [reflexivity|]. split.
  - exact (proj1 (streaming_sync_async_agree sample_clock
                    (λ _, inr ([content_event "Par"; content_event "is";
                                content_event "!"], None))
                    sample_self [] sample_kwargs (raising_callback "is")
                    (async_raising_callback "is") sample_state
                    eq_refl eq_refl (λ _, eq_refl) eq_refl)).
  - exact (proj1 (streaming_sync_async_agree sample_clock sample_stream sample_self []
                    sample_kwargs print_streaming_chunk async_print_streaming_chunk
                    sample_state eq_refl eq_refl (λ _, eq_refl) eq_refl)).
Defined.

(** X13: the synchronous and the asynchronous non-streaming path agree:
    when the vendor answers both requests alike and the two clients name
    the same model, they return the same replies or raise the same
    exception. *)
Theorem non_streaming_sync_async_agree
    (json_loads : string → Json.result)
    (chat_completion : Request.t → exn + ChatOutput.t)
    (self : Self.t) (messages : list (gmap string value))
    (kwargs : gmap string pyval) (tools : option (list HFTool.t)) (st : State.t) :
  chat_completion (completion_request true self messages kwargs tools) =
    chat_completion (completion_request false self messages kwargs tools) →
  Client.model (Self._async_client self) = Client.model (Self._client self) →
  (_run_non_streaming_async json_loads chat_completion self messages kwargs tools st).1 =
    (_run_non_streaming json_loads chat_completion self messages kwargs tools st).1.
Proof.
  intros Hsame Hmodel.
  rewrite (run_non_streaming_cases json_loads chat_completion true).
  rewrite (run_non_streaming_cases json_loads chat_completion false).
  cbv zeta. rewrite Hsame. clear Hsame.
  destruct (kwargs_clash _ kwargs); [reflexivity|].
  destruct (chat_completion _) as [e|out]; [reflexivity|].
  destruct (ChatOutput.choices out) as [[|choice rest]|]; try reflexivity.
  cbv zeta. cbn [fst]. unfold completion_request. cbn [Request.client].
  unfold reply_with. by rewrite Hmodel.
Qed.

(** The two paths against the same two-choice response. *)
Lemma non_streaming_sync_async_agree_witness :
  (_run_non_streaming_async JsonDecode.json_decode (λ _, inr two_choice_output)
     sample_self [] sample_kwargs None sample_state).1 =
    (_run_non_streaming JsonDecode.json_decode (λ _, inr two_choice_output)
       sample_self [] sample_kwargs None sample_state).1.
Proof.
  apply (non_streaming_sync_async_agree JsonDecode.json_decode
           (λ _, inr two_choice_output) sample_self [] sample_kwargs None sample_state);
    reflexivity.
Defined.

(** ** The entry points *)

Section EntryFurther.
Variable json_loads : string → Json.result.
Variable isoformat_now : nat → string.
Variable convert_message_to_hf_format : ChatMessage.t → exn + gmap string value.
Variable chat_completion : Request.t → exn + ChatOutput.t.
Variable chat_completion_stream : Request.t → exn + stream.

Lemma run_streaming_heap (async : bool) self messages kwargs cb st :
  State.heap
    ((if async
      then _run_streaming_async isoformat_now chat_completion_stream self messages kwargs cb
      else _run_streaming isoformat_now chat_completion_stream self messages kwargs cb)
       st).2 = State.heap st.
Proof.
  rewrite run_streaming_cases. cbv zeta.
  destruct (kwargs_clash _ kwargs); [reflexivity|].
  destruct (chat_completion_stream _) as [e|[events failure]]; [reflexivity|].
  destruct (stream_loop_state isoformat_now cb (from_component (Self.component_name self))
              events []
              (log_events [EvRequest (stream_request async self messages kwargs)] st))
    as (res & chunks & ->).
  destruct res as [e|cs]; [|destruct failure]; reflexivity.
Qed.

Lemma run_non_streaming_heap (async : bool) self messages kwargs tools st :
  State.heap
    ((if async
      then _run_non_streaming_async json_loads chat_completion self messages kwargs tools
      else _run_non_streaming json_loads chat_completion self messages kwargs tools)
       st).2 = State.heap st.
Proof.
  rewrite run_non_streaming_cases. cbv zeta.
  destruct (kwargs_clash _ kwargs); [reflexivity|].
  destruct (chat_completion _) as [e|out]; [reflexivity|].
  destruct (ChatOutput.choices out) as [[|choice rest]|]; reflexivity.
Qed.

(** An entry point that cannot read the stored parameters raises at once. *)
Lemma entry_unreadable (async : bool) self messages kw tools cb st :
  (∀ d, State.heap st !! Self.generation_kwargs self ≠ Some (ODict d)) →
  entry json_loads isoformat_now convert_message_to_hf_format chat_completion
    chat_completion_stream async self messages kw tools cb st =
    (inl (AttributeError "dict"), st).
Proof.
  intros Hno. unfold entry.
  destruct async; unfold run_async, run; unfold bind at 1; unfold read_dict;
    destruct (State.heap st !! Self.generation_kwargs self) as [[d|]|] eqn:Hl;
    try reflexivity; by destruct (Hno d).
Qed.

Lemma entry_heap (async : bool) self messages kw tools cb st :
  State.heap
    (entry json_loads isoformat_now convert_message_to_hf_format chat_completion
       chat_completion_stream async self messages kw tools cb st).2 = State.heap st.
Proof.
  destruct (State.heap st !! Self.generation_kwargs self) as [[d|xs]|] eqn:Hl.
  - rewrite (entry_cases _ _ _ _ _ _ _ _ _ _ _ _ d Hl).
    destruct (format_all _ messages) as [e|formatted]; [reflexivity|].
    destruct (validated async self tools cb) as [e|[c|]]; [reflexivity| |].
    + apply run_streaming_heap.
    + apply run_non_streaming_heap.
  - rewrite entry_unreadable; [reflexivity|]. intros d. by rewrite Hl.
  - rewrite entry_unreadable; [reflexivity|]. intros d. by rewrite Hl.
Qed.

Lemma convert_effective_tools self tools :
  _convert_tools_to_hfapi_tools (toolset_to_list (tools_or tools (Self.tools self))) =
    match effective_tools self tools with
    | [] => None
    | ts => Some (map hf_tool_of ts)
    end.
Proof.
  unfold effective_tools, tools_or_empty, toolset_to_list, tools_truthy.
  destruct (tools_or tools (Self.tools self)) as [[ts|ts]|]; simpl;
    [by destruct ts | by destruct ts | done].
Qed.
End EntryFurther.

(** X14: the generation parameters of a call are the stored ones
    overridden key by key: whenever [run] or [run_async] issues a request,
    each key carries the value of the per-call override when the override
    has the key, and the stored value otherwise. *)
Theorem call_parameters_override_stored
    (json_loads : string → Json.result)
    (isoformat_now : nat → string)
    (convert_message_to_hf_format : ChatMessage.t → exn + gmap string value)
    (chat_completion : Request.t → exn + ChatOutput.t)
    (chat_completion_stream : Request.t → exn + stream)
    (async : bool) (self : Self.t) (messages : list ChatMessage.t)
    (kw : option (gmap string pyval)) (tools : option tools_arg)
    (cb : option Callback.t) (st : State.t) (d : gmap string pyval)
    (res : exn + Result.t) (st' : State.t) :
  State.heap st !! Self.generation_kwargs self = Some (ODict d) →
  (if async
   then run_async json_loads isoformat_now convert_message_to_hf_format
          chat_completion chat_completion_stream self messages kw tools cb
   else run json_loads isoformat_now convert_message_to_hf_format
          chat_completion chat_completion_stream self messages kw tools cb) st =
    (res, st') →
  (issues st st' [] ∧ ∃ e, res = inl e)
  ∨ ∃ r, issues st st' [r]
         ∧ ∀ k, Request.kwargs r !! k =
                  match kw ≫= (.!! k) with
                  | Some v => Some v
                  | None => d !! k
                  end.
Proof.
  intros Hheap Hrun.
  destruct (entry_issues json_loads isoformat_now convert_message_to_hf_format
              chat_completion chat_completion_stream async self messages kw tools cb
              st d res st' Hheap) as [Hquiet|(r & Hr & Hkwargs)].
  { unfold entry. by destruct async. }
  { by left. }
  right. exists r. split; [done|]. intros k. rewrite Hkwargs, dict_merge_lookup.
  destruct kw as [o|]; simpl; [done|]. by rewrite lookup_empty.
Qed.

(** A call that overrides [temperature] and leaves [max_tokens] alone. *)
Lemma call_parameters_override_stored_witness :
  ∃ res st' r,
    run JsonDecode.json_decode sample_clock sample_format sample_completion sample_stream
      sample_self [user_message "Weather in Paris?"]
      (Some (<["temperature" := PInt 0]> ∅)) None None sample_state = (res, st')
    ∧ issues sample_state st' [r]
    ∧ Request.kwargs r !! "temperature" = Some (PInt 0)
    ∧ Request.kwargs r !! "max_tokens" = Some (PInt 512).
Proof.
  destruct (run JsonDecode.json_decode sample_clock sample_format sample_completion
              sample_stream sample_self [user_message "Weather in Paris?"]
              (Some (<["temperature" := PInt 0]> ∅)) None None sample_state)
    as [res st'] eqn:Hrun.
  destruct (call_parameters_override_stored JsonDecode.json_decode sample_clock
              sample_format sample_completion sample_stream false sample_self
              [user_message "Weather in Paris?"] (Some (<["temperature" := PInt 0]> ∅))
              None None sample_state sample_kwargs res st' eq_refl Hrun)
    as [[_ [e He]]|(r & Hr & Hkw)].
  - exfalso. subst res. vm_compute in Hrun. discriminate Hrun.
  - exists res, st', r. split; [reflexivity|]. split; [exact Hr|].
    split; [exact (Hkw "temperature") | exact (Hkw "max_tokens")].
Defined.

(** X15: a call never changes the store: whatever [run] or [run_async]
    returns or raises, the stored generation parameters and every other
    object are as before the call. *)
Theorem call_leaves_store_unchanged
    (json_loads : string → Json.result)
    (isoformat_now : nat → string)
    (convert_message_to_hf_format : ChatMessage.t → exn + gmap string value)
    (chat_completion : Request.t → exn + ChatOutput.t)
    (chat_completion_stream : Request.t → exn + stream)
    (async : bool) (self : Self.t) (messages : list ChatMessage.t)
    (kw : option (gmap string pyval)) (tools : option tools_arg)
    (cb : option Callback.t) (st : State.t) :
  State.heap
    ((if async
      then run_async json_loads isoformat_now convert_message_to_hf_format
             chat_completion chat_completion_stream self messages kw tools cb
      else run json_loads isoformat_now convert_message_to_hf_format
             chat_completion chat_completion_stream self messages kw tools cb) st).2 =
    State.heap st.
Proof.
  pose proof (entry_heap json_loads isoformat_now convert_message_to_hf_format
                chat_completion chat_completion_stream async self messages kw tools cb st)
    as Hheap.
  unfold entry in Hheap. by destruct async.
Qed.

(** X16: the messages are formatted before anything is validated: when a
    message fails to format, [run] and [run_async] raise that error with
    nothing logged or sent, whatever the tools and callbacks are. *)
Theorem format_error_raised_first
    (json_loads : string → Json.result)
    (isoformat_now : nat → string)
    (convert_message_to_hf_format : ChatMessage.t → exn + gmap string value)
    (chat_completion : Request.t → exn + ChatOutput.t)
    (chat_completion_stream : Request.t → exn + stream)
    (async : bool) (self : Self.t) (messages : list ChatMessage.t)
    (kw : option (gmap string pyval)) (tools : option tools_arg)
    (cb : option Callback.t) (st : State.t) (d : gmap string pyval)
    (before : list ChatMessage.t) (m : ChatMessage.t) (after : list ChatMessage.t)
    (formatted : list (gmap string value)) (e : exn) :
  State.heap st !! Self.generation_kwargs self = Some (ODict d) →
  messages = before ++ m :: after →
  format_all convert_message_to_hf_format before = inr formatted →
  convert_message_to_hf_format m = inl e →
  (if async
   then run_async json_loads isoformat_now convert_message_to_hf_format
          chat_completion chat_completion_stream self messages kw tools cb
   else run json_loads isoformat_now convert_message_to_hf_format
          chat_completion chat_completion_stream self messages kw tools cb) st =
    (inl e, st).
Proof.
  intros Hheap -> Hbefore Hm.
  pose proof (entry_cases json_loads isoformat_now convert_message_to_hf_format
                chat_completion chat_completion_stream async self (before ++ m :: after)
                kw tools cb st d Hheap) as Hcases.
  assert (Hall : format_all convert_message_to_hf_format (before ++ m :: after) = inl e).
  { clear Hcases. revert formatted Hbefore.
    induction before as [|x xs IH]; intros formatted Hbefore; simpl.
    - by rewrite Hm.
    - simpl in Hbefore. destruct (convert_message_to_hf_format x) as [ex|y]; [done|].
      destruct (format_all convert_message_to_hf_format xs) as [exs|ys]; [done|].
      by rewrite (IH ys). }
  rewrite Hall in Hcases. unfold entry in Hcases. by destruct async.
Qed.

(** A message without text, with tools and a default callback in
    conflict. *)
Lemma format_error_raised_first_witness :
  run JsonDecode.json_decode sample_clock strict_format sample_completion sample_stream
    (callback_self print_streaming_chunk)
    [user_message "Weather in Paris?";
     {| ChatMessage.role := ChatRole.user; ChatMessage.text := None;
        ChatMessage.tool_calls := []; ChatMessage.meta := ∅ |}]
    None (Some (ToolList [weather_tool])) None sample_state =
    (inl (Propagated "message without content"), sample_state).
Proof.
  eapply (format_error_raised_first JsonDecode.json_decode sample_clock strict_format
            sample_completion sample_stream false (callback_self print_streaming_chunk)
            _ None (Some (ToolList [weather_tool])) None sample_state sample_kwargs
            [user_message "Weather in Paris?"]
            {| ChatMessage.role := ChatRole.user; ChatMessage.text := None;
               ChatMessage.tool_calls := []; ChatMessage.meta := ∅ |} []);
    reflexivity.
Defined.

(** X17: without any callback, a call issues exactly one non-streaming
    request, and its tool definitions are the effective tools in order,
    the call's tools when it has any and the component's otherwise, a
    [Toolset] being read as the list of its tools; with no effective tool
    the request carries no tool definitions at all. *)
Theorem non_streaming_request_carries_effective_tools
    (json_loads : string → Json.result)
    (isoformat_now : nat → string)
    (convert_message_to_hf_format : ChatMessage.t → exn + gmap string value)
    (chat_completion : Request.t → exn + ChatOutput.t)
    (chat_completion_stream : Request.t → exn + stream)
    (async : bool) (self : Self.t) (messages : list ChatMessage.t)
    (kw : option (gmap string pyval)) (tools : option tools_arg)
    (st : State.t) (d : gmap string pyval) (formatted : list (gmap string value)) :
  State.heap st !! Self.generation_kwargs self = Some (ODict d) →
  format_all convert_message_to_hf_format messages = inr formatted →
  Self.streaming_callback self = None →
  NoDup (map Tool.name (effective_tools self tools)) →
  kwargs_clash ["messages"; "tools"] (merged_kwargs d kw) = false →
  ∃ res st',
    (if async
     then run_async json_loads isoformat_now convert_message_to_hf_format
            chat_completion chat_completion_stream self messages kw tools None
     else run json_loads isoformat_now convert_message_to_hf_format
            chat_completion chat_completion_stream self messages kw tools None) st =
      (res, st')
    ∧ issues st st'
        [{| Request.async := async;
            Request.client := if async then Self._async_client self else Self._client self;
            Request.messages := formatted;
            Request.stream := false;
            Request.include_usage := false;
            Request.tools :=
              match effective_tools self tools with
              | [] => None
              | ts => Some (map hf_tool_of ts)
              end;
            Request.kwargs := merged_kwargs d kw |}].
Proof.
  intros Hheap Hformat Hnocb Hnodup Hclash.
  assert (Hrun :
    (if async
     then run_async json_loads isoformat_now convert_message_to_hf_format
            chat_completion chat_completion_stream self messages kw tools None
     else run json_loads isoformat_now convert_message_to_hf_format
            chat_completion chat_completion_stream self messages kw tools None) st =
      entry json_loads isoformat_now convert_message_to_hf_format chat_completion
        chat_completion_stream async self messages kw tools None st)
    by (unfold entry; by destruct async).
  rewrite Hrun, (entry_cases _ _ _ _ _ _ _ _ _ _ _ _ d Hheap), Hformat.
  unfold validated. rewrite Hnocb.
  rewrite (bool_decide_eq_false_2 (is_Some None)) by (by intros [? ?]).
  rewrite andb_false_r.
  unfold _check_duplicate_tool_names. unfold effective_tools in Hnodup.
  rewrite (bool_decide_eq_true_2 _ Hnodup). cbn [select_streaming_callback].
  rewrite convert_effective_tools. fold (merged_kwargs d kw).
  rewrite run_non_streaming_cases. cbv zeta. rewrite Hclash.
  unfold completion_request.
  destruct (chat_completion _) as [e|out].
  { eexists _, _. split; [reflexivity|]. apply issues_request. }
  destruct (ChatOutput.choices out) as [[|choice rest]|];
    eexists _, _; (split; [reflexivity|]);
    first [apply issues_request | apply issues_request_warnings].
Qed.

(** A call with its own tool list against a component with a toolset. *)
Lemma non_streaming_request_carries_effective_tools_witness :
  ∃ res st' r,
    run JsonDecode.json_decode sample_clock sample_format sample_completion sample_stream
      toolset_self [user_message "Weather in Paris?"] None
      (Some (ToolList [weather_tool; time_tool])) None sample_state = (res, st')
    ∧ issues sample_state st' [r]
    ∧ Request.tools r = Some [hf_tool_of weather_tool; hf_tool_of time_tool].
Proof.
  destruct (non_streaming_request_carries_effective_tools JsonDecode.json_decode
              sample_clock sample_format sample_completion sample_stream false
              toolset_self [user_message "Weather in Paris?"] None
              (Some (ToolList [weather_tool; time_tool])) sample_state sample_kwargs _
              eq_refl eq_refl eq_refl)
    as (res & st' & Hrun & Hissues).
  - repeat constructor; vm_compute; intros Hin.
    + apply list_elem_of_In in Hin. destruct Hin as [Heq|[]]. discriminate Heq.
    + apply list_elem_of_In in Hin. destruct Hin.
  - reflexivity.
  - eexists res, st', _. split; [exact Hrun|]. split; [exact Hissues | reflexivity].
Defined.

(** X18: when no tools are in effect and a callback is selected, a call
    issues exactly one request, and it is a streaming request that asks
    for usage reporting and carries no tool definitions. *)
Theorem streaming_request_shape
    (json_loads : string → Json.result)
    (isoformat_now : nat → string)
    (convert_message_to_hf_format : ChatMessage.t → exn + gmap string value)
    (chat_completion : Request.t → exn + ChatOutput.t)
    (chat_completion_stream : Request.t → exn + stream)
    (async : bool) (self : Self.t) (messages : list ChatMessage.t)
    (kw : option (gmap string pyval)) (tools : option tools_arg)
    (cb : option Callback.t) (c : Callback.t)
    (st : State.t) (d : gmap string pyval) (formatted : list (gmap string value)) :
  State.heap st !! Self.generation_kwargs self = Some (ODict d) →
  format_all convert_message_to_hf_format messages = inr formatted →
  tools_truthy (tools_or tools (Self.tools self)) = false →
  select_streaming_callback (Self.streaming_callback self) cb async = inr (Some c) →
  kwargs_clash ["messages"; "stream"; "stream_options"] (merged_kwargs d kw) = false →
  ∃ res st',
    (if async
     then run_async json_loads isoformat_now convert_message_to_hf_format
            chat_completion chat_completion_stream self messages kw tools cb
     else run json_loads isoformat_now convert_message_to_hf_format
            chat_completion chat_completion_stream self messages kw tools cb) st =
      (res, st')
    ∧ issues st st'
        [{| Request.async := async;
            Request.client := if async then Self._async_client self else Self._client self;
            Request.messages := formatted;
            Request.stream := true;
            Request.include_usage := true;
            Request.tools := None;
            Request.kwargs := merged_kwargs d kw |}].
Proof.
  intros Hheap Hformat Hnotools Hselect Hclash.
  assert (Hnodup : NoDup (map Tool.name (effective_tools self tools))).
  { unfold effective_tools, tools_or_empty. rewrite Hnotools. constructor. }
  assert (Hrun :
    (if async
     then run_async json_loads isoformat_now convert_message_to_hf_format
            chat_completion chat_completion_stream self messages kw tools cb
     else run json_loads isoformat_now convert_message_to_hf_format
            chat_completion chat_completion_stream self messages kw tools cb) st =
      entry json_loads isoformat_now convert_message_to_hf_format chat_completion
        chat_completion_stream async self messages kw tools cb st)
    by (unfold entry; by destruct async).
  rewrite Hrun, (entry_cases _ _ _ _ _ _ _ _ _ _ _ _ d Hheap), Hformat.
  unfold validated. rewrite Hnotools. cbn [andb].
  unfold _check_duplicate_tool_names. unfold effective_tools in Hnodup.
  rewrite (bool_decide_eq_true_2 _ Hnodup), Hselect.
  fold (merged_kwargs d kw).
  rewrite run_streaming_cases. cbv zeta. rewrite Hclash.
  fold (stream_request async self formatted (merged_kwargs d kw)).
  destruct (chat_completion_stream _) as [e|[events failure]].
  { eexists _, _. split; [reflexivity|]. apply issues_request. }
  destruct (stream_loop_state isoformat_now c (from_component (Self.component_name self))
              events []
              (log_events
                 [EvRequest (stream_request async self formatted (merged_kwargs d kw))] st))
    as (r & chunks & ->).
  destruct r as [e|cs]; [|destruct failure];
    eexists _, _; (split; [reflexivity|]); apply issues_after_turn.
Qed.

(** A call with a callback of its own and no tools. *)
Lemma streaming_request_shape_witness :
  ∃ res st' r,
    run JsonDecode.json_decode sample_clock sample_format sample_completion sample_stream
      sample_self [user_message "Weather in Paris?"] None None
      (Some print_streaming_chunk) sample_state = (res, st')
    ∧ issues sample_state st' [r]
    ∧ Request.stream r = true
    ∧ Request.include_usage r = true
    ∧ Request.tools r = None.
Proof.
  destruct (streaming_request_shape JsonDecode.json_decode sample_clock sample_format
              sample_completion sample_stream false sample_self
              [user_message "Weather in Paris?"] None None (Some print_streaming_chunk)
              print_streaming_chunk sample_state sample_kwargs _
              eq_refl eq_refl eq_refl eq_refl eq_refl)
    as (res & st' & Hrun & Hissues).
  eexists res, st', _. split; [exact Hrun|]. split; [exact Hissues|].
    repeat split.
Defined.

(** ** The constructor *)

(** X19: the constructor checks the API parameters first and leaves the
    store untouched when they are wrong: the serverless API without a
    [model] raises the missing-model error, or the error of the model
    check when that fails; an endpoint or a text-generation server without
    a [url] raises the missing-url error, and with a url that does not
    validate the invalid-url error naming it.  This holds whatever the
    other arguments are. *)
Theorem constructor_rejects_bad_api_params
    (check_valid_model : string → option Secret.t → option exn)
    (is_valid_http_url : string → bool)
    (InferenceClient_error AsyncInferenceClient_error : Client.t → option exn)
    (api_params : gmap string string) (token : option Secret.t)
    (generation_kwargs : option loc) (stop_words : option (list string))
    (streaming_callback : option Callback.t) (tools : option tools_arg)
    (name : option string) (st : State.t) :
  let init t :=
    __init__ check_valid_model is_valid_http_url InferenceClient_error
      AsyncInferenceClient_error (ApiEnum t) api_params token
      generation_kwargs stop_words streaming_callback tools name st in
  (api_params !! "model" = None →
     init HFGenerationAPIType.SERVERLESS_INFERENCE_API =
       (inl (ValueError MissingModel), st))
  ∧ (∀ model e,
       api_params !! "model" = Some model →
       check_valid_model model token = Some e →
       init HFGenerationAPIType.SERVERLESS_INFERENCE_API = (inl e, st))
  ∧ (api_params !! "url" = None →
       init HFGenerationAPIType.INFERENCE_ENDPOINTS = (inl (ValueError MissingUrl), st)
       ∧ init HFGenerationAPIType.TEXT_GENERATION_INFERENCE =
           (inl (ValueError MissingUrl), st))
  ∧ (∀ url,
       api_params !! "url" = Some url →
       is_valid_http_url url = false →
       init HFGenerationAPIType.INFERENCE_ENDPOINTS =
         (inl (ValueError (InvalidUrl url)), st)
       ∧ init HFGenerationAPIType.TEXT_GENERATION_INFERENCE =
           (inl (ValueError (InvalidUrl url)), st)).
Proof.
  intros init. unfold init, __init__. cbn [resolve_api_type lift].
  rewrite !bind_ret_l. unfold resolve_model_or_url.
  split; [by intros ->|].
  split; [by intros model e -> ->|].
  split; [by intros ->|].
  by intros url -> ->.
Qed.

(** The constructor on parameters without a model and on an invalid url. *)
Lemma constructor_rejects_bad_api_params_witness :
  __init__ sample_check_model sample_valid_url sample_client_error sample_client_error
    (ApiEnum HFGenerationAPIType.SERVERLESS_INFERENCE_API)
    (<["url" := "ftp://example.org"]> ∅) None (Some 1%positive) (Some ["STOP"]) None None
    None caller_state = (inl (ValueError MissingModel), caller_state)
  ∧ __init__ sample_check_model sample_valid_url sample_client_error sample_client_error
      (ApiEnum HFGenerationAPIType.TEXT_GENERATION_INFERENCE)
      (<["url" := "ftp://example.org"]> ∅) None (Some 1%positive) (Some ["STOP"]) None None
      None caller_state = (inl (ValueError (InvalidUrl "ftp://example.org")), caller_state).
Proof.
  destruct (constructor_rejects_bad_api_params sample_check_model sample_valid_url sample_client_error
              sample_client_error
              (<["url" := "ftp://example.org"]> ∅) None (Some 1%positive) (Some ["STOP"])
              None None None caller_state) as (Hmodel & _ & _ & Hurl).
  split.
  - by apply Hmodel.
  - by apply (Hurl "ftp://example.org").
Defined.

(** X20: when the API parameters are in order, the constructor rejects
    tools together with a callback, and then duplicate tool names, before
    it touches the generation parameters: the store is left as it was, so
    the caller's dict is not copied and its stop list is not extended. *)
Theorem constructor_validates_before_copying
    (check_valid_model : string → option Secret.t → option exn)
    (is_valid_http_url : string → bool)
    (InferenceClient_error AsyncInferenceClient_error : Client.t → option exn)
    (api_type : api_type_arg) (api_params : gmap string string)
    (token : option Secret.t) (generation_kwargs : option loc)
    (stop_words : option (list string)) (streaming_callback : option Callback.t)
    (tools : option tools_arg) (name : option string) (st : State.t)
    (t : HFGenerationAPIType.t) (model_or_url : string) :
  resolve_api_type api_type = inr t →
  resolve_model_or_url check_valid_model is_valid_http_url t api_params token =
    inr model_or_url →
  (tools_truthy tools = true → is_Some streaming_callback →
     __init__ check_valid_model is_valid_http_url InferenceClient_error
       AsyncInferenceClient_error api_type api_params token
       generation_kwargs stop_words streaming_callback tools name st =
       (inl (ValueError ToolsAndStreaming), st))
  ∧ (streaming_callback = None → ¬ NoDup (map Tool.name (tools_or_empty tools)) →
       __init__ check_valid_model is_valid_http_url InferenceClient_error
         AsyncInferenceClient_error api_type api_params token
         generation_kwargs stop_words streaming_callback tools name st =
         (inl (ValueError DuplicateToolNames), st)).
Proof.
  intros Hapi Hurl. unfold __init__. rewrite Hapi. cbn [lift]. rewrite bind_ret_l.
  rewrite Hurl. cbn [lift]. rewrite bind_ret_l.
  split.
  - intros -> Hcb. by rewrite (bool_decide_eq_true_2 _ Hcb).
  - intros -> Hdup.
    rewrite (bool_decide_eq_false_2 (is_Some None)) by (by intros [? ?]).
    rewrite andb_false_r, bind_ret_l.
    by rewrite (duplicates_rejected _ Hdup).
Qed.

(** Two tools of the same name, with and without a callback. *)
Lemma constructor_validates_before_copying_witness :
  __init__ sample_check_model sample_valid_url sample_client_error
    sample_client_error (ApiStr "text_generation_inference")
    endpoint_params None (Some 1%positive) (Some ["STOP"]) (Some print_streaming_chunk)
    (Some (ToolList [weather_tool; weather_tool])) None caller_state =
    (inl (ValueError ToolsAndStreaming), caller_state)
  ∧ __init__ sample_check_model sample_valid_url sample_client_error
      sample_client_error (ApiStr "text_generation_inference")
      endpoint_params None (Some 1%positive) (Some ["STOP"]) None
      (Some (ToolList [weather_tool; weather_tool])) None caller_state =
      (inl (ValueError DuplicateToolNames), caller_state).
Proof.
  assert (Hdup : ¬ NoDup (map Tool.name [weather_tool; weather_tool])).
  { intros Hnodup. apply NoDup_cons in Hnodup as [Hnotin _]. apply Hnotin. by left. }
  split.
  - refine (proj1 (constructor_validates_before_copying sample_check_model
             sample_valid_url sample_client_error
                 sample_client_error (ApiStr "text_generation_inference") endpoint_params None
             (Some 1%positive) (Some ["STOP"]) (Some print_streaming_chunk)
             (Some (ToolList [weather_tool; weather_tool])) None caller_state
             HFGenerationAPIType.TEXT_GENERATION_INFERENCE "http://localhost:8080"
             eq_refl eq_refl) eq_refl _).
    by eexists.
  - exact (proj2 (constructor_validates_before_copying sample_check_model
             sample_valid_url sample_client_error
                 sample_client_error (ApiStr "text_generation_inference") endpoint_params None
             (Some 1%positive) (Some ["STOP"]) None
             (Some (ToolList [weather_tool; weather_tool])) None caller_state
             HFGenerationAPIType.TEXT_GENERATION_INFERENCE "http://localhost:8080"
             eq_refl eq_refl) eq_refl Hdup).
Defined.

Lemma init_heap_stop (st : State.t) d words :
  stop_is_list st d →
  ∃ sl,
    default (PRef (fresh (dom (<[fresh (dom (State.heap st)) := ODict d]> (State.heap st)))))
      (d !! "stop") = PRef sl
    ∧ init_heap (State.heap st) d words !! sl = Some (OList (caller_stop st d ++ words))
    ∧ (∀ sl0, d !! "stop" = Some (PRef sl0) → sl = sl0).
Proof.
  intros Hstop. unfold stop_is_list in Hstop. unfold caller_stop.
  destruct (d !! "stop") as [[| | | | |sl0]|] eqn:Hs; try done.
  - destruct Hstop as [ys Hsl]. exists sl0. split; [done|]. rewrite Hsl.
    split; [by apply init_heap_extends_caller_stop | by intros ? [= ->]].
  - eexists. split; [reflexivity|]. split; [|done].
    unfold init_heap. rewrite Hs.
    rewrite lookup_insert_ne.
    + by rewrite lookup_insert_eq.
    + apply fresh_ne. rewrite lookup_insert_eq. by eexists.
Qed.

(** X21: a construction that succeeds, the two vendor clients being
    built, merges the stop words into the [stop] entry of the stored
    parameters: the entry refers to a list that holds the caller's stop
    elements followed by the stop words.  When the caller's dict has a stop
    list, that very list object is the one extended, so the caller sees the
    stop words in its own list. *)
Theorem constructor_merges_stop_words
    (check_valid_model : string → option Secret.t → option exn)
    (is_valid_http_url : string → bool)
    (InferenceClient_error AsyncInferenceClient_error : Client.t → option exn)
    (api_type : api_type_arg) (api_params : gmap string string)
    (token : option Secret.t) (generation_kwargs : option loc)
    (stop_words : option (list string)) (streaming_callback : option Callback.t)
    (tools : option tools_arg) (name : option string) (st : State.t)
    (t : HFGenerationAPIType.t) (model_or_url : string)
    (d : gmap string pyval) (tok : option string) :
  resolve_api_type api_type = inr t →
  resolve_model_or_url check_valid_model is_valid_http_url t api_params token =
    inr model_or_url →
  tools_truthy tools && bool_decide (is_Some streaming_callback) = false →
  NoDup (map Tool.name (tools_or_empty tools)) →
  caller_kwargs st generation_kwargs = Some d →
  stop_is_list st d →
  resolve_token token = inr tok →
  api_params !! "token" = None →
  InferenceClient_error (requested_client model_or_url tok api_params) = None →
  AsyncInferenceClient_error (requested_client model_or_url tok api_params) = None →
  ∃ self st' stored sl,
    __init__ check_valid_model is_valid_http_url InferenceClient_error
      AsyncInferenceClient_error api_type api_params token
      generation_kwargs stop_words streaming_callback tools name st = (inr self, st')
    ∧ State.heap st' !! Self.generation_kwargs self = Some (ODict stored)
    ∧ stored !! "stop" = Some (PRef sl)
    ∧ State.heap st' !! sl =
        Some (OList (caller_stop st d ++ map PStr (default [] stop_words)))
    ∧ (∀ sl0, d !! "stop" = Some (PRef sl0) → sl = sl0).
Proof.
  intros Hapi Hurl Hconf Hdup Hkw Hstop Htok Htoken Hsync Hasync.
  destruct (init_heap_stop st d (map PStr (default [] stop_words)) Hstop)
    as (sl & Hsl & Hlist & Hsame).
  eexists _, _, _, sl. split.
  { by eapply init_succeeds. }
  split; [apply init_heap_stored|].
  split; [|split; [exact Hlist | exact Hsame]].
  unfold with_max_tokens.
  destruct (_ !! "max_tokens");
    by rewrite ?(lookup_insert_ne _ "max_tokens" "stop") by done;
       rewrite lookup_insert_eq, Hsl.
Qed.

(** The caller's stop list [["END"]] after a construction with stop word
    [STOP]. *)
Lemma constructor_merges_stop_words_witness :
  ∃ self st',
    __init__ sample_check_model sample_valid_url sample_client_error
      sample_client_error (ApiStr "text_generation_inference")
      endpoint_params None (Some 1%positive) (Some ["STOP"]) None None None
      caller_state = (inr self, st')
    ∧ State.heap st' !! 2%positive = Some (OList [PStr "END"; PStr "STOP"]).
Proof.
  destruct (constructor_merges_stop_words sample_check_model sample_valid_url sample_client_error
              sample_client_error
              (ApiStr "text_generation_inference") endpoint_params None (Some 1%positive)
              (Some ["STOP"]) None None None caller_state
              HFGenerationAPIType.TEXT_GENERATION_INFERENCE "http://localhost:8080"
              caller_dict None eq_refl eq_refl eq_refl)
    as (self & st' & stored & sl & Hinit & _ & _ & Hlist & Hsame).
  - constructor.
  - reflexivity.
  - by exists [PStr "END"].
  - reflexivity.
  - reflexivity.
  - reflexivity.
  - reflexivity.
  - exists self, st'. split; [exact Hinit|].
    rewrite (Hsame 2%positive eq_refl) in Hlist. exact Hlist.
Defined.

(** X22: a construction that succeeds, the two vendor clients being
    built, keeps the caller's generation parameters: every key other than
    [stop] and [max_tokens] is stored with the caller's value, keys the
    caller did not give stay absent, and a [max_tokens] given by the caller
    is kept instead of the default. *)
Theorem constructor_keeps_caller_parameters
    (check_valid_model : string → option Secret.t → option exn)
    (is_valid_http_url : string → bool)
    (InferenceClient_error AsyncInferenceClient_error : Client.t → option exn)
    (api_type : api_type_arg) (api_params : gmap string string)
    (token : option Secret.t) (generation_kwargs : option loc)
    (stop_words : option (list string)) (streaming_callback : option Callback.t)
    (tools : option tools_arg) (name : option string) (st : State.t)
    (t : HFGenerationAPIType.t) (model_or_url : string)
    (d : gmap string pyval) (tok : option string) :
  resolve_api_type api_type = inr t →
  resolve_model_or_url check_valid_model is_valid_http_url t api_params token =
    inr model_or_url →
  tools_truthy tools && bool_decide (is_Some streaming_callback) = false →
  NoDup (map Tool.name (tools_or_empty tools)) →
  caller_kwargs st generation_kwargs = Some d →
  stop_is_list st d →
  resolve_token token = inr tok →
  api_params !! "token" = None →
  InferenceClient_error (requested_client model_or_url tok api_params) = None →
  AsyncInferenceClient_error (requested_client model_or_url tok api_params) = None →
  ∃ self st' stored,
    __init__ check_valid_model is_valid_http_url InferenceClient_error
      AsyncInferenceClient_error api_type api_params token
      generation_kwargs stop_words streaming_callback tools name st = (inr self, st')
    ∧ State.heap st' !! Self.generation_kwargs self = Some (ODict stored)
    ∧ (∀ k, k ≠ "stop" → k ≠ "max_tokens" → stored !! k = d !! k)
    ∧ (∀ v, d !! "max_tokens" = Some v → stored !! "max_tokens" = Some v).
Proof.
  intros Hapi Hurl Hconf Hdup Hkw Hstop Htok Htoken Hsync Hasync.
  eexists _, _, _. split.
  { by eapply init_succeeds. }
  split; [apply init_heap_stored|].
  unfold with_max_tokens.
  rewrite (lookup_insert_ne _ "stop" "max_tokens") by done.
  split.
  - intros k Hk1 Hk2. destruct (d !! "max_tokens");
      by rewrite ?(lookup_insert_ne _ "max_tokens" k) by done;
         rewrite lookup_insert_ne by done.
  - intros v Hv. rewrite Hv. by rewrite lookup_insert_ne.
Qed.

(** The caller's [temperature] is stored as given. *)
Lemma constructor_keeps_caller_parameters_witness :
  ∃ self st' stored,
    __init__ sample_check_model sample_valid_url sample_client_error
      sample_client_error (ApiStr "text_generation_inference")
      endpoint_params None (Some 1%positive) (Some ["STOP"]) None None None
      caller_state = (inr self, st')
    ∧ State.heap st' !! Self.generation_kwargs self = Some (ODict stored)
    ∧ stored !! "temperature" = Some (PInt 1)
    ∧ stored !! "top_p" = None.
Proof.
  destruct (constructor_keeps_caller_parameters sample_check_model sample_valid_url sample_client_error
              sample_client_error
              (ApiStr "text_generation_inference") endpoint_params None (Some 1%positive)
              (Some ["STOP"]) None None None caller_state
              HFGenerationAPIType.TEXT_GENERATION_INFERENCE "http://localhost:8080"
              caller_dict None eq_refl eq_refl eq_refl)
    as (self & st' & stored & Hinit & Hstored & Hkeys & _).
  - constructor.
  - reflexivity.
  - by exists [PStr "END"].
  - reflexivity.
  - reflexivity.
  - reflexivity.
  - reflexivity.
  - exists self, st', stored. split; [exact Hinit|]. split; [exact Hstored|].
    split; by rewrite Hkeys.
Defined.

(** X23: when the caller's [stop] entry is a scalar, such as a string or
    [None], the constructor raises [AttributeError] at the [extend], even
    without stop words; the caller's dict is left with its entries. *)
Theorem constructor_rejects_scalar_stop
    (check_valid_model : string → option Secret.t → option exn)
    (is_valid_http_url : string → bool)
    (InferenceClient_error AsyncInferenceClient_error : Client.t → option exn)
    (api_type : api_type_arg) (api_params : gmap string string)
    (token : option Secret.t) (l : loc)
    (stop_words : option (list string)) (streaming_callback : option Callback.t)
    (tools : option tools_arg) (name : option string) (st : State.t)
    (t : HFGenerationAPIType.t) (model_or_url : string)
    (d : gmap string pyval) (v : pyval) :
  resolve_api_type api_type = inr t →
  resolve_model_or_url check_valid_model is_valid_http_url t api_params token =
    inr model_or_url →
  tools_truthy tools && bool_decide (is_Some streaming_callback) = false →
  NoDup (map Tool.name (tools_or_empty tools)) →
  State.heap st !! l = Some (ODict d) →
  d !! "stop" = Some v →
  (∀ sl, v ≠ PRef sl) →
  ∃ st',
    __init__ check_valid_model is_valid_http_url InferenceClient_error
      AsyncInferenceClient_error api_type api_params token (Some l)
      stop_words streaming_callback tools name st = (inl (AttributeError "extend"), st')
    ∧ State.heap st' !! l = Some (ODict d)
    ∧ State.trace st' = State.trace st.
Proof.
  intros Hapi Hurl Hconf Hdup Hl Hstop Hscalar.
  unfold __init__. rewrite Hapi. cbn [lift]. rewrite bind_ret_l.
  rewrite Hurl. cbn [lift]. rewrite bind_ret_l.
  rewrite Hconf, bind_ret_l.
  unfold _check_duplicate_tool_names. rewrite (bool_decide_eq_true_2 _ Hdup).
  cbn [lift]. rewrite bind_ret_l.
  set (h := State.heap st) in *.
  set (l0 := fresh (dom h)).
  assert (Hne : d ≠ ∅) by (intros ->; by rewrite lookup_empty in Hstop).
  erewrite bind_inr; cycle 1.
  { erewrite bind_inr by (by apply read_dict_lookup).
    rewrite (bool_decide_eq_false_2 _ Hne). reflexivity. }
  fold h l0. set (h1 := <[l0 := ODict d]> h). set (l1 := fresh (dom h1)).
  erewrite bind_inr by (apply read_dict_lookup; simpl; apply lookup_insert_eq).
  unfold bind at 1. unfold alloc at 1. simpl. fold h1 l1.
  unfold bind at 1. unfold write at 1. simpl.
  erewrite bind_inr by (apply read_dict_lookup; simpl; apply lookup_insert_eq).
  rewrite lookup_insert_eq, Hstop. simpl.
  assert (l ≠ l0) by (apply fresh_ne; by eexists).
  assert (l ≠ l1).
  { apply fresh_ne. unfold h1. rewrite lookup_insert_ne by done. by eexists. }
  eexists. split.
  { unfold bind at 1. destruct v; try reflexivity. by destruct (Hscalar l2). }
  split; [|reflexivity].
  simpl. rewrite !lookup_insert_ne by done. unfold h1. by rewrite lookup_insert_ne.
Qed.

(** A caller who passes [stop] as a string. *)
Lemma constructor_rejects_scalar_stop_witness :
  ∃ st',
    __init__ sample_check_model sample_valid_url sample_client_error
      sample_client_error (ApiStr "text_generation_inference")
      endpoint_params None (Some 1%positive) None None None None scalar_stop_state =
      (inl (AttributeError "extend"), st').
Proof.
  destruct (constructor_rejects_scalar_stop sample_check_model sample_valid_url sample_client_error
              sample_client_error
              (ApiStr "text_generation_inference") endpoint_params None 1%positive
              None None None None scalar_stop_state
              HFGenerationAPIType.TEXT_GENERATION_INFERENCE "http://localhost:8080"
              (<["stop" := PStr "END"]> ∅) (PStr "END") eq_refl eq_refl eq_refl)
    as (st' & Hinit & _).
  - constructor.
  - reflexivity.
  - reflexivity.
  - discriminate.
  - by exists st'.
Defined.

(** X24: the two vendor clients are built last, from the same arguments:
    the model for the serverless API and the validated url otherwise, the
    resolved token, and every API parameter except [model] and [url].  When
    the API parameters have no [token] key and both vendor constructors
    accept, the construction succeeds with these two clients.  With a
    [token] key among the API parameters the construction raises
    [TypeError], the keyword being given twice; and what a vendor
    constructor raises, such as [TypeError] on a keyword it does not take,
    is raised by the construction.  In the failing cases the generation
    parameters have already been set up in the store. *)
Theorem constructor_builds_clients
    (check_valid_model : string → option Secret.t → option exn)
    (is_valid_http_url : string → bool)
    (InferenceClient_error AsyncInferenceClient_error : Client.t → option exn)
    (api_type : api_type_arg) (api_params : gmap string string)
    (token : option Secret.t) (generation_kwargs : option loc)
    (stop_words : option (list string)) (streaming_callback : option Callback.t)
    (tools : option tools_arg) (name : option string) (st : State.t)
    (t : HFGenerationAPIType.t) (model_or_url : string)
    (d : gmap string pyval) (tok : option string) :
  resolve_api_type api_type = inr t →
  resolve_model_or_url check_valid_model is_valid_http_url t api_params token =
    inr model_or_url →
  tools_truthy tools && bool_decide (is_Some streaming_callback) = false →
  NoDup (map Tool.name (tools_or_empty tools)) →
  caller_kwargs st generation_kwargs = Some d →
  stop_is_list st d →
  resolve_token token = inr tok →
  let init :=
    __init__ check_valid_model is_valid_http_url InferenceClient_error
      AsyncInferenceClient_error api_type api_params token
      generation_kwargs stop_words streaming_callback tools name st in
  let st' :=
    set_heap (init_heap (State.heap st) d (map PStr (default [] stop_words))) st in
  (api_params !! "token" = None →
   InferenceClient_error (requested_client model_or_url tok api_params) = None →
   AsyncInferenceClient_error (requested_client model_or_url tok api_params) = None →
   ∃ self,
     init = (inr self, st')
     ∧ Self._async_client self = Self._client self
     ∧ Client.model (Self._client self) = model_or_url
     ∧ Client.token (Self._client self) = tok
     ∧ api_params !!
         (if t is HFGenerationAPIType.SERVERLESS_INFERENCE_API then "model" else "url") =
         Some model_or_url
     ∧ Client.params (Self._client self) !! "model" = None
     ∧ Client.params (Self._client self) !! "url" = None
     ∧ (∀ k, k ≠ "model" → k ≠ "url" →
          Client.params (Self._client self) !! k = api_params !! k))
  ∧ (is_Some (api_params !! "token") →
     init = (inl (TypeError "got multiple values for keyword argument 'token'"), st'))
  ∧ (∀ e,
       api_params !! "token" = None →
       InferenceClient_error (requested_client model_or_url tok api_params) = Some e →
       init = (inl e, st'))
  ∧ (∀ e,
       api_params !! "token" = None →
       InferenceClient_error (requested_client model_or_url tok api_params) = None →
       AsyncInferenceClient_error (requested_client model_or_url tok api_params) = Some e →
       init = (inl e, st')).
Proof.
  intros Hapi Hurl Hconf Hdup Hkw Hstop Htok init st'.
  assert (Hinit : init =
    (match new_client InferenceClient_error model_or_url tok
             (filter (λ kv, kv.1 ≠ "model" ∧ kv.1 ≠ "url") api_params) with
     | inl e => inl e
     | inr client =>
         match new_client AsyncInferenceClient_error model_or_url tok
                 (filter (λ kv, kv.1 ≠ "model" ∧ kv.1 ≠ "url") api_params) with
         | inl e => inl e
         | inr async_client =>
             inr {| Self.api_type := t;
                    Self.api_params := api_params;
                    Self.token := token;
                    Self.generation_kwargs := fresh (dom (State.heap st));
                    Self.streaming_callback := streaming_callback;
                    Self._client := client;
                    Self._async_client := async_client;
                    Self.tools := tools;
                    Self.component_name := name |}
         end
     end, st')).
  { unfold init.
    rewrite (init_until_token _ _ _ _ _ _ _ _ _ _ _ _ _ _ _ _
               Hapi Hurl Hconf Hdup Hkw Hstop).
    by rewrite Htok. }
  rewrite Hinit. clear Hinit init.
  split.
  { intros Htoken Hsync Hasync. rewrite !new_client_accepts by done.
    eexists. split; [reflexivity|].
    unfold requested_client. cbn [Self._client Self._async_client Client.model
      Client.token Client.params].
    split; [done|]. split; [done|]. split; [done|].
    split.
    { unfold resolve_model_or_url in Hurl. destruct t.
      - destruct (api_params !! "url") as [url|]; [|done].
        destruct (is_valid_http_url url); [by injection Hurl as <- | done].
      - destruct (api_params !! "url") as [url|]; [|done].
        destruct (is_valid_http_url url); [by injection Hurl as <- | done].
      - destruct (api_params !! "model") as [model|]; [|done].
        destruct (check_valid_model model token); [done | by injection Hurl as <-]. }
    split; [apply map_lookup_filter_None; right; intros x _ [Hm _]; by apply Hm|].
    split; [apply map_lookup_filter_None; right; intros x _ [_ Hu]; by apply Hu|].
    intros k Hk1 Hk2. destruct (api_params !! k) as [x|] eqn:Hx.
    - by apply map_lookup_filter_Some.
    - apply map_lookup_filter_None. by left. }
  split.
  { intros [v Hv]. by rewrite (new_client_repeated_token _ _ _ _ v Hv). }
  split.
  { intros e Htoken Hsync. by rewrite (new_client_rejected _ _ _ _ e Htoken Hsync). }
  intros e Htoken Hsync Hasync.
  by rewrite (new_client_accepts _ _ _ _ Htoken Hsync),
             (new_client_rejected _ _ _ _ e Htoken Hasync).
Qed.

(** A text-generation server with a url and a timeout; the same with a
    [token] among the API parameters; the same with a keyword the vendor
    client does not take. *)
Lemma constructor_builds_clients_witness :
  (∃ self st',
     __init__ sample_check_model sample_valid_url sample_client_error sample_client_error
       (ApiStr "text_generation_inference")
       endpoint_params None None None None None None empty_state = (inr self, st')
     ∧ Client.model (Self._client self) = "http://localhost:8080"
     ∧ Client.params (Self._client self) !! "url" = None
     ∧ Client.params (Self._client self) !! "timeout" = Some "30")
  ∧ (∃ st',
       __init__ sample_check_model sample_valid_url sample_client_error
         sample_client_error (ApiStr "text_generation_inference")
         token_params None None None None None None empty_state =
         (inl (TypeError "got multiple values for keyword argument 'token'"), st'))
  ∧ (∃ st',
       __init__ sample_check_model sample_valid_url sample_client_error
         sample_client_error (ApiStr "text_generation_inference")
         unknown_params None None None None None None empty_state =
         (inl (TypeError "__init__() got an unexpected keyword argument"), st')).
Proof.
  split; [|split].
  - destruct (constructor_builds_clients sample_check_model sample_valid_url
                sample_client_error sample_client_error
                (ApiStr "text_generation_inference") endpoint_params None None None None
                None None empty_state
                HFGenerationAPIType.TEXT_GENERATION_INFERENCE "http://localhost:8080"
                ∅ None eq_refl eq_refl eq_refl (NoDup_nil_2 (A:=string)) eq_refl I eq_refl)
      as (Hbuilt & _).
    destruct (Hbuilt eq_refl eq_refl eq_refl)
      as (self & Hinit & _ & Hmodel & _ & _ & _ & Hurl & Hother).
    exists self. eexists. split; [exact Hinit|]. split; [exact Hmodel|].
    split; [exact Hurl|]. by rewrite Hother.
  - destruct (constructor_builds_clients sample_check_model sample_valid_url
                sample_client_error sample_client_error
                (ApiStr "text_generation_inference") token_params None None None None
                None None empty_state
                HFGenerationAPIType.TEXT_GENERATION_INFERENCE "http://localhost:8080"
                ∅ None eq_refl eq_refl eq_refl (NoDup_nil_2 (A:=string)) eq_refl I eq_refl)
      as (_ & Htoken & _).
    eexists. apply Htoken. by eexists.
  - destruct (constructor_builds_clients sample_check_model sample_valid_url
                sample_client_error sample_client_error
                (ApiStr "text_generation_inference") unknown_params None None None None
                None None empty_state
                HFGenerationAPIType.TEXT_GENERATION_INFERENCE "http://localhost:8080"
                ∅ None eq_refl eq_refl eq_refl (NoDup_nil_2 (A:=string)) eq_refl I eq_refl)
      as (_ & _ & Hunknown & _).
    eexists. by apply Hunknown.
Defined.

(** X25: the token is resolved after the generation parameters were set
    up: when it fails to resolve, the constructor raises that error, and
    the caller's stop list has already been extended with the stop
    words. *)
Theorem constructor_token_failure_after_stop_words
    (check_valid_model : string → option Secret.t → option exn)
    (is_valid_http_url : string → bool)
    (InferenceClient_error AsyncInferenceClient_error : Client.t → option exn)
    (api_type : api_type_arg) (api_params : gmap string string)
    (token : option Secret.t) (generation_kwargs : option loc)
    (stop_words : option (list string)) (streaming_callback : option Callback.t)
    (tools : option tools_arg) (name : option string) (st : State.t)
    (t : HFGenerationAPIType.t) (model_or_url : string)
    (d : gmap string pyval) (e : exn) :
  resolve_api_type api_type = inr t →
  resolve_model_or_url check_valid_model is_valid_http_url t api_params token =
    inr model_or_url →
  tools_truthy tools && bool_decide (is_Some streaming_callback) = false →
  NoDup (map Tool.name (tools_or_empty tools)) →
  caller_kwargs st generation_kwargs = Some d →
  stop_is_list st d →
  resolve_token token = inl e →
  ∃ st',
    __init__ check_valid_model is_valid_http_url InferenceClient_error
      AsyncInferenceClient_error api_type api_params token
      generation_kwargs stop_words streaming_callback tools name st = (inl e, st')
    ∧ (∀ sl ys,
         d !! "stop" = Some (PRef sl) →
         State.heap st !! sl = Some (OList ys) →
         State.heap st' !! sl = Some (OList (ys ++ map PStr (default [] stop_words)))).
Proof.
  intros Hapi Hurl Hconf Hdup Hkw Hstop Htok.
  eexists. split.
  { rewrite (init_until_token _ _ _ _ _ _ _ _ _ _ _ _ _ _ _ _ Hapi Hurl Hconf Hdup Hkw Hstop).
    rewrite Htok. reflexivity. }
  intros sl ys Hsl Hlist. by apply init_heap_extends_caller_stop.
Qed.

(** A token that does not resolve, against the caller's stop list. *)
Lemma constructor_token_failure_after_stop_words_witness :
  ∃ st',
    __init__ sample_check_model sample_valid_url sample_client_error
      sample_client_error (ApiStr "text_generation_inference")
      endpoint_params (Some unresolved_token) (Some 1%positive) (Some ["STOP"]) None None
      None caller_state = (inl (Propagated "token not set"), st')
    ∧ State.heap st' !! 2%positive = Some (OList [PStr "END"; PStr "STOP"]).
Proof.
  destruct (constructor_token_failure_after_stop_words sample_check_model
              sample_valid_url sample_client_error
                  sample_client_error (ApiStr "text_generation_inference") endpoint_params
              (Some unresolved_token) (Some 1%positive) (Some ["STOP"]) None None None
              caller_state HFGenerationAPIType.TEXT_GENERATION_INFERENCE
              "http://localhost:8080" caller_dict (Propagated "token not set")
              eq_refl eq_refl eq_refl)
    as (st' & Hinit & Hlist).
  - constructor.
  - reflexivity.
  - by exists [PStr "END"].
  - reflexivity.
  - exists st'. split; [exact Hinit|].
    exact (Hlist 2%positive [PStr "END"] eq_refl eq_refl).
Defined.

(** The constructor leaves alone every object other than the caller's stop
    list. *)
Lemma init_heap_frame h d words l o :
  h !! l = Some o →
  (∀ sl, d !! "stop" = Some (PRef sl) → sl ≠ l) →
  init_heap h d words !! l = Some o.
Proof.
  intros Hl Hnot. unfold init_heap.
  set (l0 := fresh (dom h)). set (h1 := <[l0 := ODict d]> h). set (l1 := fresh (dom h1)).
  assert (l ≠ l0) by (apply fresh_ne; by eexists).
  assert (l ≠ l1).
  { apply fresh_ne. unfold h1. rewrite lookup_insert_ne by done. by eexists. }
  rewrite lookup_insert_ne by done.
  assert (Hh3 : (<[l0 := ODict (<["stop" := default (PRef l1) (d !! "stop")]> d)]>
                   (<[l1 := OList []]> h1)) !! l = Some o).
  { rewrite !lookup_insert_ne by done. unfold h1. by rewrite lookup_insert_ne. }
  destruct (d !! "stop") as [[| | | | |sl]|]; try (by rewrite lookup_insert_ne).
  destruct (h !! sl) as [[|ys]|] eqn:Hsl; try done.
  rewrite lookup_insert_ne; [done|]. by apply Hnot.
Qed.

(** X26: two components constructed from the same [generation_kwargs]
    dict, with API parameters from which the vendor clients are built,
    share its stop list: each stores its own copy of the dict, but both
    copies refer to the caller's list object, which after the second
    construction holds the stop words of both, so the first component
    stops on the second component's stop words as well. *)
Theorem constructions_share_stop_list
    (check_valid_model : string → option Secret.t → option exn)
    (is_valid_http_url : string → bool)
    (InferenceClient_error AsyncInferenceClient_error : Client.t → option exn)
    (api_type : api_type_arg) (api_params : gmap string string)
    (token : option Secret.t) (l : loc)
    (words1 words2 : option (list string)) (streaming_callback : option Callback.t)
    (tools : option tools_arg) (name : option string) (st : State.t)
    (t : HFGenerationAPIType.t) (model_or_url : string)
    (d : gmap string pyval) (tok : option string) (sl : loc) (ys : list pyval) :
  resolve_api_type api_type = inr t →
  resolve_model_or_url check_valid_model is_valid_http_url t api_params token =
    inr model_or_url →
  tools_truthy tools && bool_decide (is_Some streaming_callback) = false →
  NoDup (map Tool.name (tools_or_empty tools)) →
  resolve_token token = inr tok →
  api_params !! "token" = None →
  InferenceClient_error (requested_client model_or_url tok api_params) = None →
  AsyncInferenceClient_error (requested_client model_or_url tok api_params) = None →
  State.heap st !! l = Some (ODict d) →
  d !! "stop" = Some (PRef sl) →
  State.heap st !! sl = Some (OList ys) →
  ∃ self1 st1 self2 st2 stored1 stored2,
    __init__ check_valid_model is_valid_http_url InferenceClient_error
      AsyncInferenceClient_error api_type api_params token (Some l)
      words1 streaming_callback tools name st = (inr self1, st1)
    ∧ __init__ check_valid_model is_valid_http_url InferenceClient_error
        AsyncInferenceClient_error api_type api_params token (Some l)
        words2 streaming_callback tools name st1 = (inr self2, st2)
    ∧ Self.generation_kwargs self1 ≠ Self.generation_kwargs self2
    ∧ State.heap st2 !! Self.generation_kwargs self1 = Some (ODict stored1)
    ∧ State.heap st2 !! Self.generation_kwargs self2 = Some (ODict stored2)
    ∧ stored1 !! "stop" = Some (PRef sl)
    ∧ stored2 !! "stop" = Some (PRef sl)
    ∧ State.heap st2 !! sl =
        Some (OList (ys ++ map PStr (default [] words1) ++ map PStr (default [] words2))).
Proof.
  intros Hapi Hurl Hconf Hdup Htok Htoken Hsync Hasync Hl Hstop Hsl.
  assert (Hkw : caller_kwargs st (Some l) = Some d) by (unfold caller_kwargs; by rewrite Hl).
  assert (Hlist : stop_is_list st d) by (unfold stop_is_list; rewrite Hstop; by eexists).
  set (h := State.heap st) in *.
  set (w1 := map PStr (default [] words1)). set (w2 := map PStr (default [] words2)).
  set (st1 := set_heap (init_heap h d w1) st).
  assert (Hl1 : State.heap st1 !! l = Some (ODict d)) by (by apply init_heap_caller).
  assert (Hsl1 : State.heap st1 !! sl = Some (OList (ys ++ w1)))
    by (by apply init_heap_extends_caller_stop).
  assert (Hkw1 : caller_kwargs st1 (Some l) = Some d)
    by (unfold caller_kwargs; by rewrite Hl1).
  assert (Hlist1 : stop_is_list st1 d)
    by (unfold stop_is_list; rewrite Hstop; by eexists).
  assert (Hstored : ∀ h' : gmap loc pyobj,
    (with_max_tokens
       (<["stop" := default (PRef (fresh (dom (<[fresh (dom h') := ODict d]> h'))))
                      (d !! "stop")]> d)) !! "stop" = Some (PRef sl)).
  { intros h'. unfold with_max_tokens. rewrite Hstop. simpl.
    destruct (_ !! "max_tokens");
      by rewrite ?(lookup_insert_ne _ "max_tokens" "stop") by done;
         rewrite lookup_insert_eq. }
  eexists _, st1, _, _, _, _. split.
  { by eapply init_succeeds. }
  split.
  { by eapply init_succeeds. }
  cbn [built_self Self.generation_kwargs set_heap State.heap].
  pose proof (init_heap_stored h d w1) as Hfirst.
  split; [apply fresh_ne; eexists; exact Hfirst|].
  split.
  { apply init_heap_frame; [exact Hfirst|].
    intros sl0 Hsl0. rewrite Hstop in Hsl0. injection Hsl0 as <-.
    apply fresh_ne. eexists. exact Hsl. }
  split; [apply init_heap_stored|].
  split; [apply Hstored|]. split; [apply Hstored|].
  fold w2. rewrite (init_heap_extends_caller_stop _ d w2 sl (ys ++ w1) Hstop Hsl1).
  by rewrite <- app_assoc.
Qed.

(** Two constructions from the caller's dict, with stop words [STOP] and
    [HALT]. *)
Lemma constructions_share_stop_list_witness :
  ∃ self1 st1 self2 st2,
    __init__ sample_check_model sample_valid_url sample_client_error
      sample_client_error (ApiStr "text_generation_inference")
      endpoint_params None (Some 1%positive) (Some ["STOP"]) None None None
      caller_state = (inr self1, st1)
    ∧ __init__ sample_check_model sample_valid_url sample_client_error
        sample_client_error (ApiStr "text_generation_inference")
        endpoint_params None (Some 1%positive) (Some ["HALT"]) None None None
        st1 = (inr self2, st2)
    ∧ State.heap st2 !! 2%positive =
        Some (OList [PStr "END"; PStr "STOP"; PStr "HALT"]).
Proof.
  destruct (constructions_share_stop_list sample_check_model sample_valid_url sample_client_error
              sample_client_error
              (ApiStr "text_generation_inference") endpoint_params None 1%positive
              (Some ["STOP"]) (Some ["HALT"]) None None None caller_state
              HFGenerationAPIType.TEXT_GENERATION_INFERENCE "http://localhost:8080"
              caller_dict None 2%positive [PStr "END"] eq_refl eq_refl eq_refl)
    as (self1 & st1 & self2 & st2 & stored1 & stored2 & H1 & H2 & _ & _ & _ & _ & _ & Hsl).
  - constructor.
  - reflexivity.
  - reflexivity.
  - reflexivity.
  - reflexivity.
  - reflexivity.
  - reflexivity.
  - reflexivity.
  - exists self1, st1, self2, st2.
    split; [exact H1|]. split; [exact H2 | exact Hsl].
Defined.
